(** * RMS: a shallow embedding of the real-time monitor engine

    The development follows [RealTimeMonitor.py] (the three per-account
    monitors and [RealTimeMonitorSystem]), [utils.calculate_margin_level]
    and the buy/sell classification of [Matrix_lot.py].

    Conventions of the embedding:
    - A number stored in a mapping (a Python [int], or a finite [float])
      is carried by its exact value, a rational ([Qc]); comparisons of
      numbers are exact, as they are in Python.  Float arithmetic ([+],
      [*], [/]) is IEEE 754 binary64, as specified by [SpecFloat] of the
      standard library: every operation rounds to nearest, ties to even,
      and can give an infinity or a NaN.
    - A broker mapping (a Python [dict] with string keys) is a
      [gmap string value]; the registry and the dictionaries the engine
      builds keep Python's insertion order and are association lists with
      unique keys ([pydict]).
    - Python code runs in the monad [Py S], a state monad over [S] with one
      exceptional outcome: state changes made before an exception is
      raised persist, as they do in Python.
    - The threads and the logger are not modelled; every operation is
      run to completion on its own.  The lock of the engine is modelled
      for the snapshots, which take it twice. *)

From Stdlib Require Import ZArith QArith Qcanon Lia Ascii String SpecFloat.
From stdpp Require Import gmap strings list numbers.

Open Scope Z_scope.

(** ** Python values *)

Definition time := Z.

(** The scalar values that occur in broker mappings and in the
    dictionaries built by the engine: [None], numbers, strings.  [VNum q]
    is the [int] or the finite [float] of exact value [q]; [VTime t] stands
    for the ISO-8601 rendering of the instant [t].  All of them are
    hashable. *)
Inductive value : Type :=
| VNone
| VNum (q : Qc)
| VStr (s : string)
| VTime (t : time).

#[global] Instance value_eq_dec : EqDecision value.
Proof. solve_decision. Defined.

#[global] Instance value_inhabited : Inhabited value := populate VNone.

Abbreviation dict := (gmap string value).

(** [d.get(key)] and [d.get(key, default)]. *)
Definition dict_get (d : dict) (key : string) : value :=
  default VNone (d !! key).

Definition dict_get_default (d : dict) (key : string) (dflt : value) : value :=
  default dflt (d !! key).

(** Truth value of a mapping-or-None and of a list. *)
Definition dict_truthy (d : option dict) : bool :=
  match d with
  | Some m => bool_decide (m ≠ ∅)
  | None => false
  end.

Definition list_truthy {A} (l : list A) : bool :=
  match l with [] => false | _ :: _ => true end.

Definition float (z : Z) : Qc := Qc_of_Z z.

(** ** Python floats

    A [float] is a binary64 number: [spec_float] at precision 53 and
    maximal exponent 1024. *)

Definition prec : Z := 53.
Definition emax : Z := 1024.

(** [0.0] *)
Definition fzero : spec_float := S754_zero false.

(** [x + y], [x * y], [x / y] (for [y] that is not zero) and [x == y] on
    floats. *)
Definition fadd (x y : spec_float) : spec_float := SFadd prec emax x y.
Definition fmul (x y : spec_float) : spec_float := SFmul prec emax x y.
Definition fdiv (x y : spec_float) : spec_float := SFdiv prec emax x y.
Definition feqb (x y : spec_float) : bool := SFeqb x y.

(** An integer as a binary number, not rounded. *)
Definition binary_of_Z (n : Z) : spec_float :=
  match n with
  | Z0 => S754_zero false
  | Zpos p => S754_finite false p 0
  | Zneg p => S754_finite true p 0
  end.

(** The float that a number enters float arithmetic as: the number itself
    when it is a float, and for an [int] the nearest float (ties to even).
    An [int] beyond the range of floats, on which Python raises
    [OverflowError], is not a value of the model; it would come out as an
    infinity. *)
Definition to_float (q : Qc) : spec_float :=
  fdiv (binary_of_Z (Qnum q)) (binary_of_Z (Zpos (Qden q))).

(** The exact value of a float that is finite. *)
Definition exact_value (x : spec_float) : option Qc :=
  match x with
  | S754_zero _ => Some (float 0)
  | S754_finite s m e =>
      Some (Q2Qc ((if s then -1 else 1) * inject_Z (Zpos m) * Qpower 2 e))
  | S754_infinity _ | S754_nan => None
  end.

(** ** Insertion-ordered dictionaries *)

Module pydict.
Section defs.
Context {K V : Type} `{EqDecision K}.

Definition t := list (K * V).

Definition keys (d : t) : list K := d.*1.

Fixpoint get (k : K) (d : t) : option V :=
  match d with
  | [] => None
  | (k', v) :: rest => if decide (k' = k) then Some v else get k rest
  end.

Definition contains (k : K) (d : t) : bool :=
  match get k d with Some _ => true | None => false end.

(** [d[k] = v]: an existing key keeps its place, a new one goes last. *)
Fixpoint set (k : K) (v : V) (d : t) : t :=
  match d with
  | [] => [(k, v)]
  | (k', v') :: rest =>
      if decide (k' = k) then (k', v) :: rest else (k', v') :: set k v rest
  end.

(** [del d[k]] (the caller has checked that the key is present). *)
Fixpoint del (k : K) (d : t) : t :=
  match d with
  | [] => []
  | (k', v') :: rest =>
      if decide (k' = k) then rest else (k', v') :: del k rest
  end.

Definition len (d : t) : Z := Z.of_nat (length d).

(** The representation invariant: no key occurs twice. *)
Definition wf (d : t) : Prop := NoDup (keys d).
End defs.
Arguments t : clear implicits.
End pydict.

(** ** Outcomes and the [Py] monad *)

Inductive outcome (A : Type) : Type :=
| Returned (a : A)
| Raised.
Arguments Returned {A} a.
Arguments Raised {A}.

Definition Py (S A : Type) : Type := S → outcome A * S.

Definition ret {S A} (a : A) : Py S A := λ s, (Returned a, s).

Definition bind {S A B} (m : Py S A) (k : A → Py S B) : Py S B :=
  λ s, match m s with
       | (Returned a, s') => k a s'
       | (Raised, s') => (Raised, s')
       end.

Definition raise {S A} : Py S A := λ s, (Raised, s).

(** [try: body except Exception: handler] *)
Definition try_except {S A} (body handler : Py S A) : Py S A :=
  λ s, match body s with
       | (Returned a, s') => (Returned a, s')
       | (Raised, s') => handler s'
       end.

Definition gets {S A} (f : S → A) : Py S A := λ s, (Returned (f s), s).
Definition modify {S} (f : S → S) : Py S unit := λ s, (Returned tt, f s).

(** Run a computation on a part of the state. *)
Definition zoom {S T A} (view : S → T) (update : T → S → S) (m : Py T A)
  : Py S A :=
  λ s, let '(r, t') := m (view s) in (r, update t' s).

Declare Scope py_scope.
Delimit Scope py_scope with py.
Notation "x <- m ;; k" := (bind m (λ x, k))
  (at level 100, m at next level, right associativity) : py_scope.
Notation "m ;;; k" := (bind m (λ _, k))
  (at level 100, right associativity) : py_scope.
Open Scope py_scope.

(** [for x in xs: body x] *)
Fixpoint for_each {S A} (xs : list A) (body : A → Py S unit) : Py S unit :=
  match xs with
  | [] => ret tt
  | x :: rest => body x ;;; for_each rest body
  end.

(** [for k, v in d.items(): body k], where the body works on the object
    [v] through its reference: the state of the body is the object paired
    with the rest of the state, and what the body leaves in the object is
    what the dictionary holds afterwards.  The body cannot add or delete
    entries. *)
Fixpoint for_items_from {K V G} (body : K → Py (V * G) unit)
    (items : pydict.t K V) (g : G) : outcome unit * (pydict.t K V * G) :=
  match items with
  | [] => (Returned tt, ([], g))
  | (k, v) :: rest =>
      match body k (v, g) with
      | (Returned _, (v', g')) =>
          let '(r, (rest', g'')) := for_items_from body rest g' in
          (r, ((k, v') :: rest', g''))
      | (Raised, (v', g')) => (Raised, ((k, v') :: rest, g'))
      end
  end.

Definition for_items {K V G} (body : K → Py (V * G) unit)
  : Py (pydict.t K V * G) unit :=
  λ s, for_items_from body s.1 s.2.

(** ** What the engine hands to its subscribers *)

(** [PositionMonitor.to_dict()] *)
Record positions_dict := {
  pd_login_id : Z;
  pd_positions : list dict;
  pd_position_count : Z;
  pd_symbols : list value;
  pd_last_update : value;
}.

(** One entry of [accounts_data]. *)
Record frame := {
  fr_account : dict;
  fr_positions : positions_dict;
  fr_trade_count : Z;
  fr_trades_last_update : value;
}.

Definition frame_login_id (f : frame) : value := dict_get (fr_account f) "login_id".

(** ** The world outside the engine *)

Inductive rpc : Type :=
| GetAccountDetails (login_id : Z)
| GetOpenPositions (login_id : Z)
| GetClosedTrades (login_id : Z) (from_date : time).

#[global] Instance rpc_eq_dec : EqDecision rpc.
Proof. solve_decision. Defined.

(** How a broker call ended: with data, with nothing, or by raising. *)
Inductive rpc_status : Type := Succeeded | Empty | Failed.

#[global] Instance rpc_status_eq_dec : EqDecision rpc_status.
Proof. solve_decision. Defined.

(** The environment: a logical clock (every reading of [datetime.now()]
    is one unit later than the previous one), the trace of the broker
    calls made so far, and the trace of the frame lists handed to the
    callbacks (callback index, list). *)
Record Env := {
  clock : time;
  rpc_log : list (rpc * rpc_status);
  delivered : list (nat * list frame);
}.

Definition datetime_now : Py Env time :=
  λ e, (Returned (clock e),
        {| clock := clock e + 1; rpc_log := rpc_log e; delivered := delivered e |}).

Definition log_rpc (call : rpc) (st : rpc_status) : Py Env unit :=
  modify (λ e, {| clock := clock e; rpc_log := rpc_log e ++ [(call, st)];
                  delivered := delivered e |}).

Definition log_delivery (i : nat) (data : list frame) : Py Env unit :=
  modify (λ e, {| clock := clock e; rpc_log := rpc_log e;
                  delivered := delivered e ++ [(i, data)] |}).

(** Thirty days, in seconds. *)
Definition timedelta_days (d : Z) : time := d * 86400.

(** The broker client ([Services.MT5ManagerActions], not part of the
    sources): [connected] is the truth value of its [manager] attribute;
    the answers of the three calls may depend on the moment and on the
    calls made before, and every call either returns or raises. *)
Record MT5ManagerActions := {
  connected : bool;
  get_account_details : Env → Z → outcome (option dict);
  get_open_positions : Env → Z → outcome (list dict);
  get_closed_trades : Env → Z → time → outcome (list dict);
}.

Definition status_of {A} (truthy : A → bool) (r : outcome A) : rpc_status :=
  match r with
  | Returned a => if truthy a then Succeeded else Empty
  | Raised => Failed
  end.

(** The three remote calls as actions on the environment. *)
Definition call_get_account_details (manager : MT5ManagerActions) (login_id : Z)
  : Py Env (option dict) :=
  λ e, let r := get_account_details manager e login_id in
       match log_rpc (GetAccountDetails login_id) (status_of dict_truthy r) e with
       | (_, e') => (r, e')
       end.

Definition call_get_open_positions (manager : MT5ManagerActions) (login_id : Z)
  : Py Env (list dict) :=
  λ e, let r := get_open_positions manager e login_id in
       match log_rpc (GetOpenPositions login_id) (status_of list_truthy r) e with
       | (_, e') => (r, e')
       end.

Definition call_get_closed_trades (manager : MT5ManagerActions) (login_id : Z)
    (from_date : time) : Py Env (list dict) :=
  λ e, let r := get_closed_trades manager e login_id from_date in
       match log_rpc (GetClosedTrades login_id from_date) (status_of list_truthy r) e with
       | (_, e') => (r, e')
       end.

(** A method of an object of type [T] runs on the object and the
    environment. *)
Definition on_env {T A} (m : Py Env A) : Py (T * Env) A :=
  zoom snd (λ e s, (s.1, e)) m.

Definition self {T} : Py (T * Env) T := gets fst.

Definition assign {T} (f : T → T) : Py (T * Env) unit :=
  modify (λ s, (f s.1, s.2)).

Definition isoformat (t : option time) : value :=
  match t with Some i => VTime i | None => VNone end.

(** ** class AccountMonitor *)

Module AccountMonitor.

Record t := {
  login_id : Z;
  balance : value;
  equity : value;
  margin : value;
  free_margin : value;
  margin_level : value;
  profit : value;
  last_update : option time;
  status : string;
  group : value;
  leverage : value;
}.

Definition __init__ (login_id : Z) : t :=
  {| login_id := login_id;
     balance := VNum (float 0); equity := VNum (float 0);
     margin := VNum (float 0); free_margin := VNum (float 0);
     margin_level := VNum (float 0); profit := VNum (float 0);
     last_update := None; status := "active";
     group := VStr ""; leverage := VNum (float 0) |}.

(** The eight assignments from [account_info]. *)
Definition set_details (account_info : dict) (a : t) : t :=
  {| login_id := login_id a;
     balance := dict_get_default account_info "balance" (VNum (float 0));
     equity := dict_get_default account_info "equity" (VNum (float 0));
     margin := dict_get_default account_info "margin" (VNum (float 0));
     free_margin := dict_get_default account_info "free_margin" (VNum (float 0));
     margin_level := dict_get_default account_info "margin_level" (VNum (float 0));
     profit := dict_get_default account_info "profit" (VNum (float 0));
     last_update := last_update a; status := status a;
     group := dict_get_default account_info "group" (VStr "");
     leverage := dict_get_default account_info "leverage" (VNum (float 0)) |}.

Definition set_last_update (now : time) (a : t) : t :=
  {| login_id := login_id a; balance := balance a; equity := equity a;
     margin := margin a; free_margin := free_margin a;
     margin_level := margin_level a; profit := profit a;
     last_update := Some now; status := status a;
     group := group a; leverage := leverage a |}.

Definition set_status (st : string) (a : t) : t :=
  {| login_id := login_id a; balance := balance a; equity := equity a;
     margin := margin a; free_margin := free_margin a;
     margin_level := margin_level a; profit := profit a;
     last_update := last_update a; status := st;
     group := group a; leverage := leverage a |}.

Definition to_dict (a : t) : dict :=
  {[ "login_id" := VNum (float (login_id a));
     "balance" := balance a;
     "equity" := equity a;
     "margin" := margin a;
     "free_margin" := free_margin a;
     "margin_level" := margin_level a;
     "profit" := profit a;
     "group" := group a;
     "leverage" := leverage a;
     "status" := VStr (status a);
     "last_update" := isoformat (last_update a) ]}.

(** [update] returns the dictionary of the account, or [None]. *)
Definition update (manager : MT5ManagerActions) : Py (t * Env) (option dict) :=
  try_except
    (me <- self ;;
     account_info <- on_env (call_get_account_details manager (login_id me)) ;;
     if dict_truthy account_info then
       assign (set_details (default ∅ account_info)) ;;;
       now <- on_env datetime_now ;;
       assign (set_last_update now) ;;;
       assign (set_status "active") ;;;
       me <- self ;;
       ret (Some (to_dict me))
     else
       assign (set_status "unavailable") ;;;
       ret None)
    (assign (set_status "error") ;;;
     ret None).

End AccountMonitor.

(** ** class PositionMonitor *)

Module PositionMonitor.

Record t := {
  login_id : Z;
  positions : list dict;
  last_update : option time;
}.

Definition __init__ (login_id : Z) : t :=
  {| login_id := login_id; positions := []; last_update := None |}.

Definition set_positions (ps : list dict) (p : t) : t :=
  {| login_id := login_id p; positions := ps; last_update := last_update p |}.

Definition set_last_update (now : time) (p : t) : t :=
  {| login_id := login_id p; positions := positions p; last_update := Some now |}.

Definition update (manager : MT5ManagerActions) : Py (t * Env) (list dict) :=
  try_except
    (me <- self ;;
     positions <- on_env (call_get_open_positions manager (login_id me)) ;;
     if list_truthy positions then
       assign (set_positions positions) ;;;
       now <- on_env datetime_now ;;
       assign (set_last_update now) ;;;
       gets (λ s, PositionMonitor.positions s.1)
     else
       assign (set_positions []) ;;;
       ret [])
    (ret []).

(** [pos.get('symbol') == symbol] *)
Definition has_symbol (symbol : value) (pos : dict) : Prop :=
  dict_get pos "symbol" = symbol.

#[global] Instance has_symbol_dec symbol pos : Decision (has_symbol symbol pos).
Proof. unfold has_symbol. apply _. Defined.

(** The comprehension [[pos for pos in self.positions if ...]] builds a
    new list of the stored dictionary objects themselves.  An object is
    referred to by its index in [self.positions]. *)
Fixpoint matching_from (symbol : value) (i : nat) (ps : list dict) : list nat :=
  match ps with
  | [] => []
  | pos :: rest =>
      if decide (has_symbol symbol pos)
      then i :: matching_from symbol (S i) rest
      else matching_from symbol (S i) rest
  end.

Definition get_positions_by_symbol (p : t) (symbol : value) : list nat :=
  matching_from symbol 0 (positions p).

(** Reading and writing through such a reference. *)
Definition deref (p : t) (i : nat) : dict := default ∅ (positions p !! i).

Definition setitem (i : nat) (key : string) (v : value) (p : t) : t :=
  set_positions (<[ i := <[ key := v ]> (deref p i) ]> (positions p)) p.

(** [defaultdict(float)[symbol] += volume]: a float addition of the
    number to the float held under [symbol] ([0.0] when the key is new);
    anything else than a number raises [TypeError]. *)
Definition add_volume (symbol volume : value)
  : Py (pydict.t value spec_float) unit :=
  match volume with
  | VNum q =>
      modify (λ d, pydict.set symbol
                     (fadd (default fzero (pydict.get symbol d)) (to_float q)) d)
  | _ =>
      modify (λ d, if pydict.contains symbol d then d
                   else pydict.set symbol fzero d) ;;;
      raise
  end.

Definition get_total_volume_by_symbol (p : t)
  : outcome (pydict.t value spec_float) :=
  let '(r, volume_by_symbol) :=
    for_each (positions p) (λ pos,
      let symbol := dict_get_default pos "symbol" (VStr "") in
      let volume := dict_get_default pos "volume" (VNum (float 0)) in
      add_volume symbol volume) [] in
  match r with
  | Returned _ => Returned volume_by_symbol
  | Raised => Raised
  end.

(** [list(set(...))]: the distinct symbols (Python leaves their order
    unspecified; they are listed here by first occurrence).  The symbols
    are values of the model, which are hashable, so building the set does
    not raise. *)
Definition to_dict (p : t) : positions_dict :=
  {| pd_login_id := login_id p;
     pd_positions := positions p;
     pd_position_count := Z.of_nat (length (positions p));
     pd_symbols :=
       remove_dups ((λ pos, dict_get_default pos "symbol" (VStr "")) <$> positions p);
     pd_last_update := isoformat (last_update p) |}.

End PositionMonitor.

(** ** class TradeMonitor *)

Module TradeMonitor.

Record t := {
  login_id : Z;
  trades : list dict;
  last_update : option time;
  from_date : time;
}.

Definition __init__ (login_id : Z) : Py Env t :=
  now <- datetime_now ;;
  ret {| login_id := login_id; trades := []; last_update := None;
         from_date := now - timedelta_days 30 |}.

Definition set_trades (ts : list dict) (m : t) : t :=
  {| login_id := login_id m; trades := ts; last_update := last_update m;
     from_date := from_date m |}.

Definition set_last_update (now : time) (m : t) : t :=
  {| login_id := login_id m; trades := trades m; last_update := Some now;
     from_date := from_date m |}.

Definition update (manager : MT5ManagerActions) : Py (t * Env) (list dict) :=
  try_except
    (me <- self ;;
     trades <- on_env (call_get_closed_trades manager (login_id me) (from_date me)) ;;
     if list_truthy trades then
       assign (set_trades trades) ;;;
       now <- on_env datetime_now ;;
       assign (set_last_update now) ;;;
       gets (λ s, TradeMonitor.trades s.1)
     else
       assign (set_trades []) ;;;
       ret [])
    (ret []).

End TradeMonitor.

(** ** class RealTimeMonitorSystem *)

(** The value stored per account: a dictionary with the three keys
    ['account'], ['positions'] and ['trades']. *)
Record monitors := {
  account : AccountMonitor.t;
  positions : PositionMonitor.t;
  trades : TradeMonitor.t;
}.

Record Stats := {
  total_updates : Z;
  stats_last_update : option time;
  errors : Z;
  monitored_count : Z;
}.

(** A subscriber callback: all the engine sees of it is whether it
    returns or raises. *)
Definition callback := list frame → outcome unit.

Record RealTimeMonitorSystem := {
  update_interval : Z;
  monitored_accounts : pydict.t Z monitors;
  manager : option MT5ManagerActions;
  running : bool;
  _callbacks : list callback;
  stats : Stats;
}.

Definition __init__ (update_interval : Z) : RealTimeMonitorSystem :=
  {| update_interval := update_interval;
     monitored_accounts := [];
     manager := None;
     running := false;
     _callbacks := [];
     stats := {| total_updates := 0; stats_last_update := None;
                 errors := 0; monitored_count := 0 |} |}.

Definition with_monitored_accounts
    (f : pydict.t Z monitors → pydict.t Z monitors)
    (r : RealTimeMonitorSystem) : RealTimeMonitorSystem :=
  {| update_interval := update_interval r;
     monitored_accounts := f (monitored_accounts r);
     manager := manager r; running := running r;
     _callbacks := _callbacks r; stats := stats r |}.

Definition with_stats (f : Stats → Stats) (r : RealTimeMonitorSystem)
  : RealTimeMonitorSystem :=
  {| update_interval := update_interval r;
     monitored_accounts := monitored_accounts r;
     manager := manager r; running := running r;
     _callbacks := _callbacks r; stats := f (stats r) |}.

Definition set_monitored_count (n : Z) (s : Stats) : Stats :=
  {| total_updates := total_updates s; stats_last_update := stats_last_update s;
     errors := errors s; monitored_count := n |}.

Definition set_total_updates (n : Z) (s : Stats) : Stats :=
  {| total_updates := n; stats_last_update := stats_last_update s;
     errors := errors s; monitored_count := monitored_count s |}.

Definition set_errors (n : Z) (s : Stats) : Stats :=
  {| total_updates := total_updates s; stats_last_update := stats_last_update s;
     errors := n; monitored_count := monitored_count s |}.

Definition set_stats_last_update (now : time) (s : Stats) : Stats :=
  {| total_updates := total_updates s; stats_last_update := Some now;
     errors := errors s; monitored_count := monitored_count s |}.

Abbreviation World := (RealTimeMonitorSystem * Env)%type.

(** [initialize], where [construct] is how the call [MT5ManagerActions()]
    ends. *)
Definition initialize (construct : outcome MT5ManagerActions) : Py World bool :=
  try_except
    (client <- (λ w, (construct, w)) ;;
     assign (λ r,
       {| update_interval := update_interval r;
          monitored_accounts := monitored_accounts r;
          manager := Some client; running := running r;
          _callbacks := _callbacks r; stats := stats r |}) ;;;
     if negb (connected client) then raise else ret true)
    (ret false).

Definition add_account (login_id : Z) : Py World unit :=
  me <- self ;;
  if negb (pydict.contains login_id (monitored_accounts me)) then
    trade_monitor <- on_env (TradeMonitor.__init__ login_id) ;;
    assign (with_monitored_accounts (pydict.set login_id
      {| account := AccountMonitor.__init__ login_id;
         positions := PositionMonitor.__init__ login_id;
         trades := trade_monitor |})) ;;;
    assign (λ me, with_stats
      (set_monitored_count (pydict.len (monitored_accounts me))) me)
  else ret tt.

Definition remove_account (login_id : Z) : Py World unit :=
  me <- self ;;
  if pydict.contains login_id (monitored_accounts me) then
    assign (with_monitored_accounts (pydict.del login_id)) ;;;
    assign (λ me, with_stats
      (set_monitored_count (pydict.len (monitored_accounts me))) me)
  else ret tt.

Definition add_callback (cb : callback) : Py World unit :=
  assign (λ r,
    {| update_interval := update_interval r;
       monitored_accounts := monitored_accounts r;
       manager := manager r; running := running r;
       _callbacks := _callbacks r ++ [cb]; stats := stats r |}).

(** *** One tick: [_update_all_accounts] *)

(** What the body of the loop over the registry can reach besides the
    monitors of the current account: the statistics, the local list
    [accounts_data] and the environment. *)
Record Ctx := {
  ctx_stats : Stats;
  accounts_data : list frame;
  ctx_env : Env;
}.

Definition on_account {A} (m : Py (AccountMonitor.t * Env) A)
  : Py (monitors * Ctx) A :=
  zoom (λ s, (account s.1, ctx_env s.2))
       (λ t s, ({| account := t.1; positions := positions s.1; trades := trades s.1 |},
                {| ctx_stats := ctx_stats s.2; accounts_data := accounts_data s.2;
                   ctx_env := t.2 |})) m.

Definition on_positions {A} (m : Py (PositionMonitor.t * Env) A)
  : Py (monitors * Ctx) A :=
  zoom (λ s, (positions s.1, ctx_env s.2))
       (λ t s, ({| account := account s.1; positions := t.1; trades := trades s.1 |},
                {| ctx_stats := ctx_stats s.2; accounts_data := accounts_data s.2;
                   ctx_env := t.2 |})) m.

Definition on_trades {A} (m : Py (TradeMonitor.t * Env) A)
  : Py (monitors * Ctx) A :=
  zoom (λ s, (trades s.1, ctx_env s.2))
       (λ t s, ({| account := account s.1; positions := positions s.1; trades := t.1 |},
                {| ctx_stats := ctx_stats s.2; accounts_data := accounts_data s.2;
                   ctx_env := t.2 |})) m.

Definition append_frame (f : frame) : Py (monitors * Ctx) unit :=
  modify (λ s, (s.1, {| ctx_stats := ctx_stats s.2;
                        accounts_data := accounts_data s.2 ++ [f];
                        ctx_env := ctx_env s.2 |})).

Definition count_error : Py (monitors * Ctx) unit :=
  modify (λ s, (s.1, {| ctx_stats := set_errors (errors (ctx_stats s.2) + 1) (ctx_stats s.2);
                        accounts_data := accounts_data s.2;
                        ctx_env := ctx_env s.2 |})).

(** The body of the [try] for one account. *)
Definition refresh (manager : MT5ManagerActions) : Py (monitors * Ctx) unit :=
  account_data <- on_account (AccountMonitor.update manager) ;;
  positions_data <- on_positions (PositionMonitor.update manager) ;;
  total <- gets (λ s, total_updates (ctx_stats s.2)) ;;
  trades_data <-
    (if decide (total `mod` 5 = 0)
     then on_trades (TradeMonitor.update manager)
     else gets (λ s, TradeMonitor.trades (trades s.1))) ;;
  if dict_truthy account_data then
    ms <- gets fst ;;
    append_frame
      {| fr_account := default ∅ account_data;
         fr_positions := PositionMonitor.to_dict (positions ms);
         fr_trade_count := Z.of_nat (length trades_data);
         fr_trades_last_update := isoformat (TradeMonitor.last_update (trades ms)) |}
  else ret tt.

Definition update_one (manager : MT5ManagerActions) (login_id : Z)
  : Py (monitors * Ctx) unit :=
  try_except (refresh manager) count_error.

(** The loop, with its local [accounts_data] starting empty. *)
Definition update_loop (manager : MT5ManagerActions) : Py World (list frame) :=
  zoom (λ w, (monitored_accounts w.1,
              {| ctx_stats := stats w.1; accounts_data := []; ctx_env := w.2 |}))
       (λ t w, (with_stats (λ _, ctx_stats t.2)
                  (with_monitored_accounts (λ _, t.1) w.1),
                ctx_env t.2))
       (for_items (update_one manager) ;;;
        gets (λ t, accounts_data t.2)).

Definition notify (data : list frame) (i : nat) (cb : callback) : Py World unit :=
  try_except
    (on_env (log_delivery i data) ;;;
     (λ w, (cb data, w)))
    (ret tt).

Definition _update_all_accounts : Py World unit :=
  me <- self ;;
  match manager me with
  | None => ret tt
  | Some manager =>
      data <- update_loop manager ;;
      assign (with_stats (λ s, set_total_updates (total_updates s + 1) s)) ;;;
      now <- on_env datetime_now ;;
      assign (with_stats (set_stats_last_update now)) ;;;
      me <- self ;;
      for_each (imap pair (_callbacks me)) (λ ic, notify data ic.1 ic.2)
  end.

(** [K] consecutive ticks. *)
Fixpoint run_ticks (K : nat) (w : World) : World :=
  match K with
  | O => w
  | S K' => run_ticks K' (_update_all_accounts w).2
  end.

(** *** The aggregator queries *)

(** [pos['login_id'] = login_id; all_positions.append(pos)]: the write
    goes to the stored object, and the object is what the list receives. *)
Definition tag_and_collect (login_id : Z) (i : nat)
  : Py (monitors * list dict) unit :=
  modify (λ s, ({| account := account s.1;
                   positions := PositionMonitor.setitem i "login_id"
                                  (VNum (float login_id)) (positions s.1);
                   trades := trades s.1 |}, s.2)) ;;;
  modify (λ s, (s.1, s.2 ++ [PositionMonitor.deref (positions s.1) i])).

Definition get_positions_by_symbol (symbol : value) : Py World (list dict) :=
  zoom (λ w, (monitored_accounts w.1, []))
       (λ t w, (with_monitored_accounts (λ _, t.1) w.1, w.2))
       (for_items (λ login_id,
          ms <- gets fst ;;
          let positions := PositionMonitor.get_positions_by_symbol (positions ms) symbol in
          for_each positions (tag_and_collect login_id)) ;;;
        gets snd).

Module Exposure.
Record entry := {
  volume : spec_float;
  accounts : Z;
  positions : Z;
}.

(** The [default_factory] of the [defaultdict]. *)
Definition fresh : entry := {| volume := fzero; accounts := 0; positions := 0 |}.

(** The three [+=] on [exposure[symbol]]; the first is a float
    addition. *)
Definition bump (v : spec_float) (n : Z) (e : entry) : entry :=
  {| volume := fadd (volume e) v; accounts := accounts e + 1;
     positions := positions e + n |}.
End Exposure.

Definition add_exposure (ms : monitors) (sv : value * spec_float)
  : Py (pydict.t value Exposure.entry) unit :=
  modify (λ exposure,
    let n := Z.of_nat (length (PositionMonitor.get_positions_by_symbol (positions ms) sv.1)) in
    pydict.set sv.1
      (Exposure.bump sv.2 n (default Exposure.fresh (pydict.get sv.1 exposure)))
      exposure).

(** The body of the loop over the registry. *)
Definition add_account_exposure (login_id : Z)
  : Py (monitors * pydict.t value Exposure.entry) unit :=
  ms <- gets fst ;;
  volume_by_symbol <-
    (λ s, (PositionMonitor.get_total_volume_by_symbol (positions ms), s)) ;;
  zoom snd (λ x s, (s.1, x))
    (for_each volume_by_symbol (add_exposure ms)).

Definition get_total_exposure_by_symbol
  : Py World (pydict.t value Exposure.entry) :=
  zoom (λ w, (monitored_accounts w.1, []))
       (λ t w, (with_monitored_accounts (λ _, t.1) w.1, w.2))
       (for_items add_account_exposure ;;;
        gets snd).

(** ** [utils.calculate_margin_level] *)

(** The arguments are floats, as annotated.  [margin == 0] holds of both
    zeros, and not of a NaN; [100] enters the product as the float
    [100.0]. *)
Definition calculate_margin_level (equity margin : spec_float) : spec_float :=
  if feqb margin fzero then fzero
  else fmul (fdiv equity margin) (to_float (float 100)).

(** ** The side of a position ([Matrix_lot.get_detailed_position_table]) *)

(** [x or y] on values: [x] when it is truthy, else [y]. *)
Definition value_truthy (v : value) : bool :=
  match v with
  | VNone => false
  | VNum q => bool_decide (q ≠ float 0)
  | VStr s => bool_decide (s ≠ "")
  | VTime _ => true
  end.

Definition py_or (x y : value) : value := if value_truthy x then x else y.

Definition is_space (c : ascii) : bool :=
  let n := nat_of_ascii c in
  ((9 <=? n) && (n <=? 13) || (28 <=? n) && (n <=? 32))%nat.

Fixpoint lstrip (cs : list ascii) : list ascii :=
  match cs with
  | c :: rest => if is_space c then lstrip rest else cs
  | [] => []
  end.

(** [s.strip()], on ASCII strings. *)
Definition strip (s : string) : string :=
  string_of_list_ascii
    (reverse (lstrip (reverse (lstrip (list_ascii_of_string s))))).

Definition lower_char (c : ascii) : ascii :=
  let n := nat_of_ascii c in
  if ((65 <=? n) && (n <=? 90))%nat then ascii_of_nat (n + 32) else c.

(** [s.lower()], on ASCII strings. *)
Definition lower (s : string) : string :=
  string_of_list_ascii (lower_char <$> list_ascii_of_string s).

Definition startswith (s pre : string) : bool := String.prefix pre s.

(** [int(x)] truncates towards zero. *)
Definition int (q : Qc) : Z := (Qnum q ÷ Z.pos (Qden q))%Z.

Definition is_buy (p : dict) : bool :=
  let order_type := py_or (dict_get p "type") (dict_get p "Type") in
  match order_type with
  | VNum q => bool_decide (int q = 0)
  | VStr s => startswith (lower (strip s)) "b"
  | _ => true
  end.

(** [net_volume = volume if is_buy else -volume], on the float that
    [float(volume)] gave. *)
Definition net_volume (volume : spec_float) (p : dict) : spec_float :=
  if is_buy p then volume else SFopp volume.


(** ** [config.RMSConfig] *)

Module RMSConfig.

(** The settings, as the class attributes hold them once the environment
    has been read. *)
Record t := {
  MT5_HOST : string;
  MT5_PORT : Z;
  MT5_MANAGER_USER : Z;
  MT5_MANAGER_PASS : string;
  UPDATE_INTERVAL : Z;
  TRADE_HISTORY_DAYS : Z;
  WS_HOST : string;
  WS_PORT : Z;
  CACHE_DURATION : Z;
  LOG_LEVEL : string;
  LOG_FILE : string;
  EXPORT_DIR : string;
  MARGIN_LEVEL_WARNING : Qc;
  MARGIN_LEVEL_CRITICAL : Qc;
  MAX_LOSS_THRESHOLD : Qc;
  MAX_MONITORED_ACCOUNTS : Z;
  BATCH_SIZE : Z;
}.

(** The values taken when the environment sets nothing. *)
Definition defaults : t :=
  {| MT5_HOST := "localhost"; MT5_PORT := 443; MT5_MANAGER_USER := 0;
     MT5_MANAGER_PASS := ""; UPDATE_INTERVAL := 5; TRADE_HISTORY_DAYS := 30;
     WS_HOST := "0.0.0.0"; WS_PORT := 8765; CACHE_DURATION := 300;
     LOG_LEVEL := "INFO"; LOG_FILE := "rms.log"; EXPORT_DIR := "exports";
     MARGIN_LEVEL_WARNING := float 150; MARGIN_LEVEL_CRITICAL := float 100;
     MAX_LOSS_THRESHOLD := float (-1000);
     MAX_MONITORED_ACCOUNTS := 100000; BATCH_SIZE := 100 |}.

End RMSConfig.

(** ** More of [utils] *)

Definition check_margin_alert (cfg : RMSConfig.t) (margin_level : Qc) : option string :=
  if decide (margin_level ≤ RMSConfig.MARGIN_LEVEL_CRITICAL cfg)%Qc then Some "critical"
  else if decide (margin_level ≤ RMSConfig.MARGIN_LEVEL_WARNING cfg)%Qc then Some "warning"
  else None.

Definition check_loss_alert (cfg : RMSConfig.t) (profit : Qc) : bool :=
  bool_decide (profit ≤ RMSConfig.MAX_LOSS_THRESHOLD cfg)%Qc.

(** [v <= q] for a value read from a mapping: only a number can be
    compared with a float, anything else raises [TypeError]. *)
Definition py_le (v : value) (q : Qc) : outcome bool :=
  match v with
  | VNum x => Returned (bool_decide (x ≤ q)%Qc)
  | _ => Raised
  end.

Definition get_account_health_status (cfg : RMSConfig.t) (account : dict)
  : outcome string :=
  let margin_level := dict_get_default account "margin_level" (VNum (float 0)) in
  let profit := dict_get_default account "profit" (VNum (float 0)) in
  match py_le margin_level (RMSConfig.MARGIN_LEVEL_CRITICAL cfg) with
  | Raised => Raised
  | Returned true => Returned "critical"
  | Returned false =>
      match py_le margin_level (RMSConfig.MARGIN_LEVEL_WARNING cfg) with
      | Raised => Raised
      | Returned true => Returned "warning"
      | Returned false =>
          match py_le profit (RMSConfig.MAX_LOSS_THRESHOLD cfg) with
          | Raised => Raised
          | Returned true => Returned "warning"
          | Returned false => Returned "healthy"
          end
      end
  end.

(** [grouped[symbol].append(position)], after [grouped[symbol] = []] for
    a symbol that is new. *)
Definition group_position (position : dict) : Py (pydict.t value (list dict)) unit :=
  let symbol := dict_get_default position "symbol" (VStr "UNKNOWN") in
  modify (λ grouped,
    if negb (pydict.contains symbol grouped) then pydict.set symbol [] grouped
    else grouped) ;;;
  modify (λ grouped,
    pydict.set symbol (default [] (pydict.get symbol grouped) ++ [position]) grouped).

Definition group_positions_by_symbol (positions : list dict)
  : pydict.t value (list dict) :=
  (for_each positions group_position []).2.

Definition upper_char (c : ascii) : ascii :=
  let n := nat_of_ascii c in
  if ((97 <=? n) && (n <=? 122))%nat then ascii_of_nat (n - 32) else c.

(** [s.upper()], on ASCII strings. *)
Definition upper (s : string) : string :=
  string_of_list_ascii (upper_char <$> list_ascii_of_string s).

(** [symbol.strip().upper() if symbol else ''] *)
Definition sanitize_symbol (symbol : string) : string :=
  if bool_decide (symbol ≠ "") then upper (strip symbol) else "".

(** ** The views of [TradeMonitor] *)

(** The stored trades are mappings (the monitor reads their symbol with
    [trade.get('symbol')]).  The
    attributes of a mapping are those of the class [dict], whatever its
    keys: a field of a trade is a key, not an attribute. *)
Definition dict_attributes : list string :=
  ["__class__"; "__class_getitem__"; "__contains__"; "__delattr__";
   "__delitem__"; "__dir__"; "__doc__"; "__eq__"; "__format__"; "__ge__";
   "__getattribute__"; "__getitem__"; "__getstate__"; "__gt__"; "__hash__";
   "__init__"; "__init_subclass__"; "__ior__"; "__iter__"; "__le__";
   "__len__"; "__lt__"; "__ne__"; "__new__"; "__or__"; "__reduce__";
   "__reduce_ex__"; "__repr__"; "__reversed__"; "__ror__"; "__setattr__";
   "__setitem__"; "__sizeof__"; "__str__"; "__subclasshook__"; "clear";
   "copy"; "fromkeys"; "get"; "items"; "keys"; "pop"; "popitem";
   "setdefault"; "update"; "values"].

(** [hasattr(t, name)] *)
Definition hasattr (t : dict) (name : string) : bool :=
  bool_decide (name ∈ dict_attributes).

(** The calendar day of an instant. *)
Definition date_of (t : time) : Z := t `div` 86400.

(** [[t for t in trades if hasattr(t, name) and
    datetime.fromtimestamp(t.name).date() == today]]: a trade without the
    attribute is left out; where a mapping has the attribute it is a
    method or another attribute of the class, not a number, and
    [fromtimestamp] raises [TypeError] on it. *)
Fixpoint dated (name : string) (today : Z) (trades : list dict)
  : outcome (list dict) :=
  match trades with
  | [] => Returned []
  | t :: rest => if hasattr t name then Raised else dated name today rest
  end.

(** [sum(getattr(t, name, 0) for t in trades)]: from the integer [0], a
    trade without the attribute counts for the default [0]; adding an
    attribute of the class raises [TypeError]. *)
Fixpoint sum_attribute (name : string) (trades : list dict) (acc : Z)
  : outcome Z :=
  match trades with
  | [] => Returned acc
  | t :: rest =>
      if hasattr t name then Raised else sum_attribute name rest (acc + 0)
  end.

Record daily_stats := {
  ds_trade_count : Z;
  ds_total_volume : Qc;
  ds_total_profit : Qc;
  ds_date : Z;
}.

Definition TradeMonitor_get_daily_stats (t : TradeMonitor.t) : Py Env daily_stats :=
  now <- datetime_now ;;
  let today := date_of now in
  today_trades <- (λ e, (dated "Time" today (TradeMonitor.trades t), e)) ;;
  total_volume <- (λ e, (sum_attribute "Volume" today_trades 0, e)) ;;
  total_profit <- (λ e, (sum_attribute "Profit" today_trades 0, e)) ;;
  ret {| ds_trade_count := Z.of_nat (length today_trades);
         ds_total_volume := float total_volume;
         ds_total_profit := float total_profit;
         ds_date := today |}.

Record trades_dict := {
  td_login_id : Z;
  td_trade_count : Z;
  td_trades : list dict;
  td_daily_stats : daily_stats;
  td_last_update : value;
}.

Definition TradeMonitor_to_dict (t : TradeMonitor.t) : Py Env trades_dict :=
  stats <- TradeMonitor_get_daily_stats t ;;
  ret {| td_login_id := TradeMonitor.login_id t;
         td_trade_count := Z.of_nat (length (TradeMonitor.trades t));
         td_trades := take 100 (TradeMonitor.trades t);
         td_daily_stats := stats;
         td_last_update := isoformat (TradeMonitor.last_update t) |}.

(** ** The snapshots and the lock *)

Record snapshot := {
  snap_account : dict;
  snap_positions : positions_dict;
  snap_trades : trades_dict;
}.

(** The body of [get_account_snapshot], inside [with self._lock]. *)
Definition account_snapshot (login_id : Z) : Py World (option snapshot) :=
  me <- self ;;
  match pydict.get login_id (monitored_accounts me) with
  | None => ret None
  | Some monitors =>
      trades_view <- on_env (TradeMonitor_to_dict (trades monitors)) ;;
      ret (Some {| snap_account := AccountMonitor.to_dict (account monitors);
                   snap_positions := PositionMonitor.to_dict (positions monitors);
                   snap_trades := trades_view |})
  end.

(** [self._lock] is a [threading.Lock]: it is not reentrant.  A call
    either completes, with a value or an exception, or blocks for ever on
    acquiring a lock that is held; the state records whether the lock is
    held. *)
Inductive progress (A : Type) : Type :=
| Completed (r : outcome A)
| Blocked.
Arguments Completed {A} r.
Arguments Blocked {A}.

Definition Locking (A : Type) : Type := World * bool → progress A * (World * bool).

(** [with self._lock: body]: the lock is released when the body completes,
    also by an exception. *)
Definition with_lock {A} (body : Locking A) : Locking A :=
  λ s, if s.2 then (Blocked, s)
       else match body (s.1, true) with
            | (Completed r, s') => (Completed r, (s'.1, false))
            | (Blocked, s') => (Blocked, s')
            end.

(** Code that does not touch the lock. *)
Definition unlocked {A} (m : Py World A) : Locking A :=
  λ s, let '(r, w') := m s.1 in (Completed r, (w', s.2)).

Definition get_account_snapshot (login_id : Z) : Locking (option snapshot) :=
  with_lock (unlocked (account_snapshot login_id)).

(** The loop of [get_all_accounts_snapshot] over the keys, with its local
    dictionary [snapshots]. *)
Fixpoint snapshot_loop (keys : list Z) (snapshots : pydict.t Z snapshot)
  : Locking (pydict.t Z snapshot) :=
  match keys with
  | [] => λ s, (Completed (Returned snapshots), s)
  | login_id :: rest =>
      λ s, match get_account_snapshot login_id s with
           | (Completed (Returned (Some snap)), s') =>
               snapshot_loop rest (pydict.set login_id snap snapshots) s'
           | (Completed (Returned None), s') => snapshot_loop rest snapshots s'
           | (Completed Raised, s') => (Completed Raised, s')
           | (Blocked, s') => (Blocked, s')
           end
  end.

Definition get_all_accounts_snapshot : Locking (pydict.t Z snapshot) :=
  with_lock (λ s, snapshot_loop (pydict.keys (monitored_accounts s.1.1)) [] s).

(** [add_account] as it is called, under the lock. *)
Definition add_account_locked (login_id : Z) : Locking unit :=
  with_lock (unlocked (add_account login_id)).

(** ** Starting and stopping *)

Definition set_running (b : bool) (r : RealTimeMonitorSystem) : RealTimeMonitorSystem :=
  {| update_interval := update_interval r;
     monitored_accounts := monitored_accounts r;
     manager := manager r; running := b;
     _callbacks := _callbacks r; stats := stats r |}.

(** [start], where [construct] is how the call [MT5ManagerActions()] of
    [initialize] would end.  The thread that [start] creates runs the
    ticks ([run_ticks]); its handle is not part of the state. *)
Definition start (construct : outcome MT5ManagerActions) : Py World bool :=
  me <- self ;;
  initialized <-
    (match manager me with
     | None => initialize construct
     | Some _ => ret true
     end) ;;
  if negb initialized then ret false
  else
    me <- self ;;
    if running me then ret false
    else assign (set_running true) ;;; ret true.

Definition stop : Py World unit :=
  me <- self ;;
  if negb (running me) then ret tt
  else assign (set_running false).

(** ** Registering the accounts of the command line ([cli.start_monitor])

    [for login_id in args.accounts: rms.add_account(login_id)] *)
Definition add_accounts (accounts : list Z) : Py World unit :=
  for_each accounts add_account.
(** * Vocabulary of the properties *)

(** The eight detail fields of [a'] are those of [a]. *)
Definition same_details (a a' : AccountMonitor.t) : Prop :=
  AccountMonitor.balance a' = AccountMonitor.balance a ∧
  AccountMonitor.equity a' = AccountMonitor.equity a ∧
  AccountMonitor.margin a' = AccountMonitor.margin a ∧
  AccountMonitor.free_margin a' = AccountMonitor.free_margin a ∧
  AccountMonitor.margin_level a' = AccountMonitor.margin_level a ∧
  AccountMonitor.profit a' = AccountMonitor.profit a ∧
  AccountMonitor.group a' = AccountMonitor.group a ∧
  AccountMonitor.leverage a' = AccountMonitor.leverage a.

(** The eight detail fields of [a'] are read from [info], with the
    defaults of the source for the keys [info] lacks. *)
Definition details_from (info : dict) (a' : AccountMonitor.t) : Prop :=
  AccountMonitor.balance a' = dict_get_default info "balance" (VNum (float 0)) ∧
  AccountMonitor.equity a' = dict_get_default info "equity" (VNum (float 0)) ∧
  AccountMonitor.margin a' = dict_get_default info "margin" (VNum (float 0)) ∧
  AccountMonitor.free_margin a' = dict_get_default info "free_margin" (VNum (float 0)) ∧
  AccountMonitor.margin_level a' = dict_get_default info "margin_level" (VNum (float 0)) ∧
  AccountMonitor.profit a' = dict_get_default info "profit" (VNum (float 0)) ∧
  AccountMonitor.group a' = dict_get_default info "group" (VStr "") ∧
  AccountMonitor.leverage a' = dict_get_default info "leverage" (VNum (float 0)).


(** The accounts whose details fetch succeeded, and the accounts for
    which closed trades were requested, in a stretch of the broker
    trace. *)
Definition succeeded_details (calls : list (rpc * rpc_status)) : list Z :=
  omap (λ c, match c with
             | (GetAccountDetails login_id, Succeeded) => Some login_id
             | _ => None
             end) calls.

Definition closed_trades_fetches (calls : list (rpc * rpc_status)) : list Z :=
  omap (λ c, match c.1 with
             | GetClosedTrades login_id _ => Some login_id
             | _ => None
             end) calls.

(** The monitors of an account carry the identifier of the account. *)
Definition logins_of (ms : monitors) : Z * Z * Z :=
  (AccountMonitor.login_id (account ms),
   PositionMonitor.login_id (positions ms),
   TradeMonitor.login_id (trades ms)).

Definition monitors_ok (kv : Z * monitors) : Prop :=
  logins_of kv.2 = (kv.1, kv.1, kv.1).

(** The registry is a well-formed dictionary whose entries are keyed by
    their own identifier, as [add_account] builds them. *)
Definition registry_ok (r : RealTimeMonitorSystem) : Prop :=
  pydict.wf (monitored_accounts r) ∧ Forall monitors_ok (monitored_accounts r).

(** The refresh of one account: its outcome on the monitors and on the
    context of the loop. *)
Record refresh_post (total : Z) (ms ms' : monitors) (ctx ctx' : Ctx)
    (frames : list frame) (calls : list (rpc * rpc_status)) : Prop := {
  post_stats : ctx_stats ctx' = ctx_stats ctx;
  post_data : accounts_data ctx' = accounts_data ctx ++ frames;
  post_log : rpc_log (ctx_env ctx') = rpc_log (ctx_env ctx) ++ calls;
  post_delivered : delivered (ctx_env ctx') = delivered (ctx_env ctx);
  post_logins : logins_of ms' = logins_of ms;
  post_frames :
    frame_login_id <$> frames = (λ i, VNum (float i)) <$> succeeded_details calls;
  post_frame_ids :
    Forall (λ f, frame_login_id f = VNum (float (AccountMonitor.login_id (account ms))))
      frames;
  post_fetches :
    closed_trades_fetches calls =
      if decide (total `mod` 5 = 0) then [TradeMonitor.login_id (trades ms)] else [];
  post_reuse :
    total `mod` 5 ≠ 0 →
    trades ms' = trades ms ∧
    Forall (λ f, fr_trade_count f = Z.of_nat (length (TradeMonitor.trades (trades ms)))) frames;
}.

(** A frame reports, for its account among [items], the number of trades
    that account had stored. *)
Definition reports_stored_trades (items : pydict.t Z monitors) (f : frame) : Prop :=
  ∃ kv, kv ∈ items ∧
    frame_login_id f = VNum (float (AccountMonitor.login_id (account kv.2))) ∧
    fr_trade_count f = Z.of_nat (length (TradeMonitor.trades (trades kv.2))).

(** The loop over the registry: the same, for all the accounts. *)
Record loop_post (total : Z) (items items' : pydict.t Z monitors) (ctx ctx' : Ctx)
    (frames : list frame) (calls : list (rpc * rpc_status)) : Prop := {
  lp_stats : ctx_stats ctx' = ctx_stats ctx;
  lp_data : accounts_data ctx' = accounts_data ctx ++ frames;
  lp_log : rpc_log (ctx_env ctx') = rpc_log (ctx_env ctx) ++ calls;
  lp_delivered : delivered (ctx_env ctx') = delivered (ctx_env ctx);
  lp_items :
    Forall2 (λ kv kv', kv'.1 = kv.1 ∧ logins_of kv'.2 = logins_of kv.2) items items';
  lp_frames :
    frame_login_id <$> frames = (λ i, VNum (float i)) <$> succeeded_details calls;
  lp_fetches :
    closed_trades_fetches calls =
      if decide (total `mod` 5 = 0)
      then (λ kv, TradeMonitor.login_id (trades kv.2)) <$> items
      else [];
  lp_reuse :
    total `mod` 5 ≠ 0 →
    (λ kv, trades kv.2) <$> items' = (λ kv, trades kv.2) <$> items ∧
    Forall (reports_stored_trades items) frames;
}.

(** The state after one tick, and what happened during a stretch of
    execution from [w] to [w']: the broker calls made and the frame lists
    delivered. *)
Definition tick (w : World) : World := (_update_all_accounts w).2.

Definition calls_during (w w' : World) : list (rpc * rpc_status) :=
  drop (length (rpc_log w.2)) (rpc_log w'.2).

Definition delivered_during (w w' : World) : list (nat * list frame) :=
  drop (length (delivered w.2)) (delivered w'.2).

(** One tick of an initialised engine. *)
Record tick_post (w w' : World) (frames : list frame)
    (calls : list (rpc * rpc_status)) : Prop := {
  tp_interval : update_interval w'.1 = update_interval w.1;
  tp_manager : manager w'.1 = manager w.1;
  tp_running : running w'.1 = running w.1;
  tp_callbacks : _callbacks w'.1 = _callbacks w.1;
  tp_total : total_updates (stats w'.1) = total_updates (stats w.1) + 1;
  tp_errors : errors (stats w'.1) = errors (stats w.1);
  tp_count : monitored_count (stats w'.1) = monitored_count (stats w.1);
  tp_log : rpc_log w'.2 = rpc_log w.2 ++ calls;
  tp_delivered :
    delivered w'.2 = delivered w.2 ++ imap (λ i _, (i, frames)) (_callbacks w.1);
  tp_items :
    Forall2 (λ kv kv', kv'.1 = kv.1 ∧ logins_of kv'.2 = logins_of kv.2)
      (monitored_accounts w.1) (monitored_accounts w'.1);
  tp_frames :
    frame_login_id <$> frames = (λ i, VNum (float i)) <$> succeeded_details calls;
  tp_fetches :
    closed_trades_fetches calls =
      if decide (total_updates (stats w.1) `mod` 5 = 0)
      then (λ kv, TradeMonitor.login_id (trades kv.2)) <$> monitored_accounts w.1
      else [];
  tp_reuse :
    total_updates (stats w.1) `mod` 5 ≠ 0 →
    (λ kv, trades kv.2) <$> monitored_accounts w'.1 =
      (λ kv, trades kv.2) <$> monitored_accounts w.1 ∧
    Forall (reports_stored_trades (monitored_accounts w.1)) frames;
}.

(** How often closed trades were requested for [login_id]. *)
Definition fetch_count (login_id : Z) (calls : list (rpc * rpc_status)) : nat :=
  length (filter (λ i, i = login_id) (closed_trades_fetches calls)).

Definition trade_monitor_of (login_id : Z) (w : World) : option TradeMonitor.t :=
  trades <$> pydict.get login_id (monitored_accounts w.1).

Definition position_monitor_of (login_id : Z) (w : World) : option PositionMonitor.t :=
  positions <$> pydict.get login_id (monitored_accounts w.1).

Definition account_monitor_of (login_id : Z) (w : World) : option AccountMonitor.t :=
  account <$> pydict.get login_id (monitored_accounts w.1).

(** Sequences of registry operations. *)
Inductive registry_op : Type :=
| Add (login_id : Z)
| Remove (login_id : Z).

Definition apply_op (op : registry_op) (w : World) : World :=
  match op with
  | Add login_id => (add_account login_id w).2
  | Remove login_id => (remove_account login_id w).2
  end.

Definition run_ops (ops : list registry_op) (w : World) : World :=
  foldl (λ w op, apply_op op w) w ops.

Definition count_ok (w : World) : Prop :=
  monitored_count (stats w.1) = pydict.len (monitored_accounts w.1).

(** ** A small fleet

    Account 1002 is added before account 1001.  The broker has no
    details for 1001; 1002 holds two positions in EURUSD (a buy and a
    sell) and a sell in GBPUSD, and 1001 holds one buy in EURUSD.  A
    request for the details of 1003 raises. *)
Definition demo_env : Env := {| clock := 0; rpc_log := []; delivered := [] |}.

Definition demo_details : dict :=
  {[ "balance" := VNum (float 500); "equity" := VNum (float 520);
     "margin" := VNum (float 100) ]}.

Definition demo_position (symbol : string) (volume : Z) (type : string) : dict :=
  {[ "symbol" := VStr symbol; "volume" := VNum (float volume); "type" := VStr type ]}.

Definition demo_manager : MT5ManagerActions :=
  {| connected := true;
     get_account_details := λ _ login_id,
       if decide (login_id = 1001) then Returned None
       else if decide (login_id = 1003) then Raised
       else Returned (Some demo_details);
     get_open_positions := λ _ login_id,
       if decide (login_id = 1001)
       then Returned [demo_position "EURUSD" 3 "Buy"]
       else Returned [demo_position "EURUSD" 1 "Buy";
                      demo_position "GBPUSD" 2 "Sell";
                      demo_position "EURUSD" 4 "Sell"];
     get_closed_trades := λ _ _ _, Returned [] |}.

Definition demo_callback : callback := λ _, Returned tt.

Definition demo_world : World :=
  let w := (initialize (Returned demo_manager) (__init__ 5, demo_env)).2 in
  let w := (add_callback demo_callback w).2 in
  let w := (add_account 1002 w).2 in
  (add_account 1001 w).2.

(** ** Vocabulary of the aggregator *)

(** A position as [get_positions_by_symbol] returns it for an account. *)
Definition tag (login_id : Z) (pos : dict) : dict :=
  <[ "login_id" := VNum (float login_id) ]> pos.

(** The positions of one account with a given symbol, tagged, in their
    stored order. *)
Definition positions_with_symbol (symbol : value) (kv : Z * monitors) : list dict :=
  tag kv.1 <$> filter (PositionMonitor.has_symbol symbol)
                 (PositionMonitor.positions (positions kv.2)).

(** What the query leaves in the store of one account. *)
Definition tag_matching (symbol : value) (login_id : Z) (ps : list dict) : list dict :=
  (λ pos, if decide (PositionMonitor.has_symbol symbol pos) then tag login_id pos else pos)
    <$> ps.

Definition tag_stored (symbol : value) (kv : Z * monitors) : Z * monitors :=
  (kv.1, {| account := account kv.2;
            positions := PositionMonitor.set_positions
              (tag_matching symbol kv.1 (PositionMonitor.positions (positions kv.2)))
              (positions kv.2);
            trades := trades kv.2 |}).

Definition result_logins (ds : list dict) : list value :=
  (λ d, dict_get d "login_id") <$> ds.

(** Account identifiers in ascending order. *)
Definition ascending (ids : list Z) : Prop :=
  ∀ (i j : nat) (a b : Z), (i < j)%nat → ids !! i = Some a → ids !! j = Some b → a ≤ b.

(** All stored positions of the fleet. *)
Definition fleet_positions (w : World) : list dict :=
  concat ((λ kv : Z * monitors, PositionMonitor.positions (positions kv.2))
            <$> monitored_accounts w.1).

(** The symbol and the volume of a position, as
    [get_total_volume_by_symbol] reads them. *)
Definition symbol_of (pos : dict) : value :=
  dict_get_default pos "symbol" (VStr "").

Definition numeric_volume (pos : dict) : bool :=
  match dict_get_default pos "volume" (VNum (float 0)) with
  | VNum _ => true
  | _ => false
  end.

(** The float that the volume of a position is added as. *)
Definition volume_of (pos : dict) : spec_float :=
  match dict_get_default pos "volume" (VNum (float 0)) with
  | VNum q => to_float q
  | _ => fzero
  end.

(** The sum of a list of floats as a loop of [+=] computes it: from [0.0],
    left to right, rounding after every addition. *)
Definition fsum (l : list spec_float) : spec_float := foldl fadd fzero l.

Definition with_symbol (symbol : value) (ps : list dict) : list dict :=
  filter (λ pos, symbol_of pos = symbol) ps.

(** The accounts that hold a position with a symbol, in the order of the
    registry. *)
Definition holds (symbol : value) (kv : Z * monitors) : Prop :=
  with_symbol symbol (PositionMonitor.positions (positions kv.2)) ≠ [].

#[global] Instance holds_dec symbol kv : Decision (holds symbol kv).
Proof. unfold holds. apply _. Defined.

Definition holders (symbol : value) (items : list (Z * monitors))
  : list (Z * monitors) :=
  filter (holds symbol) items.

(** The total of one account for a symbol: the float sum of the volumes
    of its positions with the symbol, in stored order. *)
Definition account_volume (symbol : value) (ps : list dict) : spec_float :=
  fsum (volume_of <$> with_symbol symbol ps).

(** The gross volume of a symbol over a registry: the float sum, in the
    order of the registry, of the totals of the accounts that hold the
    symbol.  No volume is negated. *)
Definition gross_volume (symbol : value) (items : list (Z * monitors))
  : spec_float :=
  fsum ((λ kv : Z * monitors,
           account_volume symbol (PositionMonitor.positions (positions kv.2)))
          <$> holders symbol items).

(** The float sum of the signed volumes of the positions with a symbol
    (the volume for a buy, its opposite for a sell). *)
Definition signed_volume (symbol : value) (ps : list dict) : spec_float :=
  fsum ((λ pos, net_volume (volume_of pos) pos) <$> with_symbol symbol ps).

(** The float held under a symbol, [0.0] when the symbol is absent. *)
Definition volume_at (symbol : value) (d : pydict.t value spec_float)
  : spec_float :=
  default fzero (pydict.get symbol d).

Definition exposure_at (symbol : value) (d : pydict.t value Exposure.entry)
  : spec_float :=
  Exposure.volume (default Exposure.fresh (pydict.get symbol d)).

(** * Further vocabulary *)

(** The account a broker call is about. *)
Definition rpc_login (call : rpc) : Z :=
  match call with
  | GetAccountDetails login_id => login_id
  | GetOpenPositions login_id => login_id
  | GetClosedTrades login_id _ => login_id
  end.

(** The broker calls of the refresh of one account, in the order in which
    they are made. *)
Definition refresh_requests (total : Z) (ms : monitors) : list rpc :=
  [GetAccountDetails (AccountMonitor.login_id (account ms));
   GetOpenPositions (PositionMonitor.login_id (positions ms))] ++
  (if decide (total `mod` 5 = 0)
   then [GetClosedTrades (TradeMonitor.login_id (trades ms))
           (TradeMonitor.from_date (trades ms))]
   else []).

(** What a tick keeps of the monitors of an account: the identifiers and
    the start of the trade history window. *)
Definition same_account (kv kv' : Z * monitors) : Prop :=
  kv'.1 = kv.1 ∧ logins_of kv'.2 = logins_of kv.2 ∧
  TradeMonitor.from_date (trades kv'.2) = TradeMonitor.from_date (trades kv.2).

(** The broker calls of one tick and of [K] consecutive ticks over a
    registry, when the counter of updates starts at [total]. *)
Definition tick_requests (total : Z) (items : pydict.t Z monitors) : list rpc :=
  concat ((λ kv : Z * monitors, refresh_requests total kv.2) <$> items).

Definition run_requests (total : Z) (K : nat) (items : pydict.t Z monitors)
  : list rpc :=
  concat ((λ i : nat, tick_requests (total + Z.of_nat i) items) <$> seq 0 K).

(** The entry of a symbol in the exposure, the fresh one when the symbol
    is absent. *)
Definition entry_at (symbol : value) (d : pydict.t value Exposure.entry)
  : Exposure.entry :=
  default Exposure.fresh (pydict.get symbol d).

(** The number of positions of an account whose ['symbol'] field equals
    the symbol. *)
Definition matches_count (symbol : value) (kv : Z * monitors) : Z :=
  Z.of_nat (length (filter (PositionMonitor.has_symbol symbol)
                      (PositionMonitor.positions (positions kv.2)))).

Definition sum_Z (l : list Z) : Z := foldr Z.add 0 l.

(** A position filed under the empty symbol by
    [get_total_volume_by_symbol]: its symbol is missing or empty. *)
Definition unnamed (pos : dict) : Prop :=
  pos !! "symbol" = None ∨ pos !! "symbol" = Some (VStr "").

#[global] Instance unnamed_dec pos : Decision (unnamed pos).
Proof. unfold unnamed. apply _. Defined.

Definition is_number (v : value) : bool :=
  match v with
  | VNum _ => true
  | _ => false
  end.

(** What [account.get(key, 0)] reads. *)
Definition reading (account : dict) (key : string) : value :=
  dict_get_default account key (VNum (float 0)).

(** The key under which [group_positions_by_symbol] files a position. *)
Definition group_key (position : dict) : value :=
  dict_get_default position "symbol" (VStr "UNKNOWN").

(** The positions filed under a key, in their order in the input. *)
Definition group_of (key : value) (positions : list dict) : list dict :=
  filter (λ position, group_key position = key) positions.

(** The environment after one reading of the clock. *)
Definition after_now (e : Env) : Env :=
  {| clock := clock e + 1; rpc_log := rpc_log e; delivered := delivered e |}.

(** The daily statistics of a day without trades. *)
Definition no_trades_on (day : Z) : daily_stats :=
  {| ds_trade_count := 0; ds_total_volume := float 0;
     ds_total_profit := float 0; ds_date := day |}.

(** The environment in which the refresh of an account asks for the
    closed trades: after its details and positions fetches. *)
Definition env_at_trades (manager : MT5ManagerActions) (ms : monitors) (e : Env)
  : Env :=
  (PositionMonitor.update manager
     (positions ms, (AccountMonitor.update manager (account ms, e)).2.2)).2.2.

(** The answer of the broker to the closed trades request of a refresh. *)
Definition trades_reply (manager : MT5ManagerActions) (ms : monitors) (e : Env)
  : outcome (list dict) :=
  get_closed_trades manager (env_at_trades manager ms e)
    (TradeMonitor.login_id (trades ms)) (TradeMonitor.from_date (trades ms)).

(** ** A broker with a trade history

    Account 1001 has neither positions nor closed trades; every request
    about account 1003 raises; for account 1002 the closed trades request
    raises; every other account has one position and one closed trade. *)
Definition demo_trade : dict :=
  {[ "symbol" := VStr "EURUSD"; "volume" := VNum (float 1);
     "profit" := VNum (float 12) ]}.

Definition history_manager : MT5ManagerActions :=
  {| connected := true;
     get_account_details := get_account_details demo_manager;
     get_open_positions := λ _ login_id,
       if decide (login_id = 1001) then Returned []
       else if decide (login_id = 1003) then Raised
       else Returned [demo_position "EURUSD" 1 "Buy"];
     get_closed_trades := λ _ login_id _,
       if decide (login_id = 1001) then Returned []
       else if decide (login_id = 1002 ∨ login_id = 1003) then Raised
       else Returned [demo_trade] |}.

(** A trade monitor that holds one trade. *)
Definition demo_trade_monitor (login_id : Z) : TradeMonitor.t :=
  {| TradeMonitor.login_id := login_id; TradeMonitor.trades := [demo_trade];
     TradeMonitor.last_update := Some 7; TradeMonitor.from_date := 0 |}.

Definition demo_monitors (login_id : Z) : monitors :=
  {| account := AccountMonitor.__init__ login_id;
     positions := PositionMonitor.__init__ login_id;
     trades := demo_trade_monitor login_id |}.

Definition demo_ctx : Ctx :=
  {| ctx_stats := {| total_updates := 0; stats_last_update := None;
                     errors := 0; monitored_count := 1 |};
     accounts_data := [];
     ctx_env := demo_env |}.

(** The frame of the refresh of account 1002 through that broker. *)
Definition demo_frame : frame :=
  default {| fr_account := ∅;
             fr_positions := PositionMonitor.to_dict (PositionMonitor.__init__ 1002);
             fr_trade_count := 0; fr_trades_last_update := VNone |}
    (list.last (accounts_data (refresh history_manager (demo_monitors 1002, demo_ctx)).2.2)).

(** A position without a symbol, and an account whose margin level is
    not a number. *)
Definition unnamed_position : dict := {[ "volume" := VNum (float 2) ]}.

Definition garbled_account : dict := {[ "margin_level" := VStr "n/a" ]}.

(** A client that was built but did not connect. *)
Definition offline_manager : MT5ManagerActions :=
  {| connected := false;
     get_account_details := λ _ _, Raised;
     get_open_positions := λ _ _, Raised;
     get_closed_trades := λ _ _ _, Raised |}.

(** An engine whose one account holds 0.1 and 0.2 lots of EURUSD. *)
Definition decimal_position (symbol : string) (tenths : Z) : dict :=
  {[ "symbol" := VStr symbol; "volume" := VNum (Q2Qc (tenths # 10)) ]}.

Definition decimal_world : World :=
  (with_monitored_accounts
     (λ _, [(1, {| account := AccountMonitor.__init__ 1;
                   positions := PositionMonitor.set_positions
                                  [decimal_position "EURUSD" 1;
                                   decimal_position "EURUSD" 2]
                                  (PositionMonitor.__init__ 1);
                   trades := demo_trade_monitor 1 |})])
     (__init__ 5),
   demo_env).
(** * Properties *)

(** The Python-level conventions of the monad, unfolded. *)
Ltac py_unfold :=
  unfold bind, ret, gets, modify, self, assign, on_env, zoom, try_except, raise;
  cbn.

(** ** Margin level *)

(** C8 (as amended): [calculate_margin_level equity margin] is [0.0] when
    [margin] is a zero of either sign, and otherwise the float product by
    [100.0] of the float quotient of [equity] by [margin], each rounded to
    the nearest float; a margin that is not a number gives a result that
    is not a number. *)
Theorem calculate_margin_level_law (equity margin : spec_float) :
  ((∃ s, margin = S754_zero s) → calculate_margin_level equity margin = fzero) ∧
  ((∀ s, margin ≠ S754_zero s) →
     calculate_margin_level equity margin
       = fmul (fdiv equity margin) (to_float (float 100))) ∧
  (margin = S754_nan → calculate_margin_level equity margin = S754_nan).
Proof.
  refine (conj _ (conj _ _)).
  - intros [s ->]. reflexivity.
  - intros Hnz. unfold calculate_margin_level.
    destruct margin as [s | [] | | [] m e]; try reflexivity.
    exfalso. apply (Hnz s). reflexivity.
  - intros ->. destruct equity; reflexivity.
Qed.

(** C8 (as stated) fails: for equity 29 and margin 100, both floats, the
    margin level is 28.999999999999996, the float next below 29, while
    [100 * 29 / 100] is 29, exactly and as a float computation. *)
Lemma margin_level_not_exact :
  calculate_margin_level (to_float (float 29)) (to_float (float 100))
    = S754_finite false 8162774324609023 (-48) ∧
  to_float (float 100 * float 29 / float 100)%Qc
    = S754_finite false 8162774324609024 (-48) ∧
  fdiv (fmul (to_float (float 100)) (to_float (float 29))) (to_float (float 100))
    = S754_finite false 8162774324609024 (-48) ∧
  calculate_margin_level (to_float (float 29)) (to_float (float 100))
    ≠ to_float (float 100 * float 29 / float 100)%Qc.
Proof.
  assert (Hlevel : calculate_margin_level (to_float (float 29)) (to_float (float 100))
                   = S754_finite false 8162774324609023 (-48))
    by (vm_compute; reflexivity).
  assert (Hexact : to_float (float 100 * float 29 / float 100)%Qc
                   = S754_finite false 8162774324609024 (-48))
    by (vm_compute; reflexivity).
  refine (conj Hlevel (conj Hexact (conj _ _))).
  - vm_compute. reflexivity.
  - rewrite Hlevel, Hexact. discriminate.
Qed.

(** ** The details fetch *)

(** What [AccountMonitor.update] computes, by the answer of the broker. *)
Lemma AccountMonitor_update_eq manager a e :
  AccountMonitor.update manager (a, e) =
    let e' := {| clock := clock e;
                 rpc_log := rpc_log e ++
                   [(GetAccountDetails (AccountMonitor.login_id a),
                     status_of dict_truthy
                       (get_account_details manager e (AccountMonitor.login_id a)))];
                 delivered := delivered e |} in
    match get_account_details manager e (AccountMonitor.login_id a) with
    | Returned info =>
        if dict_truthy info then
          let a' := AccountMonitor.set_status "active"
                      (AccountMonitor.set_last_update (clock e)
                         (AccountMonitor.set_details (default ∅ info) a)) in
          (Returned (Some (AccountMonitor.to_dict a')),
           (a', {| clock := clock e + 1; rpc_log := rpc_log e';
                   delivered := delivered e |}))
        else (Returned None, (AccountMonitor.set_status "unavailable" a, e'))
    | Raised => (Returned None, (AccountMonitor.set_status "error" a, e'))
    end.
Proof.
  unfold AccountMonitor.update, call_get_account_details, log_rpc, datetime_now.
  py_unfold.
  destruct (get_account_details manager e (AccountMonitor.login_id a))
    as [info |]; cbn; [| reflexivity].
  destruct (dict_truthy info); reflexivity.
Qed.

(** C3: a details fetch that succeeds overwrites the eight detail fields,
    sets the status to active and the time of the update to the current
    instant; one that returns nothing sets the status to unavailable, one
    that raises sets it to error, and both leave the detail fields as
    they were. *)
Theorem details_fetch_cases manager (a : AccountMonitor.t) (e : Env) :
  let reply := get_account_details manager e (AccountMonitor.login_id a) in
  let a' := (AccountMonitor.update manager (a, e)).2.1 in
  (∀ info, reply = Returned (Some info) → info ≠ ∅ →
     details_from info a' ∧
     AccountMonitor.status a' = "active" ∧
     AccountMonitor.last_update a' = Some (clock e)) ∧
  (reply = Returned None ∨ reply = Returned (Some ∅) →
     AccountMonitor.status a' = "unavailable" ∧ same_details a a') ∧
  (reply = Raised →
     AccountMonitor.status a' = "error" ∧ same_details a a').
Proof.
  intros reply a'. subst a'. rewrite AccountMonitor_update_eq. fold reply.
  clearbody reply. unfold details_from, same_details.
  split; [| split].
  - intros info -> Hne. cbn. rewrite bool_decide_true by done. cbn.
    repeat split; reflexivity.
  - intros [-> | ->]; cbn; repeat split; reflexivity.
  - intros ->. cbn. repeat split; reflexivity.
Qed.

(** ** The registry *)

Section pydict_facts.
Context {K V : Type} `{EqDecision K}.
Implicit Types (d : pydict.t K V) (k : K) (v : V).

Lemma pydict_get_set_eq d k v : pydict.get k (pydict.set k v d) = Some v.
Proof.
  induction d as [| [k' v'] d IH]; cbn.
  - rewrite decide_True by done. reflexivity.
  - destruct (decide (k' = k)) as [-> | Hne]; cbn.
    + rewrite decide_True by done. reflexivity.
    + rewrite decide_False by done. exact IH.
Qed.

Lemma pydict_get_set_ne d k k' v :
  k ≠ k' → pydict.get k' (pydict.set k v d) = pydict.get k' d.
Proof.
  intros Hne. induction d as [| [k0 v0] d IH]; cbn.
  - rewrite decide_False by done. reflexivity.
  - destruct (decide (k0 = k)) as [-> | Hne0]; cbn.
    + rewrite !decide_False by done. reflexivity.
    + destruct (decide (k0 = k')); [reflexivity | exact IH].
Qed.

Lemma pydict_get_None d k : pydict.get k d = None ↔ k ∉ pydict.keys d.
Proof.
  unfold pydict.keys. induction d as [| [k' v'] d IH]; cbn.
  - split; [intros _; apply not_elem_of_nil | reflexivity].
  - rewrite not_elem_of_cons. destruct (decide (k' = k)) as [-> | Hne].
    + split; [discriminate | intros [? _]; contradiction].
    + rewrite IH. split; [intros ?; split; congruence | intros [_ ?]; assumption].
Qed.

Lemma pydict_del_absent d k : pydict.get k d = None → pydict.del k d = d.
Proof.
  induction d as [| [k' v'] d IH]; cbn; [reflexivity |].
  destruct (decide (k' = k)); [discriminate |].
  intros Hg. rewrite IH by exact Hg. reflexivity.
Qed.

Lemma pydict_keys_set_absent d k v :
  pydict.get k d = None → pydict.keys (pydict.set k v d) = pydict.keys d ++ [k].
Proof.
  unfold pydict.keys. induction d as [| [k' v'] d IH]; cbn; [reflexivity |].
  destruct (decide (k' = k)); [discriminate |].
  intros Hg. cbn. rewrite IH by exact Hg. reflexivity.
Qed.

Lemma pydict_keys_del d k : pydict.keys (pydict.del k d) ⊆ pydict.keys d.
Proof.
  unfold pydict.keys. induction d as [| [k' v'] d IH]; cbn; [reflexivity |].
  destruct (decide (k' = k)); cbn.
  - intros x Hx. apply elem_of_cons. right. exact Hx.
  - intros x. rewrite !elem_of_cons. intros [-> | Hx]; [left; reflexivity |].
    right. apply IH, Hx.
Qed.

Lemma pydict_wf_set d k v : pydict.wf d → pydict.wf (pydict.set k v d).
Proof.
  unfold pydict.wf, pydict.keys.
  induction d as [| [k' v'] d IH]; cbn; intros Hwf.
  - apply NoDup_singleton.
  - apply list.NoDup_cons in Hwf as [Hnotin Hwf].
    destruct (decide (k' = k)) as [-> | Hne]; cbn.
    + apply list.NoDup_cons. split; assumption.
    + apply list.NoDup_cons. split; [| apply IH, Hwf].
      destruct (pydict.get k d) as [v0 |] eqn:Hg.
      * intros Hin. apply Hnotin.
        clear IH Hwf Hnotin. revert Hin.
        induction d as [| [k1 v1] d IHd]; cbn in *; [discriminate |].
        destruct (decide (k1 = k)) as [-> | Hne1]; cbn; [trivial |].
        rewrite !elem_of_cons. intros [-> | Hin]; [left; reflexivity |].
        right. apply IHd; assumption.
      * fold (pydict.keys (pydict.set k v d)).
        rewrite pydict_keys_set_absent by exact Hg.
        rewrite elem_of_app, list_elem_of_singleton.
        intros [Hin | ->]; [apply Hnotin, Hin | apply Hne; reflexivity].
Qed.

Lemma pydict_wf_del d k : pydict.wf d → pydict.wf (pydict.del k d).
Proof.
  unfold pydict.wf.
  induction d as [| [k' v'] d IH]; cbn; intros Hwf; [exact Hwf |].
  apply list.NoDup_cons in Hwf as [Hnotin Hwf].
  destruct (decide (k' = k)); cbn; [exact Hwf |].
  apply list.NoDup_cons. split; [| apply IH, Hwf].
  intros Hin. apply Hnotin. apply (pydict_keys_del d k), Hin.
Qed.
Lemma pydict_Forall_set (P : K * V → Prop) d k v :
  Forall P d → P (k, v) → Forall P (pydict.set k v d).
Proof.
  intros Hd Hkv. induction Hd as [| [k' v'] d Hhd Htl IH]; cbn.
  - constructor; [exact Hkv | constructor].
  - destruct (decide (k' = k)) as [-> | Hne]; constructor; assumption.
Qed.

Lemma pydict_Forall_del (P : K * V → Prop) d k :
  Forall P d → Forall P (pydict.del k d).
Proof.
  intros Hd. induction Hd as [| [k' v'] d Hhd Htl IH]; cbn; [constructor |].
  destruct (decide (k' = k)); [assumption | constructor; assumption].
Qed.
End pydict_facts.

Lemma add_account_eq login_id (r : RealTimeMonitorSystem) (e : Env) :
  add_account login_id (r, e) =
    if pydict.contains login_id (monitored_accounts r) then (Returned tt, (r, e))
    else
      let ms := {| account := AccountMonitor.__init__ login_id;
                   positions := PositionMonitor.__init__ login_id;
                   trades := {| TradeMonitor.login_id := login_id;
                                TradeMonitor.trades := [];
                                TradeMonitor.last_update := None;
                                TradeMonitor.from_date := clock e - timedelta_days 30 |} |} in
      let regs := pydict.set login_id ms (monitored_accounts r) in
      (Returned tt,
       (with_stats (set_monitored_count (pydict.len regs))
          (with_monitored_accounts (λ _, regs) r),
        {| clock := clock e + 1; rpc_log := rpc_log e; delivered := delivered e |})).
Proof.
  unfold add_account, TradeMonitor.__init__, datetime_now. py_unfold.
  destruct (pydict.contains login_id (monitored_accounts r)); reflexivity.
Qed.

Lemma remove_account_eq login_id (r : RealTimeMonitorSystem) (e : Env) :
  remove_account login_id (r, e) =
    if pydict.contains login_id (monitored_accounts r) then
      let regs := pydict.del login_id (monitored_accounts r) in
      (Returned tt,
       (with_stats (set_monitored_count (pydict.len regs))
          (with_monitored_accounts (λ _, regs) r), e))
    else (Returned tt, (r, e)).
Proof.
  unfold remove_account. py_unfold.
  destruct (pydict.contains login_id (monitored_accounts r)); reflexivity.
Qed.

(** C7: adding an identifier twice gives the state that adding it once
    gives, adding a present identifier and removing an absent one change
    nothing, and neither operation calls the broker. *)
Theorem registry_idempotence (login_id : Z) (w : World) :
  (add_account login_id (add_account login_id w).2).2 = (add_account login_id w).2 ∧
  (pydict.contains login_id (monitored_accounts w.1) = true →
     (add_account login_id w).2 = w) ∧
  (pydict.contains login_id (monitored_accounts w.1) = false →
     (remove_account login_id w).2 = w) ∧
  rpc_log (add_account login_id w).2.2 = rpc_log w.2 ∧
  rpc_log (remove_account login_id w).2.2 = rpc_log w.2.
Proof.
  destruct w as [r e]. cbn [fst snd].
  assert (Hpresent : ∀ r0 e0, pydict.contains login_id (monitored_accounts r0) = true →
            (add_account login_id (r0, e0)).2 = (r0, e0)).
  { intros r0 e0 Hc. rewrite add_account_eq, Hc. reflexivity. }
  repeat apply conj.
  - rewrite (add_account_eq login_id r e).
    destruct (pydict.contains login_id (monitored_accounts r)) eqn:Hc; cbn [snd].
    + apply Hpresent, Hc.
    + apply Hpresent. cbn. unfold pydict.contains.
      rewrite pydict_get_set_eq. reflexivity.
  - apply Hpresent.
  - intros Hc. rewrite remove_account_eq, Hc. reflexivity.
  - rewrite add_account_eq.
    destruct (pydict.contains login_id (monitored_accounts r)); reflexivity.
  - rewrite remove_account_eq.
    destruct (pydict.contains login_id (monitored_accounts r)); reflexivity.
Qed.

(** A new account goes last in the registry. *)
Lemma add_account_appends (login_id : Z) (w : World) :
  pydict.contains login_id (monitored_accounts w.1) = false →
  pydict.keys (monitored_accounts (add_account login_id w).2.1)
    = pydict.keys (monitored_accounts w.1) ++ [login_id].
Proof.
  destruct w as [r e]. cbn [fst]. intros Hc. rewrite add_account_eq, Hc. cbn.
  apply pydict_keys_set_absent. unfold pydict.contains in Hc.
  destruct (pydict.get login_id (monitored_accounts r)); [discriminate | reflexivity].
Qed.

(** ** One tick *)

Lemma to_dict_login_id (a : AccountMonitor.t) :
  dict_get (AccountMonitor.to_dict a) "login_id" = VNum (float (AccountMonitor.login_id a)).
Proof. reflexivity. Qed.

Lemma PositionMonitor_update_eq manager p e :
  PositionMonitor.update manager (p, e) =
    let reply := get_open_positions manager e (PositionMonitor.login_id p) in
    let e' := {| clock := clock e;
                 rpc_log := rpc_log e ++
                   [(GetOpenPositions (PositionMonitor.login_id p),
                     status_of list_truthy reply)];
                 delivered := delivered e |} in
    match reply with
    | Returned ps =>
        if list_truthy ps then
          (Returned ps,
           (PositionMonitor.set_last_update (clock e) (PositionMonitor.set_positions ps p),
            {| clock := clock e + 1; rpc_log := rpc_log e'; delivered := delivered e |}))
        else (Returned [], (PositionMonitor.set_positions [] p, e'))
    | Raised => (Returned [], (p, e'))
    end.
Proof.
  unfold PositionMonitor.update, call_get_open_positions, log_rpc, datetime_now.
  py_unfold.
  destruct (get_open_positions manager e (PositionMonitor.login_id p))
    as [ps |]; cbn; [| reflexivity].
  destruct (list_truthy ps); reflexivity.
Qed.

Lemma TradeMonitor_update_eq manager t e :
  TradeMonitor.update manager (t, e) =
    let call := GetClosedTrades (TradeMonitor.login_id t) (TradeMonitor.from_date t) in
    let reply := get_closed_trades manager e (TradeMonitor.login_id t)
                   (TradeMonitor.from_date t) in
    let e' := {| clock := clock e;
                 rpc_log := rpc_log e ++ [(call, status_of list_truthy reply)];
                 delivered := delivered e |} in
    match reply with
    | Returned ts =>
        if list_truthy ts then
          (Returned ts,
           (TradeMonitor.set_last_update (clock e) (TradeMonitor.set_trades ts t),
            {| clock := clock e + 1; rpc_log := rpc_log e'; delivered := delivered e |}))
        else (Returned [], (TradeMonitor.set_trades [] t, e'))
    | Raised => (Returned [], (t, e'))
    end.
Proof.
  unfold TradeMonitor.update, call_get_closed_trades, log_rpc, datetime_now.
  py_unfold.
  destruct (get_closed_trades manager e (TradeMonitor.login_id t)
              (TradeMonitor.from_date t)) as [ts |]; cbn; [| reflexivity].
  destruct (list_truthy ts); reflexivity.
Qed.

(** Each update returns, makes exactly one broker call and keeps the
    identifier of its monitor. *)
Lemma AccountMonitor_update_spec manager a e :
  ∃ r a' e' st,
    AccountMonitor.update manager (a, e) = (Returned r, (a', e')) ∧
    rpc_log e' = rpc_log e ++ [(GetAccountDetails (AccountMonitor.login_id a), st)] ∧
    delivered e' = delivered e ∧
    AccountMonitor.login_id a' = AccountMonitor.login_id a ∧
    ((dict_truthy r = true ∧ st = Succeeded ∧
      dict_get (default ∅ r) "login_id" = VNum (float (AccountMonitor.login_id a)))
     ∨ (dict_truthy r = false ∧ st ≠ Succeeded)).
Proof.
  rewrite AccountMonitor_update_eq. cbn zeta.
  destruct (get_account_details manager e (AccountMonitor.login_id a))
    as [info |]; cbn [status_of].
  - destruct (dict_truthy info) eqn:Htruthy.
    + eexists _, _, _, _. split; [reflexivity |].
      repeat apply conj; try reflexivity.
      left. repeat apply conj; reflexivity.
    + eexists _, _, _, _. split; [reflexivity |].
      repeat apply conj; try reflexivity.
      right. split; [reflexivity | discriminate].
  - eexists _, _, _, _. split; [reflexivity |].
    repeat apply conj; try reflexivity.
    right. split; [reflexivity | discriminate].
Qed.

Lemma PositionMonitor_update_spec manager p e :
  ∃ r p' e' st,
    PositionMonitor.update manager (p, e) = (Returned r, (p', e')) ∧
    rpc_log e' = rpc_log e ++ [(GetOpenPositions (PositionMonitor.login_id p), st)] ∧
    delivered e' = delivered e ∧
    PositionMonitor.login_id p' = PositionMonitor.login_id p.
Proof.
  rewrite PositionMonitor_update_eq. cbn zeta.
  destruct (get_open_positions manager e (PositionMonitor.login_id p))
    as [ps |]; cbn [status_of].
  - destruct (list_truthy ps); eexists _, _, _, _;
      (split; [reflexivity |]); repeat apply conj; reflexivity.
  - eexists _, _, _, _. split; [reflexivity |]. repeat apply conj; reflexivity.
Qed.

Lemma TradeMonitor_update_spec manager t e :
  ∃ r t' e' st,
    TradeMonitor.update manager (t, e) = (Returned r, (t', e')) ∧
    rpc_log e' = rpc_log e ++
      [(GetClosedTrades (TradeMonitor.login_id t) (TradeMonitor.from_date t), st)] ∧
    delivered e' = delivered e ∧
    TradeMonitor.login_id t' = TradeMonitor.login_id t.
Proof.
  rewrite TradeMonitor_update_eq. cbn zeta.
  destruct (get_closed_trades manager e (TradeMonitor.login_id t)
              (TradeMonitor.from_date t)) as [ts |]; cbn [status_of].
  - destruct (list_truthy ts); eexists _, _, _, _;
      (split; [reflexivity |]); repeat apply conj; reflexivity.
  - eexists _, _, _, _. split; [reflexivity |]. repeat apply conj; reflexivity.
Qed.

(** The body of the loop never raises, and this is what it does. *)
Lemma refresh_spec manager (ms : monitors) (ctx : Ctx) :
  ∃ ms' ctx' frames calls,
    refresh manager (ms, ctx) = (Returned tt, (ms', ctx')) ∧
    refresh_post (total_updates (ctx_stats ctx)) ms ms' ctx ctx' frames calls.
Proof.
  destruct ms as [a p t], ctx as [st data e].
  destruct (AccountMonitor_update_spec manager a e)
    as (ra & a' & e1 & st1 & Ha & Hlog1 & Hdel1 & Hid1 & Hcase).
  destruct (PositionMonitor_update_spec manager p e1)
    as (rp & p' & e2 & st2 & Hp & Hlog2 & Hdel2 & Hid2).
  destruct (TradeMonitor_update_spec manager t e2)
    as (rt & t' & e3 & st3 & Ht & Hlog3 & Hdel3 & Hid3).
  unfold refresh, on_account, on_positions, on_trades, append_frame.
  py_unfold. rewrite Ha. cbn. rewrite Hp. cbn.
  destruct (decide (total_updates st `mod` 5 = 0)) as [Hmod | Hmod]; cbn.
  - rewrite Ht. cbn.
    destruct Hcase as [(Htr & -> & Hlogin) | (Htr & Hst)]; rewrite Htr; cbn.
    + eexists _, _, [_], _. split; [reflexivity |].
      split; cbn; try reflexivity.
      * rewrite Hlog3, Hlog2, Hlog1, <- !app_assoc. reflexivity.
      * congruence.
      * unfold logins_of. cbn. congruence.
      * unfold frame_login_id. cbn. rewrite Hlogin. reflexivity.
      * repeat constructor. unfold frame_login_id. cbn. exact Hlogin.
      * rewrite decide_True by done. reflexivity.
      * intros Hne. contradiction.
    + eexists _, _, [], _. split; [reflexivity |].
      split; cbn; try reflexivity.
      * rewrite app_nil_r. reflexivity.
      * rewrite Hlog3, Hlog2, Hlog1, <- !app_assoc. reflexivity.
      * congruence.
      * unfold logins_of. cbn. congruence.
      * destruct st1; try reflexivity. contradiction.
      * constructor.
      * rewrite decide_True by done. reflexivity.
      * intros Hne. contradiction.
  - destruct Hcase as [(Htr & -> & Hlogin) | (Htr & Hst)]; rewrite Htr; cbn.
    + eexists _, _, [_], _. split; [reflexivity |].
      split; cbn; try reflexivity.
      * rewrite Hlog2, Hlog1, <- !app_assoc. reflexivity.
      * congruence.
      * unfold logins_of. cbn. congruence.
      * unfold frame_login_id. cbn. rewrite Hlogin. reflexivity.
      * repeat constructor. unfold frame_login_id. cbn. exact Hlogin.
      * rewrite decide_False by done. reflexivity.
      * intros _. split; [reflexivity |]. repeat constructor.
    + eexists _, _, [], _. split; [reflexivity |].
      split; cbn; try reflexivity.
      * rewrite app_nil_r. reflexivity.
      * rewrite Hlog2, Hlog1, <- !app_assoc. reflexivity.
      * congruence.
      * unfold logins_of. cbn. congruence.
      * destruct st1; try reflexivity. contradiction.
      * constructor.
      * rewrite decide_False by done. reflexivity.
      * intros _. split; [reflexivity |]. constructor.
Qed.

Lemma update_one_spec manager login_id (ms : monitors) (ctx : Ctx) :
  ∃ ms' ctx' frames calls,
    update_one manager login_id (ms, ctx) = (Returned tt, (ms', ctx')) ∧
    refresh_post (total_updates (ctx_stats ctx)) ms ms' ctx ctx' frames calls.
Proof.
  destruct (refresh_spec manager ms ctx) as (ms' & ctx' & frames & calls & Heq & Hpost).
  exists ms', ctx', frames, calls. split; [| exact Hpost].
  unfold update_one, try_except. rewrite Heq. reflexivity.
Qed.

Lemma succeeded_details_app l1 l2 :
  succeeded_details (l1 ++ l2) = succeeded_details l1 ++ succeeded_details l2.
Proof. apply omap_app. Qed.

Lemma closed_trades_fetches_app l1 l2 :
  closed_trades_fetches (l1 ++ l2) = closed_trades_fetches l1 ++ closed_trades_fetches l2.
Proof. apply omap_app. Qed.

(** The loop over the registry never raises; it visits the accounts in
    the order of the registry. *)
Lemma for_items_update_spec manager (items : pydict.t Z monitors) (ctx : Ctx) :
  ∃ items' ctx' frames calls,
    for_items_from (update_one manager) items ctx = (Returned tt, (items', ctx')) ∧
    loop_post (total_updates (ctx_stats ctx)) items items' ctx ctx' frames calls.
Proof.
  revert ctx. induction items as [| [k ms] rest IH]; intros ctx.
  - exists [], ctx, [], []. split; [reflexivity |].
    split; cbn; try reflexivity; try (rewrite app_nil_r; reflexivity).
    + constructor.
    + destruct (decide _); reflexivity.
    + intros _. split; [reflexivity | constructor].
  - destruct (update_one_spec manager k ms ctx)
      as (ms' & ctx1 & frames1 & calls1 & Heq1 & P1).
    destruct (IH ctx1) as (rest' & ctx' & frames2 & calls2 & Heq2 & P2).
    exists ((k, ms') :: rest'), ctx', (frames1 ++ frames2), (calls1 ++ calls2).
    cbn [for_items_from]. rewrite Heq1, Heq2. split; [reflexivity |].
    destruct P1, P2.
    rewrite post_stats0 in *.
    split.
    + congruence.
    + rewrite lp_data0, post_data0, app_assoc. reflexivity.
    + rewrite lp_log0, post_log0, app_assoc. reflexivity.
    + congruence.
    + constructor; [split; [reflexivity | exact post_logins0] | exact lp_items0].
    + rewrite fmap_app, succeeded_details_app, fmap_app. congruence.
    + rewrite closed_trades_fetches_app, post_fetches0, lp_fetches0.
      destruct (decide _); reflexivity.
    + intros Hmod. destruct (post_reuse0 Hmod) as [Ht Hf1].
      destruct (lp_reuse0 Hmod) as [Hts Hf2]. split.
      * cbn. rewrite Ht, Hts. reflexivity.
      * apply Forall_app. split.
        -- apply list.Forall_forall. intros f Hf.
           exists (k, ms). split; [apply elem_of_cons; left; reflexivity |].
           split.
           ++ exact (proj1 (list.Forall_forall _ _) post_frame_ids0 f Hf).
           ++ exact (proj1 (list.Forall_forall _ _) Hf1 f Hf).
        -- apply list.Forall_forall. intros f Hf.
           destruct (proj1 (list.Forall_forall _ _) Hf2 f Hf) as (kv & Hin & Hid & Hcount).
           exists kv. split; [apply elem_of_cons; right; exact Hin |].
           split; assumption.
Qed.

(** Every callback is handed the list, whether it raises or not. *)
Lemma notify_all_spec (data : list frame) (ics : list (nat * callback)) (w : World) :
  for_each ics (λ ic, notify data ic.1 ic.2) w =
    (Returned tt,
     (w.1, {| clock := clock w.2; rpc_log := rpc_log w.2;
              delivered := delivered w.2 ++ ((λ ic, (ic.1, data)) <$> ics) |})).
Proof.
  revert w. induction ics as [| [i cb] ics IH]; intros [r e]; cbn.
  - rewrite app_nil_r. destruct e; reflexivity.
  - unfold notify, log_delivery. py_unfold.
    destruct (cb data); rewrite IH; cbn; rewrite <- app_assoc; reflexivity.
Qed.

Lemma imap_pair_fmap_from {A B} (h : nat → nat) (g : nat → A → B) (l : list A) :
  (λ ic, g ic.1 ic.2) <$> imap (λ i x, (h i, x)) l = imap (λ i, g (h i)) l.
Proof.
  revert h. induction l as [| x l IH]; intros h; cbn; [reflexivity |].
  f_equal. exact (IH (h ∘ S)).
Qed.

Lemma imap_pair_fmap {A B} (g : nat → A → B) (l : list A) :
  (λ ic, g ic.1 ic.2) <$> imap pair l = imap g l.
Proof. exact (imap_pair_fmap_from id g l). Qed.

Lemma tick_spec (w : World) manager0 :
  manager w.1 = Some manager0 →
  ∃ frames calls,
    _update_all_accounts w = (Returned tt, tick w) ∧
    tick_post w (tick w) frames calls.
Proof.
  destruct w as [r e]. cbn [fst]. intros Hmgr.
  unfold tick, _update_all_accounts, update_loop, for_items.
  py_unfold. rewrite Hmgr. cbn.
  destruct (for_items_update_spec manager0 (monitored_accounts r)
              {| ctx_stats := stats r; accounts_data := []; ctx_env := e |})
    as (items' & ctx' & frames & calls & Heq & P).
  rewrite Heq. cbn. unfold datetime_now. cbn.
  rewrite notify_all_spec. cbn.
  exists frames, calls. split; [reflexivity |].
  destruct P. cbn in *.
  split; cbn; try reflexivity; try assumption.
  - rewrite lp_stats0. reflexivity.
  - rewrite lp_stats0. reflexivity.
  - rewrite lp_stats0. reflexivity.
  - rewrite lp_delivered0, lp_data0. cbn. f_equal.
    apply (imap_pair_fmap (λ i _, (i, frames))).
Qed.

(** A tick always returns. *)
Lemma tick_returns (w : World) : (_update_all_accounts w).1 = Returned tt.
Proof.
  destruct (manager w.1) as [manager0 |] eqn:Hmgr.
  - destruct (tick_spec w manager0 Hmgr) as (frames & calls & -> & _). reflexivity.
  - destruct w as [r e]. cbn in Hmgr.
    unfold _update_all_accounts. py_unfold. rewrite Hmgr. reflexivity.
Qed.

(** C2: a failed refresh sub-operation is not counted.  The broker has no
    details for account 1001 and answers normally for account 1002; after
    the tick 1001 is unavailable, 1002 is active and updated, and the
    counter of errors is what it was, not one more.  The same with account
    1003 added, whose details request raises: its status becomes error and
    the counter does not move.  Both failures are absorbed inside
    [AccountMonitor.update] and never reach the handler of the tick that
    counts errors. *)
Theorem empty_details_not_counted :
  get_account_details demo_manager demo_world.2 1001 = Returned None ∧
  AccountMonitor.status <$> account_monitor_of 1001 (tick demo_world) = Some "unavailable" ∧
  AccountMonitor.status <$> account_monitor_of 1002 (tick demo_world) = Some "active" ∧
  AccountMonitor.balance <$> account_monitor_of 1002 (tick demo_world)
    = Some (VNum (float 500)) ∧
  errors (stats (tick demo_world).1) = errors (stats demo_world.1) ∧
  errors (stats (tick demo_world).1) ≠ errors (stats demo_world.1) + 1 ∧
  let w := (add_account 1003 demo_world).2 in
  get_account_details demo_manager w.2 1003 = Raised ∧
  AccountMonitor.status <$> account_monitor_of 1003 (tick w) = Some "error" ∧
  errors (stats (tick w).1) = errors (stats w.1).
Proof.
  repeat apply conj; try (vm_compute; reflexivity).
  vm_compute. discriminate.
Qed.

(** C9: a tick returns; every callback is handed the same list of
    frames, and that list has one frame per details fetch of the tick that
    succeeded, in the order of the fetches: an account whose details fetch
    returned nothing or raised has no frame, whatever its other fetches
    did. *)
Theorem frames_only_for_succeeded_details (w : World) manager0 :
  manager w.1 = Some manager0 →
  (_update_all_accounts w).1 = Returned tt ∧
  ∃ frames,
    delivered_during w (tick w) = imap (λ i _, (i, frames)) (_callbacks w.1) ∧
    frame_login_id <$> frames =
      (λ i, VNum (float i)) <$> succeeded_details (calls_during w (tick w)).
Proof.
  intros Hmgr. split; [apply tick_returns |].
  destruct (tick_spec w manager0 Hmgr) as (frames & calls & _ & P).
  exists frames. unfold delivered_during, calls_during.
  rewrite (tp_delivered _ _ _ _ P), (tp_log _ _ _ _ P), !drop_app_length.
  split; [reflexivity | apply (tp_frames _ _ _ _ P)].
Qed.

(** ** Several ticks *)

Lemma tick_keys (w w' : World) frames calls :
  tick_post w w' frames calls →
  pydict.keys (monitored_accounts w'.1) = pydict.keys (monitored_accounts w.1).
Proof.
  intros P. unfold pydict.keys.
  induction (tp_items _ _ _ _ P) as [| kv kv' l l' [Hk _] _ IH]; cbn; [reflexivity |].
  rewrite Hk, IH. reflexivity.
Qed.

Lemma tick_registry_ok (w w' : World) frames calls :
  tick_post w w' frames calls → registry_ok w.1 → registry_ok w'.1.
Proof.
  intros P [Hwf Hok]. split.
  - unfold pydict.wf. rewrite (tick_keys _ _ _ _ P). exact Hwf.
  - clear Hwf. revert Hok.
    induction (tp_items _ _ _ _ P) as [| kv kv' l l' [Hk Hl] _ IH]; intros Hok.
    + constructor.
    + apply list.Forall_cons in Hok as [Hkv Hok]. constructor; [| apply IH, Hok].
      unfold monitors_ok in *. rewrite Hl, Hk. exact Hkv.
Qed.

Lemma run_ticks_S (K : nat) (w : World) :
  run_ticks (S K) w = tick (run_ticks K w).
Proof.
  revert w. induction K as [| K IH]; intros w; [reflexivity |].
  change (run_ticks (S (S K)) w) with (run_ticks (S K) (tick w)).
  rewrite IH. reflexivity.
Qed.

Lemma filter_eq_absent (x : Z) (l : list Z) :
  x ∉ l → filter (λ i, i = x) l = [].
Proof.
  induction l as [| y l IH]; intros Hnotin; [reflexivity |].
  apply not_elem_of_cons in Hnotin as [Hne Hnotin].
  rewrite filter_cons_False by congruence. apply IH, Hnotin.
Qed.

Lemma filter_eq_NoDup (x : Z) (l : list Z) :
  NoDup l → x ∈ l → length (filter (λ i, i = x) l) = 1%nat.
Proof.
  induction l as [| y l IH]; intros Hnd Hin.
  - apply elem_of_nil in Hin. contradiction.
  - apply list.NoDup_cons in Hnd as [Hnotin Hnd].
    rewrite filter_cons. destruct (decide (y = x)) as [-> | Hne].
    + cbn. rewrite filter_eq_absent by exact Hnotin. reflexivity.
    + apply elem_of_cons in Hin as [-> | Hin]; [contradiction |].
      apply IH; assumption.
Qed.

Lemma trade_logins_keys (items : pydict.t Z monitors) :
  Forall monitors_ok items →
  (λ kv, TradeMonitor.login_id (trades kv.2)) <$> items = pydict.keys items.
Proof.
  unfold pydict.keys. induction 1 as [| [k ms] l Hkv _ IH]; cbn; [reflexivity |].
  rewrite IH. f_equal. unfold monitors_ok, logins_of in Hkv. cbn in Hkv. congruence.
Qed.

(** In one tick closed trades are requested once for every account when
    the counter is a multiple of five, and not at all otherwise. *)
Lemma tick_fetch_count (w : World) manager0 (login_id : Z) :
  manager w.1 = Some manager0 → registry_ok w.1 →
  login_id ∈ pydict.keys (monitored_accounts w.1) →
  fetch_count login_id (calls_during w (tick w)) =
    if decide (total_updates (stats w.1) `mod` 5 = 0) then 1%nat else 0%nat.
Proof.
  intros Hmgr [Hwf Hok] Hin.
  destruct (tick_spec w manager0 Hmgr) as (frames & calls & _ & P).
  unfold fetch_count, calls_during.
  rewrite (tp_log _ _ _ _ P), drop_app_length, (tp_fetches _ _ _ _ P).
  destruct (decide _); [| reflexivity].
  rewrite trade_logins_keys by exact Hok.
  apply filter_eq_NoDup; assumption.
Qed.

Lemma fetch_count_app login_id l1 l2 :
  fetch_count login_id (l1 ++ l2) =
    (fetch_count login_id l1 + fetch_count login_id l2)%nat.
Proof.
  unfold fetch_count. rewrite closed_trades_fetches_app, list.filter_app, length_app.
  reflexivity.
Qed.

Lemma float_inj (n m : Z) : float n = float m → n = m.
Proof.
  unfold float. apply Z2Qc_inj.
Qed.

Lemma pydict_get_elem {V} (d : pydict.t Z V) (k : Z) (v : V) :
  pydict.wf d → (k, v) ∈ d → pydict.get k d = Some v.
Proof.
  unfold pydict.wf, pydict.keys.
  induction d as [| [k' v'] d IH]; cbn; intros Hwf Hin.
  - apply elem_of_nil in Hin. contradiction.
  - apply list.NoDup_cons in Hwf as [Hnotin Hwf].
    apply elem_of_cons in Hin as [Heq | Hin].
    + inversion Heq; subst. rewrite decide_True by done. reflexivity.
    + destruct (decide (k' = k)) as [-> | Hne]; [| apply IH; assumption].
      exfalso. apply Hnotin. apply list_elem_of_fmap. exists (k, v). split; [reflexivity | exact Hin].
Qed.

Lemma get_trades_stable (items items' : pydict.t Z monitors) (k : Z) :
  Forall2 (λ kv kv' : Z * monitors, kv'.1 = kv.1 ∧ logins_of kv'.2 = logins_of kv.2)
    items items' →
  (λ kv, trades kv.2) <$> items' = (λ kv, trades kv.2) <$> items →
  trades <$> pydict.get k items' = trades <$> pydict.get k items.
Proof.
  induction 1 as [| [k1 m1] [k2 m2] l l' [Hk _] _ IH]; cbn; [reflexivity |].
  cbn in Hk. subst k2. intros Heq. injection Heq as Ht Hrest.
  destruct (decide (k1 = k)); cbn; [congruence | apply IH, Hrest].
Qed.

Section several_ticks.
Context (w : World) (manager0 : MT5ManagerActions).
Hypothesis Hmgr : manager w.1 = Some manager0.
Hypothesis Hok : registry_ok w.1.

(** What [K] ticks keep of an initialised engine. *)
Lemma run_ticks_inv (K : nat) :
  let w' := run_ticks K w in
  manager w'.1 = Some manager0 ∧ registry_ok w'.1 ∧
  pydict.keys (monitored_accounts w'.1) = pydict.keys (monitored_accounts w.1) ∧
  total_updates (stats w'.1) = total_updates (stats w.1) + Z.of_nat K ∧
  rpc_log w'.2 = rpc_log w.2 ++ calls_during w w'.
Proof.
  induction K as [| K IH]; cbn zeta.
  - cbn [run_ticks]. refine (conj _ (conj _ (conj _ (conj _ _))));
      try assumption; try reflexivity.
    + lia.
    + unfold calls_during. rewrite drop_all, app_nil_r. reflexivity.
  - rewrite run_ticks_S. cbn zeta in IH.
    destruct IH as (Hm & Hr & Hk & Ht & Hl).
    destruct (tick_spec (run_ticks K w) manager0 Hm) as (frames & calls & _ & P).
    refine (conj _ (conj _ (conj _ (conj _ _)))).
    + rewrite (tp_manager _ _ _ _ P). exact Hm.
    + apply (tick_registry_ok _ _ _ _ P), Hr.
    + rewrite (tick_keys _ _ _ _ P). exact Hk.
    + rewrite (tp_total _ _ _ _ P), Ht. lia.
    + unfold calls_during. rewrite (tp_log _ _ _ _ P), Hl, <- app_assoc.
      rewrite drop_app_length. reflexivity.
Qed.

Lemma calls_during_step (K : nat) :
  calls_during w (run_ticks (S K) w) =
    calls_during w (run_ticks K w) ++
    calls_during (run_ticks K w) (tick (run_ticks K w)).
Proof.
  destruct (run_ticks_inv K) as (Hm & _ & _ & _ & Hl).
  destruct (tick_spec (run_ticks K w) manager0 Hm) as (frames & calls & _ & P).
  rewrite run_ticks_S. unfold calls_during at 1 3.
  rewrite (tp_log _ _ _ _ P), drop_app_length, Hl, <- app_assoc, drop_app_length.
  reflexivity.
Qed.

(** C4: with the counter at zero, [K] ticks of an initialised engine
    request the closed trades of an account of the registry [⌈K/5⌉]
    times: once in each tick whose counter before the tick is a multiple
    of five; any other tick leaves the trade monitor of the account as it
    was and reports its stored trades in the frame of the account. *)
Theorem closed_trades_cadence (K : nat) (login_id : Z) :
  total_updates (stats w.1) = 0 →
  login_id ∈ pydict.keys (monitored_accounts w.1) →
  Z.of_nat (fetch_count login_id (calls_during w (run_ticks K w)))
    = (Z.of_nat K + 4) `div` 5 ∧
  ∀ i : nat, (i < K)%nat →
    let wi := run_ticks i w in
    total_updates (stats wi.1) = Z.of_nat i ∧
    login_id ∈ pydict.keys (monitored_accounts wi.1) ∧
    fetch_count login_id (calls_during wi (tick wi))
      = (if decide (Z.of_nat i `mod` 5 = 0) then 1%nat else 0%nat) ∧
    (Z.of_nat i `mod` 5 ≠ 0 →
       trade_monitor_of login_id (tick wi) = trade_monitor_of login_id wi ∧
       ∀ d f, d ∈ delivered_during wi (tick wi) → f ∈ d.2 →
         frame_login_id f = VNum (float login_id) →
         ∃ tm, trade_monitor_of login_id wi = Some tm ∧
               fr_trade_count f = Z.of_nat (length (TradeMonitor.trades tm))).
Proof.
  intros Hzero Hin.
  assert (Hstep : ∀ i : nat,
    let wi := run_ticks i w in
    manager wi.1 = Some manager0 ∧ registry_ok wi.1 ∧
    total_updates (stats wi.1) = Z.of_nat i ∧
    login_id ∈ pydict.keys (monitored_accounts wi.1) ∧
    fetch_count login_id (calls_during wi (tick wi))
      = (if decide (Z.of_nat i `mod` 5 = 0) then 1%nat else 0%nat)).
  { intros i wi. subst wi.
    destruct (run_ticks_inv i) as (Hm & Hr & Hk & Ht & _).
    rewrite Hzero, Z.add_0_l in Ht.
    refine (conj Hm (conj Hr (conj Ht (conj _ _)))).
    - rewrite Hk. exact Hin.
    - rewrite (tick_fetch_count _ manager0) by (try rewrite Hk; assumption).
      rewrite Ht. reflexivity. }
  split.
  - induction K as [| K IH].
    { unfold calls_during. cbn [run_ticks]. rewrite drop_all. reflexivity. }
    rewrite (calls_during_step K), fetch_count_app.
    destruct (Hstep K) as (_ & _ & _ & _ & Hcount). rewrite Hcount.
    rewrite Nat2Z.inj_add, IH.
    destruct (decide (Z.of_nat K `mod` 5 = 0)) as [Hmod | Hmod];
      Z.div_mod_to_equations; lia.
  - intros i _ wi.
    destruct (Hstep i) as (Hm & Hr & Ht & Hk & Hcount). fold wi in Hm, Hr, Ht, Hk, Hcount.
    refine (conj Ht (conj Hk (conj Hcount _))).
    intros Hmod.
    destruct (tick_spec wi manager0 Hm) as (frames & calls & _ & P).
    assert (Hmod' : total_updates (stats wi.1) `mod` 5 ≠ 0) by (rewrite Ht; exact Hmod).
    destruct (tp_reuse _ _ _ _ P Hmod') as [Htrades Hframes].
    split.
    + unfold trade_monitor_of.
      apply get_trades_stable; [apply (tp_items _ _ _ _ P) | exact Htrades].
    + intros d f Hd Hf Hid. unfold delivered_during in Hd.
      rewrite (tp_delivered _ _ _ _ P), drop_app_length in Hd.
      apply elem_of_lookup_imap in Hd as (j & cb & -> & _). cbn in Hf.
      destruct (proj1 (list.Forall_forall _ _) Hframes f Hf)
        as ([k ms] & Hkv & Hfid & Hcnt).
      destruct Hr as [Hwf Hall].
      pose proof (proj1 (list.Forall_forall _ _) Hall _ Hkv) as Hmk.
      unfold monitors_ok, logins_of in Hmk. cbn in Hmk, Hfid, Hcnt.
      injection Hmk as Ha _ _.
      rewrite Hid, Ha in Hfid.
      assert (k = login_id) as ->.
      { symmetry. apply float_inj. congruence. }
      exists (trades ms). split; [| exact Hcnt].
      unfold trade_monitor_of. rewrite (pydict_get_elem _ _ _ Hwf Hkv). reflexivity.
Qed.

End several_ticks.

(** ** The registry as the operations build it *)

Lemma apply_op_registry_ok (op : registry_op) (w : World) :
  registry_ok w.1 → registry_ok (apply_op op w).1.
Proof.
  destruct w as [r e]. intros [Hwf Hall].
  destruct op as [login_id | login_id]; cbn [apply_op].
  - rewrite add_account_eq.
    destruct (pydict.contains login_id (monitored_accounts r)); [split; assumption |].
    split; cbn.
    + apply pydict_wf_set, Hwf.
    + apply pydict_Forall_set; [exact Hall | reflexivity].
  - rewrite remove_account_eq.
    destruct (pydict.contains login_id (monitored_accounts r)); [| split; assumption].
    split; cbn.
    + apply pydict_wf_del, Hwf.
    + apply pydict_Forall_del, Hall.
Qed.

(** Every registry reached from a new engine by adding and removing
    accounts is well formed. *)
Lemma run_ops_registry_ok (ops : list registry_op) update_interval (e : Env) :
  registry_ok (run_ops ops (__init__ update_interval, e)).1.
Proof.
  assert (Hpres : ∀ w, registry_ok w.1 → registry_ok (run_ops ops w).1).
  { induction ops as [| op ops IH]; intros w Hok; [exact Hok |].
    cbn. apply IH, apply_op_registry_ok, Hok. }
  apply Hpres. split; [apply NoDup_nil_2 | constructor].
Qed.

(** ** The registry counter *)

Lemma apply_op_count_ok (op : registry_op) (w : World) :
  count_ok w → count_ok (apply_op op w).
Proof.
  destruct w as [r e]. unfold count_ok. intros Hok.
  destruct op as [login_id | login_id]; cbn [apply_op].
  - rewrite add_account_eq.
    destruct (pydict.contains login_id (monitored_accounts r)); [exact Hok | reflexivity].
  - rewrite remove_account_eq.
    destruct (pydict.contains login_id (monitored_accounts r)); [reflexivity | exact Hok].
Qed.

(** C10: the field [monitored_count] is the size of the registry in a
    new engine, and whenever it is, it still is after any sequence of
    [add_account] and [remove_account] calls. *)
Theorem monitored_count_invariant (ops : list registry_op) :
  (∀ update_interval e, count_ok (run_ops ops (__init__ update_interval, e))) ∧
  (∀ w, count_ok w → count_ok (run_ops ops w)).
Proof.
  assert (Hpres : ∀ w, count_ok w → count_ok (run_ops ops w)).
  { induction ops as [| op ops IH]; intros w Hok; [exact Hok |].
    cbn. apply IH, apply_op_count_ok, Hok. }
  split; [| exact Hpres].
  intros update_interval e. apply Hpres. reflexivity.
Qed.

(** ** Positions by symbol *)

Lemma insert_at_length {A} (l1 l2 : list A) (x y : A) :
  <[ length l1 := x ]> (l1 ++ y :: l2) = l1 ++ x :: l2.
Proof.
  rewrite <- (Nat.add_0_r (length l1)). rewrite insert_app_r. reflexivity.
Qed.

(** The inner loop writes the tag into every matching stored position
    and collects the tagged positions in order. *)
Lemma tag_loop_spec (symbol : value) (login_id : Z) (a : AccountMonitor.t)
    (t : TradeMonitor.t) (id : Z) (lu : option time)
    (suf pre acc : list dict) :
  for_each (PositionMonitor.matching_from symbol (length pre) suf)
    (tag_and_collect login_id)
    ({| account := a;
        positions := {| PositionMonitor.login_id := id;
                        PositionMonitor.positions := pre ++ suf;
                        PositionMonitor.last_update := lu |};
        trades := t |}, acc)
  = (Returned tt,
     ({| account := a;
         positions := {| PositionMonitor.login_id := id;
                         PositionMonitor.positions :=
                           pre ++ tag_matching symbol login_id suf;
                         PositionMonitor.last_update := lu |};
         trades := t |},
      acc ++ (tag login_id <$> filter (PositionMonitor.has_symbol symbol) suf))).
Proof.
  revert pre acc. induction suf as [| pos suf IH]; intros pre acc.
  - cbn. rewrite !app_nil_r. reflexivity.
  - cbn [PositionMonitor.matching_from tag_matching fmap list_fmap].
    fold (tag_matching symbol login_id suf).
    destruct (decide (PositionMonitor.has_symbol symbol pos)) as [Hsym | Hsym].
    + rewrite filter_cons_True by exact Hsym.
      cbn [for_each]. unfold tag_and_collect at 1.
      unfold PositionMonitor.setitem, PositionMonitor.deref, PositionMonitor.set_positions.
      py_unfold.
      rewrite list_lookup_middle by reflexivity. cbn.
      rewrite insert_at_length.
      rewrite list_lookup_middle by reflexivity. cbn.
      specialize (IH (pre ++ [tag login_id pos]) (acc ++ [tag login_id pos])).
      rewrite length_app, Nat.add_1_r, <- !app_assoc in IH. cbn in IH.
      exact IH.
    + rewrite filter_cons_False by exact Hsym.
      specialize (IH (pre ++ [pos]) acc).
      rewrite length_app, Nat.add_1_r, <- !app_assoc in IH. cbn in IH.
      exact IH.
Qed.

Lemma tag_items_spec (symbol : value) (items : pydict.t Z monitors) (acc : list dict) :
  for_items_from
    (λ login_id,
       ms <- gets fst ;;
       for_each (PositionMonitor.get_positions_by_symbol (positions ms) symbol)
         (tag_and_collect login_id))
    items acc
  = (Returned tt,
     (tag_stored symbol <$> items,
      acc ++ concat (positions_with_symbol symbol <$> items))).
Proof.
  revert acc. induction items as [| [k [a [id ps lu] t]] items IH]; intros acc.
  - cbn. rewrite app_nil_r. reflexivity.
  - cbn [for_items_from]. unfold bind at 1, gets at 1.
    cbn [fst positions]. unfold PositionMonitor.get_positions_by_symbol.
    cbn [PositionMonitor.positions].
    pose proof (tag_loop_spec symbol k a t id lu ps [] acc) as Hloop.
    cbn [length app] in Hloop. rewrite Hloop. rewrite IH.
    cbn. rewrite <- app_assoc. reflexivity.
Qed.

(** What the query computes and what it leaves in the registry. *)
Lemma get_positions_by_symbol_eq (symbol : value) (w : World) :
  get_positions_by_symbol symbol w =
    (Returned (concat (positions_with_symbol symbol <$> monitored_accounts w.1)),
     (with_monitored_accounts (λ _, tag_stored symbol <$> monitored_accounts w.1) w.1,
      w.2)).
Proof.
  unfold get_positions_by_symbol, for_items, zoom. unfold bind at 1.
  cbn [fst snd]. rewrite tag_items_spec. reflexivity.
Qed.

(** C6 (as amended): [get_positions_by_symbol symbol] returns exactly the
    stored positions whose symbol is [symbol], each tagged with the
    identifier of its account, grouped by account in the order in which
    the registry holds the accounts (the order of their insertion), and
    in their stored order within an account. *)
Theorem positions_by_symbol_in_registry_order (symbol : value) (w : World) :
  (get_positions_by_symbol symbol w).1 =
    Returned (concat (positions_with_symbol symbol <$> monitored_accounts w.1)).
Proof. rewrite get_positions_by_symbol_eq. reflexivity. Qed.

(** C6 (as stated) fails: account 1002 was added before account 1001 and
    both hold EURUSD; the result lists the positions of 1002 first. *)
Lemma positions_not_ascending :
  pydict.keys (monitored_accounts (tick demo_world).1) = [1002; 1001] ∧
  ∃ ds,
    (get_positions_by_symbol (VStr "EURUSD") (tick demo_world)).1 = Returned ds ∧
    result_logins ds = (λ i, VNum (float i)) <$> [1002; 1002; 1001] ∧
    ¬ ascending [1002; 1002; 1001].
Proof.
  split; [vm_compute; reflexivity |].
  eexists. split; [rewrite get_positions_by_symbol_eq; reflexivity |].
  split; [vm_compute; reflexivity |].
  intros Hasc.
  specialize (Hasc 0%nat 2%nat 1002 1001 ltac:(lia) eq_refl eq_refl). lia.
Qed.

(** ** Exposure by symbol *)

Lemma with_symbol_app symbol (l1 l2 : list dict) :
  with_symbol symbol (l1 ++ l2) = with_symbol symbol l1 ++ with_symbol symbol l2.
Proof. apply list.filter_app. Qed.

(** The loop of [get_total_volume_by_symbol] over positions whose
    volumes are numbers: it returns, and to the float under every symbol
    it has added, one after the other, the volumes of the positions with
    that symbol. *)
Lemma total_volume_loop_spec (ps : list dict) (acc : pydict.t value spec_float) :
  Forall (λ pos, numeric_volume pos = true) ps →
  ∃ acc',
    for_each ps (λ pos,
      let symbol := dict_get_default pos "symbol" (VStr "") in
      let volume := dict_get_default pos "volume" (VNum (float 0)) in
      PositionMonitor.add_volume symbol volume) acc = (Returned tt, acc') ∧
    (pydict.wf acc → pydict.wf acc') ∧
    ∀ symbol,
      volume_at symbol acc'
        = foldl fadd (volume_at symbol acc) (volume_of <$> with_symbol symbol ps) ∧
      (pydict.get symbol acc' = None ↔
         pydict.get symbol acc = None ∧ with_symbol symbol ps = []).
Proof.
  revert acc. induction ps as [| pos ps IH]; intros acc Hnum.
  - exists acc. split; [reflexivity |]. split; [trivial |]. intros symbol.
    split; [reflexivity | cbn; tauto].
  - apply list.Forall_cons in Hnum as [Hpos Hnum].
    unfold numeric_volume in Hpos.
    cbn [for_each]. unfold bind at 1.
    destruct (dict_get_default pos "volume" (VNum (float 0))) as [| q | |] eqn:Hvol;
      try discriminate Hpos.
    cbn [PositionMonitor.add_volume]. unfold modify at 1.
    set (acc1 := pydict.set _ _ acc).
    destruct (IH acc1 Hnum) as (acc' & Heq & Hwf & Hget).
    exists acc'. split; [exact Heq |]. split.
    { intros Hacc. apply Hwf. apply pydict_wf_set, Hacc. }
    intros symbol. destruct (Hget symbol) as [Hv Hn]. rewrite Hv, Hn. clear Hv Hn.
    unfold with_symbol. fold (symbol_of pos) in acc1 |- *.
    destruct (decide (symbol_of pos = symbol)) as [Hs | Hs].
    + rewrite filter_cons_True by exact Hs. rewrite fmap_cons. cbn [foldl].
      subst acc1. unfold volume_at. rewrite Hs, pydict_get_set_eq.
      cbn [default from_option id].
      assert (volume_of pos = to_float q) as ->
        by (unfold volume_of; rewrite Hvol; reflexivity).
      split; [reflexivity |].
      split; [intros [? _]; discriminate | intros [_ ?]; discriminate].
    + rewrite filter_cons_False by exact Hs.
      subst acc1. unfold volume_at. rewrite pydict_get_set_ne by exact Hs.
      split; reflexivity.
Qed.

Lemma get_total_volume_by_symbol_spec (p : PositionMonitor.t) :
  Forall (λ pos, numeric_volume pos = true) (PositionMonitor.positions p) →
  ∃ vbs,
    PositionMonitor.get_total_volume_by_symbol p = Returned vbs ∧
    pydict.wf vbs ∧
    ∀ symbol,
      volume_at symbol vbs = account_volume symbol (PositionMonitor.positions p) ∧
      (pydict.get symbol vbs = None ↔
         with_symbol symbol (PositionMonitor.positions p) = []).
Proof.
  intros Hnum.
  destruct (total_volume_loop_spec (PositionMonitor.positions p) [] Hnum)
    as (vbs & Heq & Hwf & Hget).
  cbv zeta in Heq.
  exists vbs. unfold PositionMonitor.get_total_volume_by_symbol. rewrite Heq.
  split; [reflexivity |]. split; [apply Hwf, NoDup_nil_2 |].
  intros symbol. destruct (Hget symbol) as [Hv Hn]. split.
  - rewrite Hv. reflexivity.
  - rewrite Hn. cbn. tauto.
Qed.

(** The three [+=] for the symbols of one account. *)
Lemma add_exposure_loop_spec (ms : monitors) (vbs : pydict.t value spec_float)
    (ex : pydict.t value Exposure.entry) :
  pydict.wf vbs →
  ∃ ex',
    for_each vbs (add_exposure ms) ex = (Returned tt, ex') ∧
    ∀ symbol,
      exposure_at symbol ex' =
        match pydict.get symbol vbs with
        | Some v => fadd (exposure_at symbol ex) v
        | None => exposure_at symbol ex
        end ∧
      (pydict.get symbol ex' = None ↔
         pydict.get symbol ex = None ∧ pydict.get symbol vbs = None).
Proof.
  revert ex. induction vbs as [| [s v] vbs IH]; intros ex Hwf.
  - exists ex. split; [reflexivity |]. intros symbol.
    split; [reflexivity | cbn; tauto].
  - apply list.NoDup_cons in Hwf as [Hnotin Hwf].
    cbn [for_each]. unfold bind at 1, add_exposure at 1, modify at 1. cbn [fst snd].
    set (ex1 := pydict.set s _ ex).
    destruct (IH ex1 Hwf) as (ex' & Heq & Hget).
    exists ex'. split; [exact Heq |].
    intros symbol. destruct (Hget symbol) as [Hv Hn]. rewrite Hv, Hn. clear Hv Hn.
    cbn [pydict.get].
    destruct (decide (s = symbol)) as [<- | Hs].
    + assert (pydict.get s vbs = None) as -> by (apply pydict_get_None, Hnotin).
      subst ex1. unfold exposure_at. rewrite pydict_get_set_eq. cbn.
      split; [reflexivity |].
      split; [intros [? _]; discriminate | intros [_ ?]; discriminate].
    + subst ex1. unfold exposure_at. rewrite pydict_get_set_ne by exact Hs.
      split; reflexivity.
Qed.

(** The loop of [get_total_exposure_by_symbol] over the registry. *)
Lemma exposure_items_spec (items : pydict.t Z monitors)
    (ex : pydict.t value Exposure.entry) :
  let ps := concat ((λ kv : Z * monitors, PositionMonitor.positions (positions kv.2))
                      <$> items) in
  Forall (λ pos, numeric_volume pos = true) ps →
  ∃ ex',
    for_items_from add_account_exposure items ex = (Returned tt, (items, ex')) ∧
    ∀ symbol,
      exposure_at symbol ex' =
        foldl fadd (exposure_at symbol ex)
          ((λ kv : Z * monitors,
              account_volume symbol (PositionMonitor.positions (positions kv.2)))
             <$> holders symbol items) ∧
      (pydict.get symbol ex' = None ↔
         pydict.get symbol ex = None ∧ with_symbol symbol ps = []).
Proof.
  revert ex. induction items as [| [k ms] items IH]; intros ex ps Hnum; subst ps.
  - exists ex. split; [reflexivity |]. intros symbol.
    split; [reflexivity | cbn; tauto].
  - cbn [fmap list_fmap concat snd] in Hnum |- *.
    apply Forall_app in Hnum as [Hnum1 Hnum2].
    destruct (get_total_volume_by_symbol_spec (positions ms) Hnum1)
      as (vbs & Hvbs & Hwf & Hget1).
    destruct (add_exposure_loop_spec ms vbs ex Hwf) as (ex1 & Heq1 & Hget2).
    destruct (IH ex1 Hnum2) as (ex' & Heq & Hget3).
    exists ex'. split.
    + cbn [for_items_from].
      assert (add_account_exposure k (ms, ex) = (Returned tt, (ms, ex1))) as ->.
      { unfold add_account_exposure. py_unfold. rewrite Hvbs. cbn.
        rewrite Heq1. reflexivity. }
      rewrite Heq. reflexivity.
    + intros symbol.
      destruct (Hget1 symbol) as [Hv1 Hn1], (Hget2 symbol) as [Hv2 Hn2],
        (Hget3 symbol) as [Hv3 Hn3].
      rewrite with_symbol_app, Hv3, Hn3, Hv2, Hn2. clear Hv3 Hn3 Hv2 Hn2.
      unfold holders.
      destruct (pydict.get symbol vbs) as [v |] eqn:Hv.
      * assert (Hholds : holds symbol (k, ms)).
        { unfold holds. cbn [snd]. intros Hempty. apply Hn1 in Hempty. discriminate. }
        rewrite filter_cons_True by exact Hholds. rewrite fmap_cons. cbn [foldl snd].
        rewrite <- Hv1. unfold volume_at. rewrite Hv. cbn [default from_option id].
        split; [reflexivity |].
        split; [intros [[_ ?] _]; discriminate |].
        intros [_ Happ]. apply app_nil in Happ as [Hnil _].
        apply Hn1 in Hnil. discriminate.
      * assert (Hnil : with_symbol symbol (PositionMonitor.positions (positions ms)) = [])
          by (apply Hn1; reflexivity).
        assert (Hholds : ¬ holds symbol (k, ms)).
        { unfold holds. cbn [snd]. intros Hne. apply Hne, Hnil. }
        rewrite filter_cons_False by exact Hholds. rewrite Hnil.
        split; [reflexivity |]. cbn [app]. tauto.
Qed.

(** The exposure query returns when the stored volumes are numbers, and
    it leaves the world as it found it. *)
Lemma get_total_exposure_by_symbol_eq (w : World) :
  Forall (λ pos, numeric_volume pos = true) (fleet_positions w) →
  ∃ exposure,
    get_total_exposure_by_symbol w = (Returned exposure, w) ∧
    ∀ symbol,
      exposure_at symbol exposure = gross_volume symbol (monitored_accounts w.1) ∧
      (pydict.get symbol exposure = None ↔
         with_symbol symbol (fleet_positions w) = []).
Proof.
  intros Hnum.
  destruct (exposure_items_spec (monitored_accounts w.1) [] Hnum)
    as (exposure & Heq & Hget).
  exists exposure. split.
  - unfold get_total_exposure_by_symbol, for_items, zoom. unfold bind at 1.
    cbn [fst snd]. rewrite Heq. destruct w as [[] e]. reflexivity.
  - intros symbol. destruct (Hget symbol) as [Hv Hn]. split.
    + rewrite Hv. reflexivity.
    + rewrite Hn. cbn. tauto.
Qed.

(** The exposure query never writes: whether it returns or raises, the
    world is as it was. *)
Lemma exposure_items_same (items : pydict.t Z monitors)
    (ex : pydict.t value Exposure.entry) :
  (for_items_from add_account_exposure items ex).2.1 = items.
Proof.
  revert ex. induction items as [| [k ms] items IH]; intros ex; [reflexivity |].
  cbn [for_items_from].
  assert (Hbody : ∃ r ex1, add_account_exposure k (ms, ex) = (r, (ms, ex1))).
  { unfold add_account_exposure. py_unfold.
    destruct (PositionMonitor.get_total_volume_by_symbol (positions ms)) as [vbs |];
      cbn; [| eexists _, _; reflexivity].
    destruct (for_each vbs (add_exposure ms) ex) as [r ex1]. eexists _, _; reflexivity. }
  destruct Hbody as (r & ex1 & ->). destruct r as [[] |]; [| reflexivity].
  specialize (IH ex1).
  destruct (for_items_from add_account_exposure items ex1) as [r' [items' ex']].
  cbn in IH |- *. rewrite IH. reflexivity.
Qed.

Lemma get_total_exposure_by_symbol_pure (w : World) :
  (get_total_exposure_by_symbol w).2 = w.
Proof.
  unfold get_total_exposure_by_symbol, for_items, zoom. unfold bind at 1.
  cbn [fst snd].
  pose proof (exposure_items_same (monitored_accounts w.1) []) as Hsame.
  destruct (for_items_from add_account_exposure (monitored_accounts w.1) [])
    as [r [items' ex']].
  cbn in Hsame. subst items'.
  destruct w as [[] e]. destruct r; reflexivity.
Qed.

(** C1 (as amended): when the stored volumes are numbers, the exposure
    query returns a dictionary that has an entry for a symbol exactly when
    some stored position has that symbol, and the [volume] of the entry is
    the gross volume of the symbol: the float sum, over the accounts that
    hold the symbol in the order of the registry, of the float sum of the
    volumes of the account's positions with the symbol in stored order.
    Every volume is added as it is, whatever the side of the position. *)
Theorem exposure_volume_is_gross (w : World) (symbol : value) :
  Forall (λ pos, numeric_volume pos = true) (fleet_positions w) →
  ∃ exposure,
    (get_total_exposure_by_symbol w).1 = Returned exposure ∧
    (pydict.get symbol exposure = None ↔
       with_symbol symbol (fleet_positions w) = []) ∧
    ∀ entry, pydict.get symbol exposure = Some entry →
      Exposure.volume entry = gross_volume symbol (monitored_accounts w.1).
Proof.
  intros Hnum.
  destruct (get_total_exposure_by_symbol_eq w Hnum) as (exposure & Heq & Hget).
  exists exposure. rewrite Heq. split; [reflexivity |].
  destruct (Hget symbol) as [Hv Hn]. split; [exact Hn |].
  intros entry Hentry. rewrite <- Hv. unfold exposure_at. rewrite Hentry. reflexivity.
Qed.

(** C1 (as stated) fails: account 1002 holds one position in GBPUSD, a
    sell of volume 2; its signed volume is -2.0, and the exposure of GBPUSD
    reports 2.0. *)
Lemma exposure_volume_not_signed :
  with_symbol (VStr "GBPUSD") (fleet_positions (tick demo_world))
    = [demo_position "GBPUSD" 2 "Sell"] ∧
  is_buy (demo_position "GBPUSD" 2 "Sell") = false ∧
  signed_volume (VStr "GBPUSD") (fleet_positions (tick demo_world))
    = SFopp (to_float (float 2)) ∧
  ∃ exposure entry,
    (get_total_exposure_by_symbol (tick demo_world)).1 = Returned exposure ∧
    pydict.get (VStr "GBPUSD") exposure = Some entry ∧
    Exposure.volume entry = to_float (float 2) ∧
    Exposure.volume entry ≠
      signed_volume (VStr "GBPUSD") (fleet_positions (tick demo_world)).
Proof.
  assert (Hsigned :
    signed_volume (VStr "GBPUSD") (fleet_positions (tick demo_world))
      = SFopp (to_float (float 2))) by (vm_compute; reflexivity).
  split; [vm_compute; reflexivity |].
  split; [vm_compute; reflexivity |].
  split; [exact Hsigned |].
  eexists _, _. split; [vm_compute; reflexivity |].
  split; [vm_compute; reflexivity |].
  split; [vm_compute; reflexivity |].
  rewrite Hsigned. vm_compute. discriminate.
Qed.

(** ** The queries and the store *)

(** C5: the positions query writes into the store.  Before the query the
    stored position of account 1001 has no key ['login_id']; after the
    query for EURUSD it has one, so the world is not what it was. *)
Theorem positions_query_writes_store :
  let w := tick demo_world in
  let w' := (get_positions_by_symbol (VStr "EURUSD") w).2 in
  PositionMonitor.positions <$> position_monitor_of 1001 w
    = Some [demo_position "EURUSD" 3 "Buy"] ∧
  PositionMonitor.positions <$> position_monitor_of 1001 w'
    = Some [tag 1001 (demo_position "EURUSD" 3 "Buy")] ∧
  demo_position "EURUSD" 3 "Buy" !! "login_id" = None ∧
  tag 1001 (demo_position "EURUSD" 3 "Buy") !! "login_id" = Some (VNum (float 1001)) ∧
  w' ≠ w.
Proof.
  intros w w'.
  assert (H1 : PositionMonitor.positions <$> position_monitor_of 1001 w
                 = Some [demo_position "EURUSD" 3 "Buy"])
    by (vm_compute; reflexivity).
  assert (H2 : PositionMonitor.positions <$> position_monitor_of 1001 w'
                 = Some [tag 1001 (demo_position "EURUSD" 3 "Buy")])
    by (vm_compute; reflexivity).
  assert (H3 : demo_position "EURUSD" 3 "Buy" !! "login_id" = None)
    by (vm_compute; reflexivity).
  assert (H4 : tag 1001 (demo_position "EURUSD" 3 "Buy") !! "login_id"
                 = Some (VNum (float 1001)))
    by (vm_compute; reflexivity).
  repeat apply conj; try assumption.
  intros Heq. rewrite Heq, H1 in H2.
  generalize dependent (tag 1001 (demo_position "EURUSD" 3 "Buy")).
  generalize dependent (demo_position "EURUSD" 3 "Buy").
  intros p Hp q Hq Hpq. congruence.
Qed.

(** * Further properties of the monitors *)

(** X1: the positions fetch always returns.  A non-empty answer replaces
    the stored positions and stamps the update; an empty answer erases the
    stored positions and keeps the old stamp; a raised exception keeps
    both, and the caller gets an empty list. *)
Theorem positions_fetch_cases manager (p : PositionMonitor.t) (e : Env) :
  let reply := get_open_positions manager e (PositionMonitor.login_id p) in
  let run := PositionMonitor.update manager (p, e) in
  (∀ ps, reply = Returned ps → ps ≠ [] →
     run.1 = Returned ps ∧
     PositionMonitor.positions run.2.1 = ps ∧
     PositionMonitor.last_update run.2.1 = Some (clock e)) ∧
  (reply = Returned [] →
     run.1 = Returned [] ∧
     PositionMonitor.positions run.2.1 = [] ∧
     PositionMonitor.last_update run.2.1 = PositionMonitor.last_update p) ∧
  (reply = Raised →
     run.1 = Returned [] ∧ run.2.1 = p).
Proof.
  intros reply run. subst run. rewrite PositionMonitor_update_eq. fold reply.
  clearbody reply. split; [| split].
  - intros ps -> Hne. destruct ps as [| pos ps]; [contradiction |].
    cbn. repeat split; reflexivity.
  - intros ->. cbn. repeat split; reflexivity.
  - intros ->. cbn. repeat split; reflexivity.
Qed.

(** X2: the closed trades fetch always returns and asks the broker for
    the trades since the date fixed when the monitor was built; it never
    moves that date.  A non-empty answer replaces the stored trades, an
    empty answer erases them, a raised exception keeps them. *)
Theorem trades_fetch_cases manager (t : TradeMonitor.t) (e : Env) :
  let reply := get_closed_trades manager e (TradeMonitor.login_id t)
                 (TradeMonitor.from_date t) in
  let run := TradeMonitor.update manager (t, e) in
  TradeMonitor.from_date run.2.1 = TradeMonitor.from_date t ∧
  (rpc_log run.2.2).*1 = (rpc_log e).*1 ++
    [GetClosedTrades (TradeMonitor.login_id t) (TradeMonitor.from_date t)] ∧
  (∀ ts, reply = Returned ts → ts ≠ [] →
     run.1 = Returned ts ∧
     TradeMonitor.trades run.2.1 = ts ∧
     TradeMonitor.last_update run.2.1 = Some (clock e)) ∧
  (reply = Returned [] →
     run.1 = Returned [] ∧
     TradeMonitor.trades run.2.1 = [] ∧
     TradeMonitor.last_update run.2.1 = TradeMonitor.last_update t) ∧
  (reply = Raised →
     run.1 = Returned [] ∧ run.2.1 = t).
Proof.
  intros reply run. subst run. rewrite TradeMonitor_update_eq. fold reply.
  clearbody reply. cbn zeta.
  split; [| split; [| split; [| split]]].
  - destruct reply as [[| tr ts] |]; reflexivity.
  - destruct reply as [[| tr ts] |]; cbn; rewrite fmap_app; reflexivity.
  - intros ts -> Hne. destruct ts as [| tr ts]; [contradiction |].
    cbn. repeat split; reflexivity.
  - intros ->. cbn. repeat split; reflexivity.
  - intros ->. cbn. repeat split; reflexivity.
Qed.

(** * Further properties of the tick *)

Lemma TradeMonitor_update_from_date manager (t : TradeMonitor.t) (e : Env) :
  TradeMonitor.from_date (TradeMonitor.update manager (t, e)).2.1
    = TradeMonitor.from_date t.
Proof.
  rewrite TradeMonitor_update_eq. cbn zeta.
  destruct (get_closed_trades manager e _ _) as [[| tr ts] |]; reflexivity.
Qed.

Lemma refresh_requests_spec manager (k : Z) (ms : monitors) (ctx : Ctx) :
  ∃ ms' ctx',
    refresh manager (ms, ctx) = (Returned tt, (ms', ctx')) ∧
    ctx_stats ctx' = ctx_stats ctx ∧
    (rpc_log (ctx_env ctx')).*1 =
      (rpc_log (ctx_env ctx)).*1 ++ refresh_requests (total_updates (ctx_stats ctx)) ms ∧
    same_account (k, ms) (k, ms').
Proof.
  destruct ms as [a p t], ctx as [st data e].
  destruct (AccountMonitor_update_spec manager a e)
    as (ra & a' & e1 & st1 & Ha & Hlog1 & _ & Hid1 & _).
  destruct (PositionMonitor_update_spec manager p e1)
    as (rp & p' & e2 & st2 & Hp & Hlog2 & _ & Hid2).
  destruct (TradeMonitor_update_spec manager t e2)
    as (rt & t' & e3 & st3 & Ht & Hlog3 & _ & Hid3).
  pose proof (TradeMonitor_update_from_date manager t e2) as Hfd.
  rewrite Ht in Hfd. cbn in Hfd.
  unfold refresh, on_account, on_positions, on_trades, append_frame, refresh_requests,
    same_account, logins_of.
  py_unfold. rewrite Ha. cbn. rewrite Hp. cbn.
  destruct (decide (total_updates st `mod` 5 = 0)) as [Hmod | Hmod]; cbn.
  - rewrite Ht. cbn.
    destruct (dict_truthy ra); cbn; eexists _, _; (split; [reflexivity |]); cbn;
      (split; [reflexivity |]);
      (split; [rewrite Hlog3, Hlog2, Hlog1, !fmap_app, <- !app_assoc; reflexivity |]);
      repeat split; congruence.
  - destruct (dict_truthy ra); cbn; eexists _, _; (split; [reflexivity |]); cbn;
      (split; [reflexivity |]);
      (split; [rewrite Hlog2, Hlog1, !fmap_app, <- !app_assoc; reflexivity |]);
      repeat split; congruence.
Qed.

Lemma for_items_requests manager (items : pydict.t Z monitors) (ctx : Ctx) :
  ∃ items' ctx',
    for_items_from (update_one manager) items ctx = (Returned tt, (items', ctx')) ∧
    ctx_stats ctx' = ctx_stats ctx ∧
    (rpc_log (ctx_env ctx')).*1 =
      (rpc_log (ctx_env ctx)).*1 ++ tick_requests (total_updates (ctx_stats ctx)) items ∧
    Forall2 same_account items items'.
Proof.
  revert ctx. induction items as [| [k ms] rest IH]; intros ctx.
  - exists [], ctx. split; [reflexivity |]. split; [reflexivity |].
    split; [cbn; rewrite app_nil_r; reflexivity | constructor].
  - destruct (refresh_requests_spec manager k ms ctx)
      as (ms' & ctx1 & Heq1 & Hst1 & Hlog1 & Hsame).
    destruct (IH ctx1) as (rest' & ctx' & Heq2 & Hst2 & Hlog2 & Hrest).
    exists ((k, ms') :: rest'), ctx'.
    cbn [for_items_from]. unfold update_one at 1, try_except.
    rewrite Heq1, Heq2. split; [reflexivity |].
    split; [congruence |]. split; [| constructor; assumption].
    rewrite Hlog2, Hlog1, Hst1. unfold tick_requests. cbn.
    rewrite <- !app_assoc. reflexivity.
Qed.

(** A tick of an initialised engine, request by request. *)
Lemma tick_requests_spec (w : World) manager0 :
  manager w.1 = Some manager0 →
  manager (tick w).1 = Some manager0 ∧
  total_updates (stats (tick w).1) = total_updates (stats w.1) + 1 ∧
  (rpc_log (tick w).2).*1 =
    (rpc_log w.2).*1 ++ tick_requests (total_updates (stats w.1)) (monitored_accounts w.1) ∧
  Forall2 same_account (monitored_accounts w.1) (monitored_accounts (tick w).1).
Proof.
  destruct w as [r e]. cbn [fst snd]. intros Hmgr.
  unfold tick, _update_all_accounts, update_loop, for_items.
  py_unfold. rewrite Hmgr. cbn.
  destruct (for_items_requests manager0 (monitored_accounts r)
              {| ctx_stats := stats r; accounts_data := []; ctx_env := e |})
    as (items' & ctx' & Heq & Hst & Hlog & Hsame).
  rewrite Heq. cbn. unfold datetime_now. cbn.
  rewrite notify_all_spec. cbn. cbn in Hst, Hlog.
  rewrite Hst. repeat split; assumption.
Qed.

Lemma refresh_requests_same (total : Z) (kv kv' : Z * monitors) :
  same_account kv kv' → refresh_requests total kv'.2 = refresh_requests total kv.2.
Proof.
  intros (_ & Hlogins & Hfrom). unfold refresh_requests, logins_of in *.
  injection Hlogins as -> -> ->. rewrite Hfrom. reflexivity.
Qed.

Lemma tick_requests_same (total : Z) (items items' : pydict.t Z monitors) :
  Forall2 same_account items items' →
  tick_requests total items' = tick_requests total items.
Proof.
  unfold tick_requests. induction 1 as [| kv kv' l l' Hkv _ IH]; [reflexivity |].
  rewrite !fmap_cons. cbn [concat].
  rewrite IH, (refresh_requests_same total kv kv' Hkv). reflexivity.
Qed.

Lemma same_account_trans (l1 l2 l3 : pydict.t Z monitors) :
  Forall2 same_account l1 l2 → Forall2 same_account l2 l3 →
  Forall2 same_account l1 l3.
Proof.
  intros H12. revert l3. induction H12 as [| x y l l' Hxy _ IH]; intros l3 H23.
  - inversion H23. constructor.
  - inversion H23 as [| y' z l2' l3' Hyz Hrest]; subst. constructor; [| apply IH, Hrest].
    destruct Hxy as (? & ? & ?), Hyz as (? & ? & ?). repeat split; congruence.
Qed.

Lemma same_account_refl (l : pydict.t Z monitors) : Forall2 same_account l l.
Proof. induction l; constructor; [repeat split | assumption]. Qed.

Lemma same_account_keys (l l' : pydict.t Z monitors) :
  Forall2 same_account l l' → pydict.keys l' = pydict.keys l.
Proof.
  unfold pydict.keys. induction 1 as [| kv kv' l l' (Hk & _) _ IH]; [reflexivity |].
  cbn. rewrite Hk, IH. reflexivity.
Qed.

Lemma calls_during_requests (w w' : World) (reqs : list rpc) :
  (rpc_log w'.2).*1 = (rpc_log w.2).*1 ++ reqs →
  (calls_during w w').*1 = reqs.
Proof.
  intros Hlog. unfold calls_during. rewrite fmap_drop, Hlog.
  rewrite <- (length_fmap fst (rpc_log w.2)). apply drop_app_length.
Qed.

(** What [K] ticks of an initialised engine do, request by request. *)
Lemma run_ticks_requests (K : nat) (w : World) manager0 :
  manager w.1 = Some manager0 →
  let w' := run_ticks K w in
  manager w'.1 = Some manager0 ∧
  total_updates (stats w'.1) = total_updates (stats w.1) + Z.of_nat K ∧
  Forall2 same_account (monitored_accounts w.1) (monitored_accounts w'.1) ∧
  (rpc_log w'.2).*1 =
    (rpc_log w.2).*1 ++
    run_requests (total_updates (stats w.1)) K (monitored_accounts w.1).
Proof.
  intros Hmgr. induction K as [| K IH]; cbn zeta.
  - cbn [run_ticks]. split; [exact Hmgr |]. split; [lia |].
    split; [apply same_account_refl |]. unfold run_requests. cbn.
    rewrite app_nil_r. reflexivity.
  - rewrite run_ticks_S. cbn zeta in IH. destruct IH as (Hm & Ht & Hsame & Hlog).
    destruct (tick_requests_spec (run_ticks K w) manager0 Hm)
      as (Hm' & Ht' & Hlog' & Hsame').
    split; [exact Hm' |]. split; [lia |].
    split; [eapply same_account_trans; eassumption |].
    rewrite Hlog', Hlog, Ht, (tick_requests_same _ _ _ Hsame).
    unfold run_requests. rewrite seq_S, fmap_app, concat_app. cbn.
    rewrite app_nil_r, <- app_assoc. reflexivity.
Qed.

(** X3: the broker traffic of [K] ticks of an initialised engine is fixed
    by the registry and the counter of updates: tick after tick, account
    after account in the order of the registry, the details request, then
    the positions request, then, in the ticks whose counter is a multiple
    of five, the closed trades request with the date fixed when the
    account was added. *)
Theorem ticks_request_sequence (K : nat) (w : World) manager0 :
  manager w.1 = Some manager0 →
  (calls_during w (run_ticks K w)).*1 =
    run_requests (total_updates (stats w.1)) K (monitored_accounts w.1).
Proof.
  intros Hmgr. apply calls_during_requests.
  apply (run_ticks_requests K w manager0 Hmgr).
Qed.

(** X4: ticks of an engine that was never initialised change nothing;
    [K] ticks of an initialised engine advance the counter of updates by
    exactly [K] and keep the accounts of the registry, the count of
    monitored accounts and the callbacks. *)
Theorem ticks_bookkeeping (K : nat) (w : World) :
  (manager w.1 = None → run_ticks K w = w) ∧
  (∀ manager0, manager w.1 = Some manager0 →
     let w' := run_ticks K w in
     total_updates (stats w'.1) = total_updates (stats w.1) + Z.of_nat K ∧
     pydict.keys (monitored_accounts w'.1) = pydict.keys (monitored_accounts w.1) ∧
     monitored_count (stats w'.1) = monitored_count (stats w.1) ∧
     _callbacks w'.1 = _callbacks w.1).
Proof.
  split.
  - intros Hnone. induction K as [| K IH]; [reflexivity |].
    rewrite run_ticks_S, IH. destruct w as [r e]. cbn in Hnone.
    unfold tick, _update_all_accounts. py_unfold. rewrite Hnone. reflexivity.
  - intros manager0 Hmgr. induction K as [| K IH]; cbn zeta.
    + cbn [run_ticks]. repeat split; try reflexivity. lia.
    + cbn zeta in IH. destruct IH as (Ht & Hk & Hc & Hcb).
      destruct (run_ticks_requests K w manager0 Hmgr) as (Hm & _).
      rewrite run_ticks_S.
      destruct (tick_spec (run_ticks K w) manager0 Hm) as (frames & calls & _ & P).
      rewrite (tp_total _ _ _ _ P), (tick_keys _ _ _ _ P), (tp_count _ _ _ _ P),
        (tp_callbacks _ _ _ _ P).
      repeat split; try assumption. lia.
Qed.

Lemma elem_of_concat {A} (x : A) (ls : list (list A)) :
  x ∈ concat ls ↔ ∃ l, l ∈ ls ∧ x ∈ l.
Proof.
  induction ls as [| l ls IH]; cbn.
  - split; [intros H; apply elem_of_nil in H; contradiction |].
    intros (l & Hl & _). apply elem_of_nil in Hl. contradiction.
  - rewrite elem_of_app, IH. split.
    + intros [Hx | (l' & Hl' & Hx)].
      * exists l. split; [apply elem_of_cons; left; reflexivity | exact Hx].
      * exists l'. split; [apply elem_of_cons; right; exact Hl' | exact Hx].
    + intros (l' & Hl' & Hx). apply elem_of_cons in Hl' as [-> | Hl'].
      * left. exact Hx.
      * right. exists l'. split; assumption.
Qed.

Lemma run_requests_elem (c : rpc) (total : Z) (K : nat) (items : pydict.t Z monitors) :
  c ∈ run_requests total K items →
  ∃ kv total', kv ∈ items ∧ c ∈ refresh_requests total' kv.2.
Proof.
  unfold run_requests, tick_requests. intros Hc.
  apply elem_of_concat in Hc as (reqs & Hreqs & Hc).
  apply list_elem_of_fmap in Hreqs as (i & -> & _).
  apply elem_of_concat in Hc as (reqs & Hreqs & Hc).
  apply list_elem_of_fmap in Hreqs as (kv & -> & Hkv).
  exists kv, (total + Z.of_nat i). split; assumption.
Qed.

Lemma refresh_requests_login (c : rpc) (total : Z) (kv : Z * monitors) :
  monitors_ok kv → c ∈ refresh_requests total kv.2 → rpc_login c = kv.1.
Proof.
  unfold monitors_ok, logins_of, refresh_requests. intros Hok Hc.
  injection Hok as Ha Hp Ht.
  apply elem_of_app in Hc as [Hc | Hc].
  - apply elem_of_cons in Hc as [-> | Hc]; [exact Ha |].
    apply list_elem_of_singleton in Hc as ->. exact Hp.
  - destruct (decide _); [| apply elem_of_nil in Hc; contradiction].
    apply list_elem_of_singleton in Hc as ->. exact Ht.
Qed.

Lemma refresh_requests_from (login_id : Z) (from_date : time) (total : Z)
    (ms : monitors) :
  GetClosedTrades login_id from_date ∈ refresh_requests total ms →
  from_date = TradeMonitor.from_date (trades ms).
Proof.
  unfold refresh_requests. intros Hc.
  apply elem_of_app in Hc as [Hc | Hc].
  - apply elem_of_cons in Hc as [Hc | Hc]; [discriminate Hc |].
    apply list_elem_of_singleton in Hc. discriminate Hc.
  - destruct (decide _); [| apply elem_of_nil in Hc; contradiction].
    apply list_elem_of_singleton in Hc. congruence.
Qed.

Lemma succeeded_details_logins (calls : list (rpc * rpc_status)) (i : Z) :
  i ∈ succeeded_details calls → ∃ c, c ∈ calls ∧ rpc_login c.1 = i.
Proof.
  unfold succeeded_details. intros Hi.
  apply list_elem_of_omap in Hi as ([call st] & Hc & Hsome).
  exists (call, st). split; [exact Hc |].
  destruct call, st; try discriminate Hsome. cbn. congruence.
Qed.

(** Every frame delivered during [K] ticks belongs to an account that was
    asked for during those ticks. *)
Lemma run_ticks_frames (K : nat) (w : World) manager0 :
  manager w.1 = Some manager0 →
  ∃ calls deliveries,
    rpc_log (run_ticks K w).2 = rpc_log w.2 ++ calls ∧
    delivered (run_ticks K w).2 = delivered w.2 ++ deliveries ∧
    ∀ d f, d ∈ deliveries → f ∈ d.2 →
      ∃ c, c ∈ calls ∧ frame_login_id f = VNum (float (rpc_login c.1)).
Proof.
  intros Hmgr. induction K as [| K IH].
  - exists [], []. cbn [run_ticks]. rewrite !app_nil_r.
    split; [reflexivity |]. split; [reflexivity |].
    intros d f Hd. apply elem_of_nil in Hd. contradiction.
  - destruct IH as (calls & deliveries & Hlog & Hdel & Hframes).
    destruct (run_ticks_requests K w manager0 Hmgr) as (Hm & _).
    rewrite run_ticks_S.
    destruct (tick_spec (run_ticks K w) manager0 Hm) as (frames & calls1 & _ & P).
    exists (calls ++ calls1),
      (deliveries ++ imap (λ i _, (i, frames)) (_callbacks (run_ticks K w).1)).
    rewrite (tp_log _ _ _ _ P), (tp_delivered _ _ _ _ P), Hlog, Hdel, <- !app_assoc.
    split; [reflexivity |]. split; [reflexivity |].
    intros d f Hd Hf. apply elem_of_app in Hd as [Hd | Hd].
    + destruct (Hframes d f Hd Hf) as (c & Hc & Hid).
      exists c. split; [apply elem_of_app; left; exact Hc | exact Hid].
    + apply elem_of_lookup_imap in Hd as (j & cb & -> & _). cbn in Hf.
      assert (Hin : frame_login_id f ∈ frame_login_id <$> frames)
        by (apply list_elem_of_fmap; exists f; split; [reflexivity | exact Hf]).
      rewrite (tp_frames _ _ _ _ P) in Hin.
      apply list_elem_of_fmap in Hin as (i & Hid & Hi).
      apply succeeded_details_logins in Hi as (c & Hc & <-).
      exists c. split; [apply elem_of_app; right; exact Hc | exact Hid].
Qed.

(** An account that is not in the registry is never asked for and never
    reported. *)
Lemma absent_account_silent (K : nat) (w : World) manager0 (login_id : Z) :
  manager w.1 = Some manager0 → registry_ok w.1 →
  login_id ∉ pydict.keys (monitored_accounts w.1) →
  (∀ c, c ∈ calls_during w (run_ticks K w) → rpc_login c.1 ≠ login_id) ∧
  (∀ d f, d ∈ delivered_during w (run_ticks K w) → f ∈ d.2 →
     frame_login_id f ≠ VNum (float login_id)).
Proof.
  intros Hmgr [Hwf Hall] Hnotin.
  assert (Hcalls : ∀ c, c ∈ calls_during w (run_ticks K w) → rpc_login c.1 ≠ login_id).
  { intros c Hc Heq.
    assert (Hreq : c.1 ∈ (calls_during w (run_ticks K w)).*1)
      by (apply list_elem_of_fmap; exists c; split; [reflexivity | exact Hc]).
    destruct (run_ticks_requests K w manager0 Hmgr) as (_ & _ & _ & Hlog).
    rewrite (calls_during_requests _ _ _ Hlog) in Hreq.
    apply run_requests_elem in Hreq as (kv & total & Hkv & Hreq).
    pose proof (proj1 (list.Forall_forall _ _) Hall kv Hkv) as Hok.
    rewrite (refresh_requests_login _ _ _ Hok Hreq) in Heq.
    apply Hnotin. rewrite <- Heq. unfold pydict.keys.
    apply list_elem_of_fmap. exists kv. split; [reflexivity | exact Hkv]. }
  split; [exact Hcalls |].
  intros d f Hd Hf Hid.
  destruct (run_ticks_frames K w manager0 Hmgr)
    as (calls & deliveries & Hlog & Hdel & Hframes).
  unfold delivered_during in Hd. rewrite Hdel, drop_app_length in Hd.
  destruct (Hframes d f Hd Hf) as (c & Hc & Hfid).
  apply (Hcalls c).
  - unfold calls_during. rewrite Hlog, drop_app_length. exact Hc.
  - apply float_inj. congruence.
Qed.

Lemma pydict_del_notin {V} (d : pydict.t Z V) (k : Z) :
  pydict.wf d → k ∉ pydict.keys (pydict.del k d).
Proof.
  unfold pydict.wf, pydict.keys.
  induction d as [| [k' v'] d IH]; cbn; intros Hwf.
  - apply not_elem_of_nil.
  - apply list.NoDup_cons in Hwf as [Hnotin Hwf].
    destruct (decide (k' = k)) as [-> | Hne]; [exact Hnotin |].
    cbn. apply not_elem_of_cons. split; [congruence | apply IH, Hwf].
Qed.

(** X5: once an account has been removed, no tick asks the broker about
    it and no frame handed to a callback carries its identifier. *)
Theorem no_leak_after_remove (K : nat) (w : World) manager0 (login_id : Z) :
  manager w.1 = Some manager0 →
  registry_ok w.1 →
  let w1 := (remove_account login_id w).2 in
  (∀ c, c ∈ calls_during w1 (run_ticks K w1) → rpc_login c.1 ≠ login_id) ∧
  (∀ d f, d ∈ delivered_during w1 (run_ticks K w1) → f ∈ d.2 →
     frame_login_id f ≠ VNum (float login_id)).
Proof.
  intros Hmgr Hok w1.
  assert (Hok1 : registry_ok w1.1) by apply (apply_op_registry_ok (Remove login_id) w Hok).
  assert (Hm1 : manager w1.1 = Some manager0).
  { subst w1. destruct w as [r e]. rewrite remove_account_eq.
    destruct (pydict.contains login_id (monitored_accounts r)); exact Hmgr. }
  assert (Hnotin : login_id ∉ pydict.keys (monitored_accounts w1.1)).
  { subst w1. destruct w as [r e]. rewrite remove_account_eq.
    destruct (pydict.contains login_id (monitored_accounts r)) eqn:Hc; cbn.
    - apply pydict_del_notin, Hok.
    - apply pydict_get_None. unfold pydict.contains in Hc.
      destruct (pydict.get login_id (monitored_accounts r)); [discriminate | reflexivity]. }
  apply (absent_account_silent K w1 manager0 login_id Hm1 Hok1 Hnotin).
Qed.

(** X6: the history window of an account is anchored when the account is
    added: whatever the number of ticks, every closed trades request for
    the account asks for the trades since thirty days before the moment of
    [add_account]; the window does not slide with the clock. *)
Theorem history_window_anchored (K : nat) (w : World) manager0 (login_id : Z)
    (from_date : time) :
  manager w.1 = Some manager0 →
  registry_ok w.1 →
  pydict.contains login_id (monitored_accounts w.1) = false →
  let w1 := (add_account login_id w).2 in
  GetClosedTrades login_id from_date ∈ (calls_during w1 (run_ticks K w1)).*1 →
  from_date = clock w.2 - timedelta_days 30.
Proof.
  intros Hmgr Hok Habsent w1 Hreq.
  assert (Hok1 : registry_ok w1.1) by apply (apply_op_registry_ok (Add login_id) w Hok).
  destruct w as [r e]. cbn [fst snd] in *.
  subst w1. rewrite add_account_eq, Habsent in Hreq, Hok1. cbn zeta in Hreq, Hok1.
  cbn [fst snd] in Hreq, Hok1.
  match type of Hreq with
  | _ ∈ (calls_during ?w1 _).*1 =>
      destruct (run_ticks_requests K w1 manager0 Hmgr) as (_ & _ & _ & Hlog);
      rewrite (calls_during_requests _ _ _ Hlog) in Hreq
  end.
  apply run_requests_elem in Hreq as ([k ms] & total & Hkv & Hreq).
  cbn [fst snd monitored_accounts with_stats with_monitored_accounts] in Hkv, Hok1.
  destruct Hok1 as [Hwf Hall].
  cbn [fst snd monitored_accounts with_stats with_monitored_accounts] in Hwf, Hall.
  pose proof (proj1 (list.Forall_forall _ _) Hall _ Hkv) as Hmk.
  pose proof (refresh_requests_login _ _ _ Hmk Hreq) as Hlogin. cbn in Hlogin.
  subst k.
  pose proof (pydict_get_elem _ _ _ Hwf Hkv) as Hget.
  rewrite pydict_get_set_eq in Hget. injection Hget as <-.
  apply refresh_requests_from in Hreq. exact Hreq.
Qed.

(** * Further properties of the engine *)

(** X7: [initialize] touches nothing but the manager.  It answers [True]
    only for a client that was built and is connected; a client that was
    built but is not connected is kept as the manager although the answer
    is [False], so the next tick polls through it; when building the
    client raises, the manager is as before. *)
Theorem initialize_cases (construct : outcome MT5ManagerActions) (w : World) :
  let run := initialize construct w in
  monitored_accounts run.2.1 = monitored_accounts w.1 ∧
  stats run.2.1 = stats w.1 ∧
  _callbacks run.2.1 = _callbacks w.1 ∧
  run.2.2 = w.2 ∧
  match construct with
  | Returned client =>
      run.1 = Returned (connected client) ∧ manager run.2.1 = Some client ∧
      total_updates (stats (tick run.2).1) = total_updates (stats w.1) + 1
  | Raised => run.1 = Returned false ∧ manager run.2.1 = manager w.1
  end.
Proof.
  destruct w as [r e]. unfold initialize. py_unfold.
  destruct construct as [client |]; cbn.
  - assert (Htick : ∀ w' : World, manager w'.1 = Some client → stats w'.1 = stats r →
              total_updates (stats (tick w').1) = total_updates (stats r) + 1).
    { intros w' Hm Hs. destruct (tick_spec w' client Hm) as (frames & calls & _ & P).
      rewrite (tp_total _ _ _ _ P), Hs. reflexivity. }
    destruct (connected client); cbn; repeat split; try reflexivity;
      apply Htick; reflexivity.
  - repeat split; reflexivity.
Qed.

Lemma pydict_del_set_absent {V} (d : pydict.t Z V) (k : Z) (v : V) :
  pydict.get k d = None → pydict.del k (pydict.set k v d) = d.
Proof.
  induction d as [| [k' v'] d IH]; cbn; intros Hg.
  - rewrite decide_True by done. reflexivity.
  - destruct (decide (k' = k)); [discriminate |]. cbn.
    rewrite decide_False by done. rewrite IH by exact Hg. reflexivity.
Qed.

Lemma filter_ne_absent (k : Z) (l : list Z) :
  k ∉ l → filter (λ i, i ≠ k) l = l.
Proof.
  induction l as [| y l IH]; intros Hnotin; [reflexivity |].
  apply not_elem_of_cons in Hnotin as [Hne Hnotin].
  rewrite filter_cons_True by congruence. rewrite IH by exact Hnotin. reflexivity.
Qed.

Lemma pydict_keys_del_filter {V} (d : pydict.t Z V) (k : Z) :
  pydict.wf d → pydict.keys (pydict.del k d) = filter (λ i, i ≠ k) (pydict.keys d).
Proof.
  unfold pydict.wf, pydict.keys.
  induction d as [| [k' v'] d IH]; intros Hwf; [reflexivity |].
  rewrite fmap_cons in Hwf |- *. cbn [fst pydict.del] in Hwf |- *.
  apply list.NoDup_cons in Hwf as [Hnotin Hwf].
  destruct (decide (k' = k)) as [-> | Hne].
  - rewrite filter_cons_False by (intros H; apply H; reflexivity).
    rewrite filter_ne_absent by exact Hnotin. reflexivity.
  - rewrite filter_cons_True by exact Hne. rewrite fmap_cons. cbn [fst].
    rewrite IH by exact Hwf. reflexivity.
Qed.

(** X8: adding an account that was absent and removing it again gives
    back the registry and the count of monitored accounts, without any
    broker call; only the clock has been read once. *)
Theorem add_then_remove (login_id : Z) (w : World) :
  pydict.contains login_id (monitored_accounts w.1) = false →
  count_ok w →
  let w' := (remove_account login_id (add_account login_id w).2).2 in
  w'.1 = w.1 ∧ rpc_log w'.2 = rpc_log w.2 ∧ clock w'.2 = clock w.2 + 1.
Proof.
  destruct w as [[ui regs mgr run cbs st] e]. unfold count_ok. cbn [fst snd].
  cbn [monitored_accounts stats]. intros Habsent Hcount. cbv zeta.
  set (w' := (remove_account login_id _).2).
  assert (Hnone : pydict.get login_id regs = None).
  { unfold pydict.contains in Habsent.
    destruct (pydict.get login_id regs); [discriminate | reflexivity]. }
  assert (Heq : w' =
    ({| update_interval := ui; monitored_accounts := regs; manager := mgr;
        running := run; _callbacks := cbs; stats := st |},
     {| clock := clock e + 1; rpc_log := rpc_log e; delivered := delivered e |})).
  { subst w'. rewrite add_account_eq. cbn [monitored_accounts]. rewrite Habsent.
    cbn zeta. cbn [snd]. rewrite remove_account_eq.
    cbn [monitored_accounts with_stats with_monitored_accounts].
    unfold pydict.contains. rewrite pydict_get_set_eq. cbn zeta. cbn [snd].
    rewrite (pydict_del_set_absent regs login_id _ Hnone).
    destruct st as [tu lu er mc]. cbn in Hcount |- *. unfold set_monitored_count. cbn.
    rewrite Hcount. reflexivity. }
  rewrite Heq. repeat split; reflexivity.
Qed.

(** X9: removing a monitored account and adding it again does not bring
    its data back: the account gets new, empty monitors and moves to the
    end of the registry, behind the accounts that kept their place. *)
Theorem remove_then_add (login_id : Z) (w : World) :
  pydict.wf (monitored_accounts w.1) →
  pydict.contains login_id (monitored_accounts w.1) = true →
  let w' := (add_account login_id (remove_account login_id w).2).2 in
  pydict.keys (monitored_accounts w'.1)
    = filter (λ i, i ≠ login_id) (pydict.keys (monitored_accounts w.1)) ++ [login_id] ∧
  account_monitor_of login_id w' = Some (AccountMonitor.__init__ login_id) ∧
  position_monitor_of login_id w' = Some (PositionMonitor.__init__ login_id) ∧
  (TradeMonitor.trades <$> trade_monitor_of login_id w') = Some [].
Proof.
  destruct w as [r e]. cbn [fst snd]. intros Hwf Hpresent. cbv zeta.
  set (w' := (add_account login_id _).2).
  assert (Hnone : pydict.get login_id (pydict.del login_id (monitored_accounts r)) = None).
  { apply pydict_get_None, pydict_del_notin, Hwf. }
  assert (Heq : ∃ tm,
    TradeMonitor.trades tm = [] ∧
    monitored_accounts w'.1 =
      pydict.set login_id
        {| account := AccountMonitor.__init__ login_id;
           positions := PositionMonitor.__init__ login_id;
           trades := tm |}
        (pydict.del login_id (monitored_accounts r))).
  { subst w'. rewrite remove_account_eq, Hpresent. cbn zeta. cbn [snd].
    rewrite add_account_eq.
    cbn [monitored_accounts with_stats with_monitored_accounts].
    unfold pydict.contains. rewrite Hnone. cbn zeta.
    eexists. split; [| reflexivity]. reflexivity. }
  destruct Heq as (tm & Htm & Hregs).
  unfold account_monitor_of, position_monitor_of, trade_monitor_of.
  rewrite Hregs, pydict_get_set_eq, (pydict_keys_set_absent _ _ _ Hnone),
    (pydict_keys_del_filter _ _ Hwf).
  cbn. rewrite Htm. repeat split; reflexivity.
Qed.

(** * Further properties of the queries *)

Lemma tag_lookup_ne (login_id : Z) (pos : dict) (key : string) :
  key ≠ "login_id" → tag login_id pos !! key = pos !! key.
Proof. intros Hne. unfold tag. apply lookup_insert_ne. congruence. Qed.

Lemma has_symbol_tag (symbol : value) (login_id : Z) (pos : dict) :
  PositionMonitor.has_symbol symbol (tag login_id pos) ↔
  PositionMonitor.has_symbol symbol pos.
Proof.
  unfold PositionMonitor.has_symbol, dict_get.
  rewrite tag_lookup_ne by discriminate. reflexivity.
Qed.

Lemma tag_tag (login_id : Z) (pos : dict) :
  tag login_id (tag login_id pos) = tag login_id pos.
Proof. unfold tag. apply insert_insert_eq. Qed.

Lemma tag_matching_idem (symbol : value) (login_id : Z) (ps : list dict) :
  tag_matching symbol login_id (tag_matching symbol login_id ps)
    = tag_matching symbol login_id ps.
Proof.
  unfold tag_matching. rewrite <- list_fmap_compose.
  apply list_fmap_ext. intros _ pos _. cbn.
  destruct (decide (PositionMonitor.has_symbol symbol pos)) as [Hs | Hs].
  - rewrite decide_True by (apply has_symbol_tag; exact Hs). apply tag_tag.
  - rewrite decide_False by exact Hs. reflexivity.
Qed.

Lemma tagged_matches (symbol : value) (login_id : Z) (ps : list dict) :
  tag login_id <$> filter (PositionMonitor.has_symbol symbol)
                     (tag_matching symbol login_id ps)
  = tag login_id <$> filter (PositionMonitor.has_symbol symbol) ps.
Proof.
  unfold tag_matching. induction ps as [| pos ps IH]; [reflexivity |].
  rewrite fmap_cons.
  destruct (decide (PositionMonitor.has_symbol symbol pos)) as [Hs | Hs].
  - rewrite !filter_cons_True by (try apply has_symbol_tag; exact Hs).
    rewrite !fmap_cons, IH, tag_tag. reflexivity.
  - rewrite !filter_cons_False by exact Hs. exact IH.
Qed.

(** X10: asking again for the positions of a symbol returns the same
    list and leaves the store as the first query left it. *)
Theorem positions_query_idempotent (symbol : value) (w : World) :
  get_positions_by_symbol symbol (get_positions_by_symbol symbol w).2
    = get_positions_by_symbol symbol w.
Proof.
  rewrite !get_positions_by_symbol_eq. cbn [fst snd].
  destruct w as [[ui regs mgr run cbs st] e].
  cbn [fst snd monitored_accounts with_monitored_accounts].
  assert (Hstore : tag_stored symbol <$> (tag_stored symbol <$> regs)
                     = tag_stored symbol <$> regs).
  { rewrite <- list_fmap_compose. apply list_fmap_ext. intros _ [k [a [id ps lu] t]] _.
    unfold compose, tag_stored, PositionMonitor.set_positions.
    cbn [fst snd account positions trades PositionMonitor.positions
         PositionMonitor.login_id PositionMonitor.last_update].
    rewrite tag_matching_idem. reflexivity. }
  assert (Hresult : positions_with_symbol symbol <$> (tag_stored symbol <$> regs)
                      = positions_with_symbol symbol <$> regs).
  { rewrite <- list_fmap_compose. apply list_fmap_ext. intros _ [k [a [id ps lu] t]] _.
    unfold compose, positions_with_symbol, tag_stored, PositionMonitor.set_positions.
    cbn [fst snd account positions trades PositionMonitor.positions
         PositionMonitor.login_id PositionMonitor.last_update].
    apply tagged_matches. }
  unfold with_monitored_accounts. cbn. rewrite Hstore, Hresult. reflexivity.
Qed.

Lemma volume_loop_tagged (symbol : value) (login_id : Z) (ps : list dict)
    (acc : pydict.t value spec_float) :
  for_each (tag_matching symbol login_id ps)
    (λ pos, PositionMonitor.add_volume (dict_get_default pos "symbol" (VStr ""))
              (dict_get_default pos "volume" (VNum (float 0)))) acc
  = for_each ps
      (λ pos, PositionMonitor.add_volume (dict_get_default pos "symbol" (VStr ""))
                (dict_get_default pos "volume" (VNum (float 0)))) acc.
Proof.
  revert acc. unfold tag_matching. induction ps as [| pos ps IH]; intros acc;
    [reflexivity |].
  rewrite fmap_cons. cbn [for_each]. unfold bind.
  assert (Hsame : ∀ key dflt, key ≠ "login_id" →
    dict_get_default
      (if decide (PositionMonitor.has_symbol symbol pos) then tag login_id pos else pos)
      key dflt = dict_get_default pos key dflt).
  { intros key dflt Hne. destruct (decide _); [| reflexivity].
    unfold dict_get_default. rewrite tag_lookup_ne by exact Hne. reflexivity. }
  rewrite !Hsame by discriminate.
  destruct (PositionMonitor.add_volume _ _ acc) as [[[] |] acc1]; [apply IH | reflexivity].
Qed.

Lemma total_volume_tagged (symbol : value) (login_id : Z) (p : PositionMonitor.t) :
  PositionMonitor.get_total_volume_by_symbol
    (PositionMonitor.set_positions
       (tag_matching symbol login_id (PositionMonitor.positions p)) p)
  = PositionMonitor.get_total_volume_by_symbol p.
Proof.
  unfold PositionMonitor.get_total_volume_by_symbol, PositionMonitor.set_positions.
  cbn [PositionMonitor.positions]. rewrite volume_loop_tagged. reflexivity.
Qed.

Lemma matching_tagged (symbol sym : value) (login_id : Z) (ps : list dict) (i : nat) :
  PositionMonitor.matching_from sym i (tag_matching symbol login_id ps)
  = PositionMonitor.matching_from sym i ps.
Proof.
  revert i. unfold tag_matching. induction ps as [| pos ps IH]; intros i; [reflexivity |].
  rewrite fmap_cons. cbn [PositionMonitor.matching_from]. rewrite IH.
  destruct (decide (PositionMonitor.has_symbol symbol pos)) as [Hs | Hs]; [| reflexivity].
  destruct (decide (PositionMonitor.has_symbol sym pos)) as [Hm | Hm].
  - rewrite decide_True by (apply has_symbol_tag; exact Hm). reflexivity.
  - rewrite decide_False by (rewrite has_symbol_tag; exact Hm). reflexivity.
Qed.

Lemma for_each_ext {S A} (xs : list A) (f g : A → Py S unit) (s : S) :
  (∀ x s', f x s' = g x s') → for_each xs f s = for_each xs g s.
Proof.
  intros Hfg. revert s. induction xs as [| x xs IH]; intros s; [reflexivity |].
  cbn [for_each]. unfold bind. rewrite Hfg.
  destruct (g x s) as [[[] |] s1]; [apply IH | reflexivity].
Qed.

Lemma add_account_exposure_tagged (symbol : value) (k : Z) (ms : monitors)
    (ex : pydict.t value Exposure.entry) :
  add_account_exposure k ((tag_stored symbol (k, ms)).2, ex)
  = ((add_account_exposure k (ms, ex)).1,
     ((tag_stored symbol (k, ms)).2, (add_account_exposure k (ms, ex)).2.2)).
Proof.
  unfold add_account_exposure, tag_stored. py_unfold.
  rewrite total_volume_tagged.
  destruct (PositionMonitor.get_total_volume_by_symbol (positions ms)) as [vbs |];
    cbn; [| reflexivity].
  rewrite (for_each_ext vbs _ (add_exposure ms)).
  - destruct (for_each vbs (add_exposure ms) ex) as [r ex1]. reflexivity.
  - intros sv ex'. unfold add_exposure, modify.
    unfold PositionMonitor.get_positions_by_symbol, PositionMonitor.set_positions.
    cbn [positions PositionMonitor.positions]. rewrite matching_tagged. reflexivity.
Qed.

Lemma exposure_items_tagged (symbol : value) (items : pydict.t Z monitors)
    (ex : pydict.t value Exposure.entry) :
  let run := for_items_from add_account_exposure items ex in
  let run' := for_items_from add_account_exposure (tag_stored symbol <$> items) ex in
  run'.1 = run.1 ∧ run'.2.2 = run.2.2.
Proof.
  revert ex. induction items as [| [k ms] items IH]; intros ex; [split; reflexivity |].
  cbn zeta. rewrite fmap_cons. cbn [for_items_from].
  change (tag_stored symbol (k, ms)) with (k, (tag_stored symbol (k, ms)).2).
  cbn [for_items_from]. rewrite add_account_exposure_tagged.
  destruct (add_account_exposure k (ms, ex)) as [[[] |] [ms1 ex1]]; cbn [fst snd].
  - specialize (IH ex1). cbn zeta in IH. destruct IH as [IH1 IH2].
    destruct (for_items_from add_account_exposure items ex1) as [r [items1 ex2]].
    destruct (for_items_from add_account_exposure (tag_stored symbol <$> items) ex1)
      as [r' [items1' ex2']].
    cbn in IH1, IH2 |- *. subst. split; reflexivity.
  - split; reflexivity.
Qed.

(** X11: the tags that the positions query writes into the store do not
    change what the exposure query answers. *)
Theorem exposure_after_positions_query (symbol : value) (w : World) :
  (get_total_exposure_by_symbol (get_positions_by_symbol symbol w).2).1
    = (get_total_exposure_by_symbol w).1.
Proof.
  rewrite get_positions_by_symbol_eq. cbn [snd].
  unfold get_total_exposure_by_symbol, for_items, zoom. unfold bind at 1 2.
  cbn [fst snd monitored_accounts with_monitored_accounts].
  pose proof (exposure_items_tagged symbol (monitored_accounts w.1) []) as [H1 H2].
  destruct (for_items_from add_account_exposure (monitored_accounts w.1) [])
    as [r [items1 ex1]].
  destruct (for_items_from add_account_exposure
              (tag_stored symbol <$> monitored_accounts w.1) [])
    as [r' [items1' ex1']].
  cbn in H1, H2. subst r' ex1'. destruct r as [[] |]; reflexivity.
Qed.

Lemma add_volume_raises (symbol volume : value)
    (acc : pydict.t value spec_float) :
  (∀ q, volume ≠ VNum q) → (PositionMonitor.add_volume symbol volume acc).1 = Raised.
Proof.
  intros Hnot. destruct volume as [| q | s | t]; try reflexivity.
  exfalso. apply (Hnot q). reflexivity.
Qed.

Lemma total_volume_raises (p : PositionMonitor.t) :
  Exists (λ pos, numeric_volume pos ≠ true) (PositionMonitor.positions p) →
  PositionMonitor.get_total_volume_by_symbol p = Raised.
Proof.
  unfold PositionMonitor.get_total_volume_by_symbol.
  generalize (@nil (value * spec_float)). intros acc Hex.
  assert (Hloop : (for_each (PositionMonitor.positions p)
            (λ pos, PositionMonitor.add_volume (dict_get_default pos "symbol" (VStr ""))
                      (dict_get_default pos "volume" (VNum (float 0)))) acc).1 = Raised).
  { revert acc. induction Hex as [pos ps Hbad | pos ps _ IH]; intros acc.
    - cbn [for_each]. unfold bind.
      pose proof (add_volume_raises (dict_get_default pos "symbol" (VStr ""))
                    (dict_get_default pos "volume" (VNum (float 0))) acc) as Hr.
      destruct (PositionMonitor.add_volume _ _ acc) as [[[] |] acc1]; [| reflexivity].
      exfalso. cbn in Hr.
      assert (Hnot : ∀ q, dict_get_default pos "volume" (VNum (float 0)) ≠ VNum q).
      { intros q Hq. apply Hbad. unfold numeric_volume. rewrite Hq. reflexivity. }
      specialize (Hr Hnot). discriminate Hr.
    - cbn [for_each]. unfold bind.
      destruct (PositionMonitor.add_volume _ _ acc) as [[[] |] acc1];
        [apply IH | reflexivity]. }
  revert Hloop.
  match goal with
  | |- context [for_each ?xs ?body ?a] => generalize (for_each xs body a)
  end.
  intros [[[] |] acc'] Hloop; [discriminate Hloop | reflexivity].
Qed.

Lemma exposure_items_raise (items : pydict.t Z monitors)
    (ex : pydict.t value Exposure.entry) :
  Exists (λ pos, numeric_volume pos ≠ true)
    (concat ((λ kv : Z * monitors, PositionMonitor.positions (positions kv.2))
               <$> items)) →
  (for_items_from add_account_exposure items ex).1 = Raised.
Proof.
  revert ex. induction items as [| [k ms] items IH]; intros ex Hex.
  - inversion Hex.
  - rewrite fmap_cons in Hex. cbn [concat snd] in Hex.
    apply list.Exists_app in Hex.
    destruct (decide (Forall (λ pos, numeric_volume pos = true)
                        (PositionMonitor.positions (positions ms)))) as [Hnum | Hbad].
    + destruct Hex as [Hex | Hex].
      { exfalso. apply list.Exists_exists in Hex as (pos & Hin & Hne).
        apply Hne. apply (proj1 (list.Forall_forall _ _) Hnum pos Hin). }
      destruct (get_total_volume_by_symbol_spec (positions ms) Hnum)
        as (vbs & Hvbs & Hwf & _).
      destruct (add_exposure_loop_spec ms vbs ex Hwf) as (ex1 & Heq1 & _).
      cbn [for_items_from].
      assert (add_account_exposure k (ms, ex) = (Returned tt, (ms, ex1))) as ->.
      { unfold add_account_exposure. py_unfold. rewrite Hvbs. cbn.
        rewrite Heq1. reflexivity. }
      specialize (IH ex1 Hex).
      destruct (for_items_from add_account_exposure items ex1) as [r [items' ex']].
      exact IH.
    + apply not_Forall_Exists in Hbad; [| apply _].
      cbn [for_items_from].
      assert (Hbody : (add_account_exposure k (ms, ex)).1 = Raised).
      { unfold add_account_exposure. py_unfold.
        rewrite (total_volume_raises (positions ms) Hbad). reflexivity. }
      destruct (add_account_exposure k (ms, ex)) as [[[] |] [ms1 ex1]];
        [discriminate Hbody | reflexivity].
Qed.

(** X12: the exposure query returns exactly when every stored volume is
    a number; one stored volume that is not a number makes it raise.  In
    both cases it leaves the world as it found it. *)
Theorem exposure_returns_iff_numeric (w : World) :
  ((∃ exposure, (get_total_exposure_by_symbol w).1 = Returned exposure) ↔
   Forall (λ pos, numeric_volume pos = true) (fleet_positions w)) ∧
  (get_total_exposure_by_symbol w).2 = w.
Proof.
  split; [| apply get_total_exposure_by_symbol_pure].
  split.
  - intros (exposure & Hret).
    destruct (decide (Forall (λ pos, numeric_volume pos = true) (fleet_positions w)))
      as [Hnum | Hbad]; [exact Hnum | exfalso].
    apply not_Forall_Exists in Hbad; [| apply _].
    pose proof (exposure_items_raise (monitored_accounts w.1) [] Hbad) as Hraise.
    unfold get_total_exposure_by_symbol, for_items, zoom in Hret.
    unfold bind at 1 in Hret. cbn [fst snd] in Hret.
    destruct (for_items_from add_account_exposure (monitored_accounts w.1) [])
      as [r [items' ex']].
    cbn in Hraise. subst r. discriminate Hret.
  - intros Hnum.
    destruct (get_total_exposure_by_symbol_eq w Hnum) as (exposure & Heq & _).
    exists exposure. rewrite Heq. reflexivity.
Qed.

Lemma matching_length (symbol : value) (i : nat) (ps : list dict) :
  length (PositionMonitor.matching_from symbol i ps)
    = length (filter (PositionMonitor.has_symbol symbol) ps).
Proof.
  revert i. induction ps as [| pos ps IH]; intros i; [reflexivity |].
  cbn [PositionMonitor.matching_from].
  destruct (decide (PositionMonitor.has_symbol symbol pos)) as [Hs | Hs].
  - rewrite filter_cons_True by exact Hs. cbn. rewrite IH. reflexivity.
  - rewrite filter_cons_False by exact Hs. apply IH.
Qed.

(** The entries after the three [+=] for the symbols of one account. *)
Lemma add_exposure_loop_entry (k : Z) (ms : monitors)
    (vbs : pydict.t value spec_float)
    (ex : pydict.t value Exposure.entry) (symbol : value) :
  pydict.wf vbs →
  entry_at symbol (for_each vbs (add_exposure ms) ex).2 =
    match pydict.get symbol vbs with
    | Some v => Exposure.bump v (matches_count symbol (k, ms)) (entry_at symbol ex)
    | None => entry_at symbol ex
    end.
Proof.
  revert ex. induction vbs as [| [s v] vbs IH]; intros ex Hwf; [reflexivity |].
  apply list.NoDup_cons in Hwf as [Hnotin Hwf].
  cbn [for_each]. unfold bind at 1, add_exposure at 1, modify at 1. cbn [fst snd].
  rewrite IH by exact Hwf. cbn [pydict.get].
  destruct (decide (s = symbol)) as [-> | Hs].
  - assert (pydict.get symbol vbs = None) as -> by (apply pydict_get_None, Hnotin).
    unfold entry_at. rewrite pydict_get_set_eq. cbn [default from_option id].
    unfold matches_count, PositionMonitor.get_positions_by_symbol.
    rewrite matching_length. reflexivity.
  - unfold entry_at. rewrite pydict_get_set_ne by exact Hs. reflexivity.
Qed.

Lemma exposure_items_counts (items : pydict.t Z monitors)
    (ex : pydict.t value Exposure.entry) (symbol : value) :
  Forall (λ pos, numeric_volume pos = true)
    (concat ((λ kv : Z * monitors, PositionMonitor.positions (positions kv.2))
               <$> items)) →
  let ex' := (for_items_from add_account_exposure items ex).2.2 in
  Exposure.accounts (entry_at symbol ex') =
    Exposure.accounts (entry_at symbol ex) + Z.of_nat (length (holders symbol items)) ∧
  Exposure.positions (entry_at symbol ex') =
    Exposure.positions (entry_at symbol ex)
    + sum_Z (matches_count symbol <$> holders symbol items).
Proof.
  revert ex. induction items as [| [k ms] items IH]; intros ex Hnum.
  - cbv zeta. cbn [for_items_from snd]. unfold holders.
    rewrite list.filter_nil.
    cbn [fmap list_fmap length sum_Z foldr]. split; lia.
  - rewrite fmap_cons in Hnum. cbn [concat snd] in Hnum.
    apply Forall_app in Hnum as [Hnum1 Hnum2].
    destruct (get_total_volume_by_symbol_spec (positions ms) Hnum1)
      as (vbs & Hvbs & Hwf & Hget).
    pose proof (add_exposure_loop_entry k ms vbs ex symbol Hwf) as Hentry.
    cbn zeta. cbn [for_items_from].
    assert (Hbody : add_account_exposure k (ms, ex)
                    = ((for_each vbs (add_exposure ms) ex).1,
                       (ms, (for_each vbs (add_exposure ms) ex).2))).
    { unfold add_account_exposure. py_unfold. rewrite Hvbs. cbn.
      destruct (for_each vbs (add_exposure ms) ex). reflexivity. }
    destruct (add_exposure_loop_spec ms vbs ex Hwf) as (ex1 & Heq1 & _).
    rewrite Heq1 in Hbody, Hentry. cbn [fst snd] in Hbody, Hentry. rewrite Hbody.
    specialize (IH ex1 Hnum2). cbn zeta in IH.
    destruct (for_items_from add_account_exposure items ex1) as [r [items' ex']].
    cbn [fst snd] in IH |- *. destruct IH as [IHa IHp]. rewrite IHa, IHp, Hentry.
    destruct (Hget symbol) as [_ Hnone]. unfold holders.
    destruct (pydict.get symbol vbs) as [v |] eqn:Hv.
    + assert (Hholds : holds symbol (k, ms)).
      { unfold holds. cbn [snd]. intros Hempty. apply Hnone in Hempty. discriminate. }
      rewrite filter_cons_True by exact Hholds. rewrite fmap_cons.
      cbn [length sum_Z foldr Exposure.bump Exposure.accounts Exposure.positions].
      fold (sum_Z (matches_count symbol <$> filter (holds symbol) items)).
      split; lia.
    + assert (Hholds : ¬ holds symbol (k, ms)).
      { unfold holds. cbn [snd]. intros Hne. apply Hne, Hnone. reflexivity. }
      rewrite filter_cons_False by exact Hholds. split; reflexivity.
Qed.

Lemma proper_symbol (symbol : value) (ps : list dict) :
  symbol ≠ VNone → symbol ≠ VStr "" →
  with_symbol symbol ps = filter (PositionMonitor.has_symbol symbol) ps.
Proof.
  intros Hnone Hempty. unfold with_symbol. apply list_filter_iff. intros pos.
  unfold symbol_of, PositionMonitor.has_symbol, dict_get, dict_get_default.
  destruct (pos !! "symbol") as [v |]; cbn; [reflexivity |].
  split; intros Heq; exfalso; [apply Hempty | apply Hnone]; congruence.
Qed.

Lemma holders_positions (symbol : value) (items : pydict.t Z monitors) :
  symbol ≠ VNone → symbol ≠ VStr "" →
  sum_Z (matches_count symbol <$> holders symbol items) =
    Z.of_nat (length (with_symbol symbol
      (concat ((λ kv : Z * monitors, PositionMonitor.positions (positions kv.2))
                 <$> items)))).
Proof.
  intros Hnone Hempty. unfold holders.
  induction items as [| [k ms] items IH]; [reflexivity |].
  rewrite fmap_cons. cbn [concat snd]. rewrite with_symbol_app, length_app, Nat2Z.inj_add.
  rewrite <- IH.
  destruct (decide (holds symbol (k, ms))) as [Hh | Hh].
  - rewrite filter_cons_True by exact Hh. rewrite fmap_cons. cbn [sum_Z foldr].
    unfold matches_count at 1. cbn [snd].
    rewrite (proper_symbol symbol _ Hnone Hempty). reflexivity.
  - rewrite filter_cons_False by exact Hh.
    unfold holds in Hh. cbn [snd] in Hh.
    destruct (with_symbol symbol (PositionMonitor.positions (positions ms)));
      [reflexivity | exfalso; apply Hh; discriminate].
Qed.

(** X13: when the stored volumes are numbers, the entry of a symbol in
    the exposure counts in [accounts] the accounts that hold a position
    with the symbol and in [positions] the positions of those accounts
    whose ['symbol'] field equals the symbol; for a symbol that is neither
    [None] nor the empty string, that is the number of all stored
    positions with the symbol. *)
Theorem exposure_counts (w : World) (symbol : value) :
  Forall (λ pos, numeric_volume pos = true) (fleet_positions w) →
  ∃ exposure,
    (get_total_exposure_by_symbol w).1 = Returned exposure ∧
    ∀ entry, pydict.get symbol exposure = Some entry →
      Exposure.accounts entry
        = Z.of_nat (length (holders symbol (monitored_accounts w.1))) ∧
      Exposure.positions entry
        = sum_Z (matches_count symbol <$> holders symbol (monitored_accounts w.1)) ∧
      (symbol ≠ VNone → symbol ≠ VStr "" →
       Exposure.positions entry
         = Z.of_nat (length (with_symbol symbol (fleet_positions w)))).
Proof.
  intros Hnum.
  destruct (get_total_exposure_by_symbol_eq w Hnum) as (exposure & Heq & _).
  exists exposure. split; [rewrite Heq; reflexivity |].
  intros entry Hentry.
  pose proof (exposure_items_counts (monitored_accounts w.1) [] symbol Hnum) as Hcounts.
  cbn zeta in Hcounts.
  assert (Hex : (for_items_from add_account_exposure (monitored_accounts w.1) []).2.2
                = exposure).
  { unfold get_total_exposure_by_symbol, for_items, zoom in Heq.
    unfold bind at 1 in Heq. cbn [fst snd] in Heq.
    destruct (for_items_from add_account_exposure (monitored_accounts w.1) [])
      as [[[] |] [items' ex']]; cbn in Heq |- *; [| discriminate Heq].
    injection Heq as Heq _. exact Heq. }
  rewrite Hex in Hcounts. unfold entry_at in Hcounts. rewrite Hentry in Hcounts.
  cbn in Hcounts. destruct Hcounts as [Ha Hp].
  split; [exact Ha |]. split; [exact Hp |].
  intros Hnone Hempty. rewrite Hp. apply holders_positions; assumption.
Qed.

Lemma holders_matches (symbol : value) (items : list (Z * monitors)) :
  symbol ≠ VNone →
  sum_Z (matches_count symbol <$> holders symbol items) =
    Z.of_nat (length (filter (PositionMonitor.has_symbol symbol)
      (concat ((λ kv : Z * monitors, PositionMonitor.positions (positions kv.2))
                 <$> items)))).
Proof.
  intros Hnone. unfold holders.
  induction items as [| [k ms] items IH]; [reflexivity |].
  rewrite fmap_cons. cbn [concat snd]. rewrite list.filter_app, length_app, Nat2Z.inj_add.
  rewrite <- IH.
  destruct (decide (holds symbol (k, ms))) as [Hh | Hh].
  - rewrite filter_cons_True by exact Hh. rewrite fmap_cons. reflexivity.
  - rewrite filter_cons_False by exact Hh.
    unfold holds in Hh. cbn [snd] in Hh.
    assert (Hempty : filter (PositionMonitor.has_symbol symbol)
                       (PositionMonitor.positions (positions ms)) = []).
    { destruct (filter (PositionMonitor.has_symbol symbol)
                  (PositionMonitor.positions (positions ms))) as [| pos l] eqn:Hf;
        [reflexivity | exfalso].
      assert (Hin : pos ∈ filter (PositionMonitor.has_symbol symbol)
                      (PositionMonitor.positions (positions ms)))
        by (rewrite Hf; apply elem_of_cons; left; reflexivity).
      apply list_elem_of_filter in Hin as [Hs Hin].
      apply Hh. intros Hnil.
      assert (Hw : pos ∈ with_symbol symbol (PositionMonitor.positions (positions ms))).
      { unfold with_symbol. apply list_elem_of_filter. split; [| exact Hin].
        unfold PositionMonitor.has_symbol, dict_get in Hs.
        unfold symbol_of, dict_get_default.
        destruct (pos !! "symbol"); cbn in Hs |- *; [exact Hs | congruence]. }
      rewrite Hnil in Hw. apply elem_of_nil in Hw. exact Hw. }
    rewrite Hempty. reflexivity.
Qed.

Lemma unnamed_positions (ps : list dict) :
  with_symbol (VStr "") ps = filter unnamed ps.
Proof.
  unfold with_symbol. apply list_filter_iff. intros pos.
  unfold unnamed, symbol_of, dict_get_default.
  destruct (pos !! "symbol") as [v |]; cbn.
  - split; [intros ->; right; reflexivity | intros [H | H]; congruence].
  - split; [intros _; left; reflexivity | reflexivity].
Qed.

Lemma gross_volume_unnamed (items : list (Z * monitors)) :
  gross_volume (VStr "") items =
    fsum ((λ kv : Z * monitors,
             fsum (volume_of <$> filter unnamed
                                   (PositionMonitor.positions (positions kv.2))))
            <$> filter (λ kv : Z * monitors,
                          filter unnamed (PositionMonitor.positions (positions kv.2))
                            ≠ []) items).
Proof.
  unfold gross_volume, holders.
  rewrite (list_filter_iff (holds (VStr ""))
             (λ kv : Z * monitors,
                filter unnamed (PositionMonitor.positions (positions kv.2)) ≠ [])).
  - f_equal. apply list_fmap_ext. intros i kv _.
    unfold account_volume. rewrite unnamed_positions. reflexivity.
  - intros kv. unfold holds. rewrite unnamed_positions. reflexivity.
Qed.

(** X14: positions without a ['symbol'] key are booked under the empty
    symbol for the volume only: the [volume] of the entry of the empty
    symbol is the float sum, account after account, of the volumes of the
    positions whose symbol is missing or empty, and its [positions] counts
    only those whose symbol is the empty string. *)
Theorem exposure_of_unnamed_positions (w : World) :
  Forall (λ pos, numeric_volume pos = true) (fleet_positions w) →
  ∃ exposure,
    (get_total_exposure_by_symbol w).1 = Returned exposure ∧
    ∀ entry, pydict.get (VStr "") exposure = Some entry →
      Exposure.volume entry =
        fsum ((λ kv : Z * monitors,
                 fsum (volume_of <$> filter unnamed
                                       (PositionMonitor.positions (positions kv.2))))
                <$> filter (λ kv : Z * monitors,
                              filter unnamed (PositionMonitor.positions (positions kv.2))
                                ≠ []) (monitored_accounts w.1)) ∧
      Exposure.positions entry =
        Z.of_nat (length
          (filter (λ pos : dict, pos !! "symbol" = Some (VStr "")) (fleet_positions w))).
Proof.
  intros Hnum.
  destruct (get_total_exposure_by_symbol_eq w Hnum) as (exposure & Heq & Hvol).
  exists exposure. split; [rewrite Heq; reflexivity |].
  intros entry Hentry. split.
  - destruct (Hvol (VStr "")) as [Hv _]. unfold exposure_at in Hv.
    rewrite Hentry in Hv. cbn [default from_option id] in Hv. rewrite Hv.
    apply gross_volume_unnamed.
  - pose proof (exposure_items_counts (monitored_accounts w.1) [] (VStr "") Hnum)
      as Hcounts.
    cbn zeta in Hcounts.
    assert (Hex : (for_items_from add_account_exposure (monitored_accounts w.1) []).2.2
                  = exposure).
    { unfold get_total_exposure_by_symbol, for_items, zoom in Heq.
      unfold bind at 1 in Heq. cbn [fst snd] in Heq.
      destruct (for_items_from add_account_exposure (monitored_accounts w.1) [])
        as [[[] |] [items' ex']]; cbn in Heq |- *; [| discriminate Heq].
      injection Heq as Heq _. exact Heq. }
    rewrite Hex in Hcounts. unfold entry_at in Hcounts. rewrite Hentry in Hcounts.
    cbn in Hcounts. destruct Hcounts as [_ Hp].
    rewrite Hp, holders_matches by discriminate. unfold fleet_positions.
    rewrite Z.add_0_l. f_equal. f_equal. apply list_filter_iff. intros pos.
    unfold PositionMonitor.has_symbol, dict_get.
    destruct (pos !! "symbol") as [v |]; cbn; split; congruence.
Qed.

(** ** The alerts of [utils] *)

(** X15: on an account whose margin level and profit are numbers (or are
    missing, which reads as 0), the health status is the margin alert when
    there is one, and otherwise ['warning'] or ['healthy'] by the loss
    alert: the status and the two alert checks never disagree. *)
Lemma health_status_agrees_with_alerts (cfg : RMSConfig.t) (account : dict)
    (margin_level profit : Qc) :
  reading account "margin_level" = VNum margin_level →
  reading account "profit" = VNum profit →
  get_account_health_status cfg account =
    Returned (match check_margin_alert cfg margin_level with
              | Some level => level
              | None => if check_loss_alert cfg profit then "warning" else "healthy"
              end).
Proof.
  unfold reading, get_account_health_status, check_margin_alert, check_loss_alert.
  intros -> ->. cbn [py_le].
  destruct (decide (margin_level ≤ RMSConfig.MARGIN_LEVEL_CRITICAL cfg)%Qc) as [Hc | Hc].
  - rewrite bool_decide_eq_true_2 by exact Hc. reflexivity.
  - rewrite bool_decide_eq_false_2 by exact Hc.
    destruct (decide (margin_level ≤ RMSConfig.MARGIN_LEVEL_WARNING cfg)%Qc) as [Hw | Hw].
    + rewrite bool_decide_eq_true_2 by exact Hw. reflexivity.
    + rewrite bool_decide_eq_false_2 by exact Hw.
      destruct (bool_decide (profit ≤ RMSConfig.MAX_LOSS_THRESHOLD cfg)%Qc); reflexivity.
Qed.

(** X16: the health status raises exactly when the margin level is not a
    number, or when the margin level is a number above both thresholds and
    the profit is not a number: a profit that cannot be compared goes
    unnoticed as long as the margin level is alarming. *)
Lemma health_status_raises_iff (cfg : RMSConfig.t) (account : dict) :
  get_account_health_status cfg account = Raised ↔
  is_number (reading account "margin_level") = false ∨
  (∃ margin_level,
     reading account "margin_level" = VNum margin_level ∧
     check_margin_alert cfg margin_level = None ∧
     is_number (reading account "profit") = false).
Proof.
  unfold reading, get_account_health_status, check_margin_alert.
  destruct (dict_get_default account "margin_level" (VNum (float 0)))
    as [| margin_level | |] eqn:Hm; cbn [py_le is_number];
    try (split; [intros _; left; reflexivity | reflexivity]).
  destruct (decide (margin_level ≤ RMSConfig.MARGIN_LEVEL_CRITICAL cfg)%Qc) as [Hc | Hc].
  { rewrite bool_decide_eq_true_2 by exact Hc.
    split; [discriminate |].
    intros [? | (q & Hq & Hnone & _)]; [discriminate |].
    injection Hq as <-. rewrite decide_True in Hnone by exact Hc. discriminate Hnone. }
  rewrite bool_decide_eq_false_2 by exact Hc.
  destruct (decide (margin_level ≤ RMSConfig.MARGIN_LEVEL_WARNING cfg)%Qc) as [Hw | Hw].
  { rewrite bool_decide_eq_true_2 by exact Hw.
    split; [discriminate |].
    intros [? | (q & Hq & Hnone & _)]; [discriminate |].
    injection Hq as <-. rewrite decide_False in Hnone by exact Hc.
    rewrite decide_True in Hnone by exact Hw. discriminate Hnone. }
  rewrite bool_decide_eq_false_2 by exact Hw.
  destruct (dict_get_default account "profit" (VNum (float 0)))
    as [| profit | |] eqn:Hp; cbn [py_le is_number];
    try (split; [intros _; right; exists margin_level;
                 rewrite !decide_False by assumption; done | reflexivity]).
  split.
  - destruct (bool_decide (profit ≤ RMSConfig.MAX_LOSS_THRESHOLD cfg)%Qc); discriminate.
  - intros [? | (q & _ & _ & ?)]; discriminate.
Qed.

(** X17: an account with no margin in use has margin level 0, so whatever
    its equity it is flagged ['critical'] as soon as the critical
    threshold is not negative. *)
Lemma zero_margin_is_critical (cfg : RMSConfig.t) (equity margin : spec_float) :
  (float 0 ≤ RMSConfig.MARGIN_LEVEL_CRITICAL cfg)%Qc →
  feqb margin fzero = true →
  ∃ level,
    exact_value (calculate_margin_level equity margin) = Some level ∧
    check_margin_alert cfg level = Some "critical".
Proof.
  intros Hc Hzero. unfold calculate_margin_level. rewrite Hzero.
  exists (float 0). split; [reflexivity |].
  unfold check_margin_alert.
  destruct (decide (float 0 ≤ RMSConfig.MARGIN_LEVEL_CRITICAL cfg)%Qc); [reflexivity | contradiction].
Qed.

(** ** Grouping positions *)

Lemma pydict_set_set {K V} `{EqDecision K} (d : pydict.t K V) k (v0 v : V) :
  pydict.set k v (pydict.set k v0 d) = pydict.set k v d.
Proof.
  induction d as [| [k' v'] d IH]; cbn.
  - rewrite decide_True by done. reflexivity.
  - destruct (decide (k' = k)) as [-> | Hne]; cbn.
    + rewrite decide_True by done. reflexivity.
    + rewrite decide_False by done. rewrite IH. reflexivity.
Qed.

Lemma pydict_values_set_present {K V} `{EqDecision K}
    (d : pydict.t K (list V)) k (l : list V) (x : V) :
  pydict.get k d = Some l →
  concat (pydict.set k (l ++ [x]) d).*2 ≡ₚ x :: concat d.*2.
Proof.
  induction d as [| [k' v'] d IH]; cbn; [discriminate |].
  destruct (decide (k' = k)) as [-> | Hne]; cbn.
  - intros [= ->]. rewrite <- (assoc_L (++)). cbn.
    symmetry. apply Permutation_middle.
  - intros Hg. rewrite (IH Hg). symmetry. apply Permutation_middle.
Qed.

Lemma pydict_values_set_absent {K V} `{EqDecision K}
    (d : pydict.t K (list V)) k (l : list V) :
  pydict.get k d = None →
  concat (pydict.set k l d).*2 = concat d.*2 ++ l.
Proof.
  induction d as [| [k' v'] d IH]; cbn.
  - intros _. apply app_nil_r.
  - destruct (decide (k' = k)); [discriminate |].
    intros Hg. cbn. rewrite (IH Hg). apply (assoc_L (++)).
Qed.

Lemma group_position_eq (position : dict) (grouped : pydict.t value (list dict)) :
  group_position position grouped =
    (Returned tt,
     pydict.set (group_key position)
       (default [] (pydict.get (group_key position) grouped) ++ [position]) grouped).
Proof.
  unfold group_position, bind, modify, pydict.contains. fold (group_key position).
  destruct (pydict.get (group_key position) grouped) as [l |] eqn:Hg; cbn [negb].
  - rewrite Hg. reflexivity.
  - rewrite pydict_get_set_eq, pydict_set_set. reflexivity.
Qed.

Lemma group_loop_spec (positions : list dict) (grouped : pydict.t value (list dict)) :
  pydict.wf grouped →
  (for_each positions group_position grouped).1 = Returned tt ∧
  pydict.wf (for_each positions group_position grouped).2 ∧
  concat (for_each positions group_position grouped).2.*2
    ≡ₚ concat grouped.*2 ++ positions ∧
  ∀ key,
    pydict.get key (for_each positions group_position grouped).2 =
      match pydict.get key grouped with
      | Some l => Some (l ++ group_of key positions)
      | None => match group_of key positions with
                | [] => None
                | l => Some l
                end
      end.
Proof.
  revert grouped. induction positions as [| position rest IH]; intros grouped Hwf.
  - cbn. refine (conj eq_refl (conj Hwf (conj _ _))).
    + rewrite app_nil_r. reflexivity.
    + intros key. destruct (pydict.get key grouped); [rewrite app_nil_r |]; reflexivity.
  - cbn [for_each]. unfold bind. rewrite group_position_eq.
    set (key0 := group_key position).
    set (grouped1 := pydict.set key0 _ grouped).
    assert (Hwf1 : pydict.wf grouped1) by (apply pydict_wf_set, Hwf).
    destruct (IH grouped1 Hwf1) as (Hret & Hwf' & Hperm & Hget).
    refine (conj Hret (conj Hwf' (conj _ _))).
    + rewrite Hperm. subst grouped1.
      destruct (pydict.get key0 grouped) as [l |] eqn:Hg; cbn [default from_option id].
      * rewrite (pydict_values_set_present _ _ _ _ Hg).
        cbn. apply Permutation_middle.
      * rewrite (pydict_values_set_absent _ _ _ Hg).
        rewrite <- (assoc_L (++)). reflexivity.
    + intros key. rewrite Hget. subst grouped1. unfold group_of.
      destruct (decide (key0 = key)) as [<- | Hne].
      * rewrite pydict_get_set_eq.
        rewrite filter_cons_True by reflexivity.
        destruct (pydict.get key0 grouped) as [l |]; cbn [default from_option id].
        -- rewrite <- (assoc_L (++)). reflexivity.
        -- reflexivity.
      * rewrite pydict_get_set_ne by exact Hne.
        rewrite filter_cons_False by exact Hne. reflexivity.
Qed.

(** X19: [group_positions_by_symbol] partitions its input.  No key is
    listed twice; the entry of a key is the list of the positions filed
    under it, in their order in the input, and a key under which nothing is
    filed has no entry; the groups together hold every position exactly
    once.  A position without a ['symbol'] key is filed under ['UNKNOWN'],
    together with the positions whose symbol is the string ['UNKNOWN']. *)
Lemma group_positions_by_symbol_partitions (positions : list dict) :
  pydict.wf (group_positions_by_symbol positions) ∧
  (∀ key,
     pydict.get key (group_positions_by_symbol positions) =
       match group_of key positions with
       | [] => None
       | group => Some group
       end) ∧
  concat (group_positions_by_symbol positions).*2 ≡ₚ positions ∧
  (∀ position,
     position ∈ positions → position !! "symbol" = None →
     ∃ group,
       pydict.get (VStr "UNKNOWN") (group_positions_by_symbol positions) = Some group ∧
       position ∈ group).
Proof.
  unfold group_positions_by_symbol.
  destruct (group_loop_spec positions []) as (_ & Hwf & Hperm & Hget).
  { apply NoDup_nil_2. }
  refine (conj Hwf (conj _ (conj Hperm _))).
  - intros key. rewrite Hget. reflexivity.
  - intros position Hin Hmissing.
    assert (Hmem : position ∈ group_of (VStr "UNKNOWN") positions).
    { apply list_elem_of_filter. split; [| exact Hin].
      unfold group_key, dict_get_default. rewrite Hmissing. reflexivity. }
    rewrite Hget. cbn [pydict.get].
    destruct (group_of (VStr "UNKNOWN") positions) as [| p l] eqn:Hgroup.
    + apply elem_of_nil in Hmem. contradiction.
    + eexists. split; [reflexivity | exact Hmem].
Qed.

(** ** Symbols in normal form *)

Lemma upper_char_space (c : ascii) : is_space (upper_char c) = is_space c.
Proof. destruct c as [[] [] [] [] [] [] [] []]; vm_compute; reflexivity. Qed.

Lemma upper_char_idem (c : ascii) : upper_char (upper_char c) = upper_char c.
Proof. destruct c as [[] [] [] [] [] [] [] []]; vm_compute; reflexivity. Qed.

Lemma lstrip_upper (cs : list ascii) :
  lstrip (upper_char <$> cs) = upper_char <$> lstrip cs.
Proof.
  induction cs as [| c cs IH]; [reflexivity |].
  rewrite fmap_cons. cbn [lstrip]. rewrite upper_char_space.
  destruct (is_space c); [exact IH | rewrite fmap_cons; reflexivity].
Qed.

Lemma lstrip_decompose (cs : list ascii) :
  ∃ blanks, cs = blanks ++ lstrip cs.
Proof.
  induction cs as [| c cs [blanks IH]]; [exists []; reflexivity |].
  cbn [lstrip]. destruct (is_space c).
  - exists (c :: blanks). cbn. f_equal. exact IH.
  - exists []. reflexivity.
Qed.

Lemma lstrip_head (cs : list ascii) :
  match lstrip cs with
  | [] => True
  | c :: _ => is_space c = false
  end.
Proof.
  induction cs as [| c cs IH]; [exact I |].
  cbn [lstrip]. destruct (is_space c) eqn:Hc; [exact IH | exact Hc].
Qed.

Lemma lstrip_idem (cs : list ascii) : lstrip (lstrip cs) = lstrip cs.
Proof.
  pose proof (lstrip_head cs) as Hhead.
  destruct (lstrip cs) as [| c rest]; [reflexivity |].
  cbn [lstrip]. rewrite Hhead. reflexivity.
Qed.

Lemma strip_chars_idem (cs : list ascii) :
  reverse (lstrip (reverse (lstrip
    (reverse (lstrip (reverse (lstrip cs))))))) =
  reverse (lstrip (reverse (lstrip cs))).
Proof.
  set (inner := lstrip cs).
  set (trimmed := reverse (lstrip (reverse inner))).
  assert (Hfix : lstrip trimmed = trimmed).
  { destruct (lstrip_decompose (reverse inner)) as [blanks Hblanks].
    assert (Hinner : inner = trimmed ++ reverse blanks).
    { subst trimmed. rewrite <- reverse_app, <- Hblanks, reverse_involutive.
      reflexivity. }
    pose proof (lstrip_head cs) as Hhead. fold inner in Hhead.
    destruct trimmed as [| c rest]; [reflexivity |].
    rewrite Hinner in Hhead. cbn in Hhead. cbn [lstrip]. rewrite Hhead.
    reflexivity. }
  rewrite Hfix. subst trimmed.
  rewrite reverse_involutive, lstrip_idem. reflexivity.
Qed.

Lemma strip_upper (s : string) : strip (upper (strip s)) = upper (strip s).
Proof.
  unfold upper, strip.
  rewrite !list_ascii_of_string_of_list_ascii.
  f_equal.
  rewrite lstrip_upper, <- fmap_reverse, lstrip_upper, <- fmap_reverse.
  rewrite strip_chars_idem. reflexivity.
Qed.

Lemma upper_idem (s : string) : upper (upper s) = upper s.
Proof.
  unfold upper. rewrite list_ascii_of_string_of_list_ascii. f_equal.
  rewrite <- list_fmap_compose. apply list_fmap_ext.
  intros i c _. apply upper_char_idem.
Qed.

(** X20: [sanitize_symbol] is idempotent: what it returns is in normal
    form, and sanitising it again gives it back. *)
Lemma sanitize_symbol_idempotent (symbol : string) :
  sanitize_symbol (sanitize_symbol symbol) = sanitize_symbol symbol.
Proof.
  unfold sanitize_symbol at 2 3.
  destruct (bool_decide (symbol ≠ "")); [| reflexivity].
  unfold sanitize_symbol.
  destruct (bool_decide (upper (strip symbol) ≠ "")) eqn:Hnonempty.
  - rewrite strip_upper. apply upper_idem.
  - apply bool_decide_eq_false in Hnonempty.
    destruct (decide (upper (strip symbol) = "")) as [-> | Hne]; [reflexivity |].
    contradiction.
Qed.

(** ** The views of the trade history *)

Lemma dated_Time (today : Z) (trades : list dict) :
  dated "Time" today trades = Returned [].
Proof. induction trades as [| t trades IH]; [reflexivity | exact IH]. Qed.

Lemma TradeMonitor_get_daily_stats_eq (t : TradeMonitor.t) (e : Env) :
  TradeMonitor_get_daily_stats t e =
    (Returned (no_trades_on (date_of (clock e))), after_now e).
Proof.
  unfold TradeMonitor_get_daily_stats, bind, datetime_now, ret.
  rewrite dated_Time. reflexivity.
Qed.

Lemma TradeMonitor_to_dict_eq (t : TradeMonitor.t) (e : Env) :
  TradeMonitor_to_dict t e =
    (Returned {| td_login_id := TradeMonitor.login_id t;
                 td_trade_count := Z.of_nat (length (TradeMonitor.trades t));
                 td_trades := take 100 (TradeMonitor.trades t);
                 td_daily_stats := no_trades_on (date_of (clock e));
                 td_last_update := isoformat (TradeMonitor.last_update t) |},
     after_now e).
Proof.
  unfold TradeMonitor_to_dict, bind. rewrite TradeMonitor_get_daily_stats_eq.
  reflexivity.
Qed.

(** ** Snapshots under the lock *)

Lemma account_snapshot_eq (login_id : Z) (r : RealTimeMonitorSystem) (e : Env) :
  account_snapshot login_id (r, e) =
    match pydict.get login_id (monitored_accounts r) with
    | None => (Returned None, (r, e))
    | Some ms =>
        match TradeMonitor_to_dict (trades ms) e with
        | (Returned view, e') =>
            (Returned (Some {| snap_account := AccountMonitor.to_dict (account ms);
                               snap_positions := PositionMonitor.to_dict (positions ms);
                               snap_trades := view |}), (r, e'))
        | (Raised, e') => (Raised, (r, e'))
        end
    end.
Proof.
  unfold account_snapshot, bind, self, gets. cbn [fst].
  destruct (pydict.get login_id (monitored_accounts r)) as [ms |]; [| reflexivity].
  unfold on_env, zoom. cbn [fst snd].
  destruct (TradeMonitor_to_dict (trades ms) e) as [[view |] e']; reflexivity.
Qed.

(** X22: a snapshot of one account.  With the lock held the call blocks.
    With the lock free it completes and releases the lock: for an account
    that is not monitored it answers [None] and changes nothing; for a
    monitored account it answers the three views of its monitors, and the
    only trace it leaves is one reading of the clock. *)
Lemma account_snapshot_cases (login_id : Z) (w : World) :
  get_account_snapshot login_id (w, true) = (Blocked, (w, true)) ∧
  match pydict.get login_id (monitored_accounts w.1) with
  | None =>
      get_account_snapshot login_id (w, false) = (Completed (Returned None), (w, false))
  | Some ms =>
      ∃ view,
        TradeMonitor_to_dict (trades ms) w.2 = (Returned view, after_now w.2) ∧
        get_account_snapshot login_id (w, false) =
          (Completed (Returned (Some
             {| snap_account := AccountMonitor.to_dict (account ms);
                snap_positions := PositionMonitor.to_dict (positions ms);
                snap_trades := view |})),
           ((w.1, after_now w.2), false))
  end.
Proof.
  destruct w as [r e]. split; [reflexivity |]. cbn [fst snd].
  unfold get_account_snapshot, with_lock, unlocked. cbn [fst snd].
  rewrite account_snapshot_eq.
  destruct (pydict.get login_id (monitored_accounts r)) as [ms |]; [| reflexivity].
  rewrite TradeMonitor_to_dict_eq. eexists. split; reflexivity.
Qed.

Lemma snapshot_loop_blocks (keys : list Z) (snapshots : pydict.t Z snapshot)
    (w : World) :
  keys ≠ [] → snapshot_loop keys snapshots (w, true) = (Blocked, (w, true)).
Proof. destruct keys as [| login_id rest]; [contradiction | reflexivity]. Qed.

Lemma get_all_accounts_snapshot_eq (w : World) :
  get_all_accounts_snapshot (w, false) =
    if decide (pydict.keys (monitored_accounts w.1) = [])
    then (Completed (Returned []), (w, false))
    else (Blocked, (w, true)).
Proof.
  unfold get_all_accounts_snapshot, with_lock. cbn [fst snd].
  destruct (decide (pydict.keys (monitored_accounts w.1) = [])) as [-> | Hne].
  - reflexivity.
  - rewrite (snapshot_loop_blocks _ _ _ Hne). reflexivity.
Qed.

(** X23: [get_all_accounts_snapshot] takes the lock and then calls
    [get_account_snapshot], which takes the same lock, and the lock is not
    reentrant.  So the call returns only when no account is monitored, and
    then it returns the empty dictionary; with at least one account it
    blocks for ever, holding the lock and with the world as it was.  In
    particular it blocks after every [add_account]. *)
Lemma all_accounts_snapshot_blocks (w : World) :
  (pydict.len (monitored_accounts w.1) = 0 →
   get_all_accounts_snapshot (w, false) = (Completed (Returned []), (w, false))) ∧
  (pydict.len (monitored_accounts w.1) ≠ 0 →
   get_all_accounts_snapshot (w, false) = (Blocked, (w, true))) ∧
  (∀ login_id,
     (add_account_locked login_id (w, false)).1 = Completed (Returned tt) ∧
     (get_all_accounts_snapshot (add_account_locked login_id (w, false)).2).1
       = Blocked).
Proof.
  refine (conj _ (conj _ _)).
  - intros Hlen. rewrite get_all_accounts_snapshot_eq.
    unfold pydict.len, pydict.keys in *.
    destruct (monitored_accounts w.1); [reflexivity | cbn in Hlen; lia].
  - intros Hlen. rewrite get_all_accounts_snapshot_eq.
    unfold pydict.len, pydict.keys in *.
    destruct (monitored_accounts w.1); [contradiction | reflexivity].
  - intros login_id. destruct w as [r e].
    unfold add_account_locked, with_lock, unlocked. cbn [fst snd].
    rewrite add_account_eq.
    destruct (pydict.contains login_id (monitored_accounts r)) eqn:Hc.
    + split; [reflexivity |]. cbn [fst snd].
      rewrite get_all_accounts_snapshot_eq. cbn [fst].
      unfold pydict.contains, pydict.keys in *.
      destruct (monitored_accounts r); [discriminate | reflexivity].
    + split; [reflexivity |]. cbn [fst snd].
      rewrite get_all_accounts_snapshot_eq. cbn [fst monitored_accounts with_stats].
      rewrite decide_False; [reflexivity |].
      unfold pydict.keys. destruct (monitored_accounts r) as [| [k v] d]; cbn.
      * discriminate.
      * destruct (decide (k = login_id)); discriminate.
Qed.

(** ** What a frame reports *)

Lemma to_dict_nonempty (a : AccountMonitor.t) :
  bool_decide (AccountMonitor.to_dict a ≠ ∅) = true.
Proof.
  apply bool_decide_eq_true. intros Hempty.
  apply (f_equal (λ m : dict, m !! "login_id")) in Hempty.
  rewrite lookup_empty in Hempty. discriminate Hempty.
Qed.

Lemma not_own_extension {A} (l : list A) (x : A) : l ≠ l ++ [x].
Proof.
  intros Heq. apply (f_equal length) in Heq.
  rewrite length_app in Heq. cbn in Heq. lia.
Qed.

(** X24: the frame that the refresh of an account produces agrees with
    what the monitors hold after the refresh: the account fields, the
    positions and the time of the last trades update.  Its trade count is
    the number of stored trades, except when the closed trades request of
    the refresh raises: then the frame reports 0 trades although the
    stored trades are kept as they were. *)
Lemma frame_matches_store manager (ms : monitors) (ctx : Ctx) (f : frame) :
  let total := total_updates (ctx_stats ctx) in
  let ms' := (refresh manager (ms, ctx)).2.1 in
  accounts_data (refresh manager (ms, ctx)).2.2 = accounts_data ctx ++ [f] →
  fr_account f = AccountMonitor.to_dict (account ms') ∧
  fr_positions f = PositionMonitor.to_dict (positions ms') ∧
  fr_trades_last_update f = isoformat (TradeMonitor.last_update (trades ms')) ∧
  (total `mod` 5 = 0 → trades_reply manager ms (ctx_env ctx) = Raised →
     fr_trade_count f = 0 ∧ trades ms' = trades ms) ∧
  (total `mod` 5 ≠ 0 ∨ trades_reply manager ms (ctx_env ctx) ≠ Raised →
     fr_trade_count f = Z.of_nat (length (TradeMonitor.trades (trades ms')))).
Proof.
  destruct ms as [a p t], ctx as [st data e]. cbv zeta.
  unfold trades_reply, env_at_trades. cbn [account positions trades ctx_env ctx_stats].
  unfold refresh, on_account, on_positions, on_trades, append_frame.
  py_unfold.
  rewrite AccountMonitor_update_eq. cbv zeta.
  destruct (get_account_details manager e (AccountMonitor.login_id a)) as [info |];
    [destruct (dict_truthy info) eqn:Hinfo |];
    cbn [fst snd account positions trades ctx_env ctx_stats accounts_data];
    match goal with
    | |- context [PositionMonitor.update manager (?p0, ?e1)] =>
        destruct (PositionMonitor_update_spec manager p0 e1)
          as (rp & p' & e2 & st2 & Hp & _)
    end; rewrite Hp;
    cbn [fst snd account positions trades ctx_env ctx_stats accounts_data];
    (destruct (decide (total_updates st `mod` 5 = 0)) as [Hmod | Hmod];
     [rewrite TradeMonitor_update_eq; cbv zeta;
      cbn [fst snd account positions trades ctx_env ctx_stats accounts_data];
      destruct (get_closed_trades manager e2 (TradeMonitor.login_id t)
                  (TradeMonitor.from_date t)) as [ts |];
      [destruct (list_truthy ts) eqn:Hts |] |]);
    cbn [fst snd account positions trades ctx_env ctx_stats accounts_data
         dict_truthy default from_option id];
    rewrite ?to_dict_nonempty;
    cbn [fst snd account positions trades ctx_env ctx_stats accounts_data];
    intros Hdata;
    try (exfalso; exact (not_own_extension _ _ Hdata));
    apply app_inv_head in Hdata; injection Hdata as <-;
    cbn [fr_account fr_positions fr_trade_count fr_trades_last_update];
    (refine (conj eq_refl (conj eq_refl (conj eq_refl (conj _ _))));
     [ intros Hzero Hraised;
       first [discriminate Hraised | contradiction | split; reflexivity]
     | intros Hor; first [reflexivity | destruct Hor; congruence] ]).
Qed.

(** ** Starting and stopping *)

Lemma initialize_eq (construct : outcome MT5ManagerActions)
    (r : RealTimeMonitorSystem) (e : Env) :
  initialize construct (r, e) =
    match construct with
    | Returned client =>
        (Returned (connected client),
         ({| update_interval := update_interval r;
             monitored_accounts := monitored_accounts r;
             manager := Some client; running := running r;
             _callbacks := _callbacks r; stats := stats r |}, e))
    | Raised => (Returned false, (r, e))
    end.
Proof.
  unfold initialize. py_unfold.
  destruct construct as [client |]; cbn; [| reflexivity].
  destruct (connected client); reflexivity.
Qed.

(** X25: [start] never raises and touches nothing but the manager and the
    running flag.  It answers [True], and sets the flag, exactly when the
    engine was not running and either had a manager already or gets a
    connected one now; otherwise the flag stays as it was.  [stop] clears
    the flag and changes nothing else. *)
Lemma start_cases (construct : outcome MT5ManagerActions) (w : World) :
  let run := start construct w in
  let ready :=
    match manager w.1, construct with
    | Some _, _ => true
    | None, Returned client => connected client
    | None, Raised => false
    end in
  run.1 = Returned (ready && negb (running w.1)) ∧
  running run.2.1 = (running w.1 || ready) ∧
  monitored_accounts run.2.1 = monitored_accounts w.1 ∧
  stats run.2.1 = stats w.1 ∧
  _callbacks run.2.1 = _callbacks w.1 ∧
  run.2.2 = w.2 ∧
  (manager run.2.1 = manager w.1 ∨
   manager w.1 = None ∧ ∃ client, construct = Returned client ∧
                                  manager run.2.1 = Some client) ∧
  (stop run.2).1 = Returned tt ∧
  (stop run.2).2 = (set_running false run.2.1, run.2.2).
Proof.
  destruct w as [[interval registry [manager0 |] [] callbacks st] e];
    destruct construct as [client |];
    try destruct (connected client) eqn:Hconn;
    cbv zeta; unfold start, stop, initialize; py_unfold; rewrite ?Hconn; cbn;
    (refine (conj _ (conj _ (conj _ (conj _ (conj _ (conj _ (conj _ (conj _ _))))))));
     try reflexivity;
     first [ left; reflexivity
           | right; split; [reflexivity | eexists; split; reflexivity] ]).
Qed.

(** X26: a failed [start] is not retried on equal terms.  When the client
    was built but is not connected, the first [start] answers [False] yet
    keeps the client as the manager; a second [start] then skips
    [initialize], answers [True] and sets the engine running through the
    client that never connected. *)
Lemma start_retry_skips_connection (client : MT5ManagerActions)
    (construct : outcome MT5ManagerActions) (w : World) :
  manager w.1 = None →
  running w.1 = false →
  connected client = false →
  let first := start (Returned client) w in
  let second := start construct first.2 in
  first.1 = Returned false ∧
  second.1 = Returned true ∧
  running second.2.1 = true ∧
  manager second.2.1 = Some client.
Proof.
  destruct w as [[interval registry mgr run callbacks st] e].
  cbn [fst manager running]. intros -> -> Hconn. cbv zeta.
  unfold start, initialize. py_unfold. rewrite Hconn. cbn.
  refine (conj eq_refl (conj eq_refl (conj eq_refl eq_refl))).
Qed.

(** ** Registering several accounts *)

Lemma add_account_step (login_id : Z) (w : World) :
  pydict.wf (monitored_accounts w.1) → count_ok w →
  (add_account login_id w).1 = Returned tt ∧
  pydict.wf (monitored_accounts (add_account login_id w).2.1) ∧
  count_ok (add_account login_id w).2 ∧
  pydict.keys (monitored_accounts (add_account login_id w).2.1) =
    if decide (login_id ∈ pydict.keys (monitored_accounts w.1))
    then pydict.keys (monitored_accounts w.1)
    else pydict.keys (monitored_accounts w.1) ++ [login_id].
Proof.
  destruct w as [r e]. cbn [fst]. intros Hwf Hcount.
  rewrite add_account_eq. unfold pydict.contains.
  destruct (pydict.get login_id (monitored_accounts r)) as [ms |] eqn:Hget.
  - cbn [fst snd]. refine (conj eq_refl (conj Hwf (conj Hcount _))).
    rewrite decide_True; [reflexivity |].
    destruct (decide (login_id ∈ pydict.keys (monitored_accounts r))) as [Hin | Hnotin];
      [exact Hin |].
    apply pydict_get_None in Hnotin. congruence.
  - cbv zeta. cbn [fst snd monitored_accounts with_stats with_monitored_accounts].
    refine (conj eq_refl (conj _ (conj _ _))).
    + apply pydict_wf_set, Hwf.
    + reflexivity.
    + rewrite decide_False by (apply pydict_get_None, Hget).
      apply pydict_keys_set_absent, Hget.
Qed.

(** X27: the loop that registers the accounts of the command line never
    raises and never refuses an account: there is no bound on the size of
    the registry.  An identifier given twice, or monitored already, is
    registered once, so the count of monitored accounts is the number of
    distinct identifiers, which can be less than the number of arguments;
    identifiers that are new and distinct are appended in the order
    given. *)
Lemma add_accounts_spec (accounts : list Z) (w : World) :
  pydict.wf (monitored_accounts w.1) → count_ok w →
  let run := add_accounts accounts w in
  let keys := pydict.keys (monitored_accounts w.1) in
  run.1 = Returned tt ∧
  pydict.wf (monitored_accounts run.2.1) ∧
  count_ok run.2 ∧
  (∀ i, i ∈ pydict.keys (monitored_accounts run.2.1) ↔ i ∈ keys ∨ i ∈ accounts) ∧
  monitored_count (stats run.2.1)
    = Z.of_nat (length (remove_dups (keys ++ accounts))) ∧
  (NoDup (keys ++ accounts) →
   pydict.keys (monitored_accounts run.2.1) = keys ++ accounts).
Proof.
  cbv zeta. unfold add_accounts.
  revert w. induction accounts as [| login_id rest IH]; intros w Hwf Hcount.
  - cbn [for_each]. unfold ret. cbn [fst snd].
    refine (conj eq_refl (conj Hwf (conj Hcount (conj _ (conj _ _))))).
    + intros i. rewrite elem_of_nil. tauto.
    + rewrite app_nil_r. rewrite Hcount. unfold pydict.len. f_equal.
      unfold pydict.keys. rewrite <- (length_fmap fst).
      apply Permutation_length. apply NoDup_Permutation.
      * exact Hwf.
      * apply NoDup_remove_dups.
      * intros i. rewrite elem_of_remove_dups. reflexivity.
    + intros _. rewrite app_nil_r. reflexivity.
  - destruct (add_account_step login_id w Hwf Hcount) as (Hret & Hwf1 & Hcount1 & Hkeys1).
    cbn [for_each]. unfold bind.
    destruct (add_account login_id w) as [[[] |] w1] eqn:Hadd; [| discriminate Hret].
    cbn [fst snd] in Hwf1, Hcount1, Hkeys1.
    destruct (IH w1 Hwf1 Hcount1) as (Hret' & Hwf' & Hcount' & Hmem & Hlen & Horder).
    refine (conj Hret' (conj Hwf' (conj Hcount' (conj _ (conj _ _))))).
    + intros i. rewrite Hmem, Hkeys1, elem_of_cons.
      destruct (decide (login_id ∈ pydict.keys (monitored_accounts w.1))) as [Hin | Hnotin].
      * split; [tauto |]. intros [? | [-> | ?]]; tauto.
      * rewrite elem_of_app, list_elem_of_singleton. tauto.
    + rewrite Hlen, Hkeys1. f_equal. apply Permutation_length.
      apply NoDup_Permutation; [apply NoDup_remove_dups .. |].
      intros i. rewrite !elem_of_remove_dups.
      destruct (decide (login_id ∈ pydict.keys (monitored_accounts w.1))) as [Hin | Hnotin].
      * rewrite !elem_of_app, elem_of_cons.
        split; [tauto |]. intros [? | [-> | ?]]; tauto.
      * rewrite <- (assoc_L (++)). reflexivity.
    + intros Hnodup. rewrite Hkeys1 in Horder.
      assert (Hnotin : login_id ∉ pydict.keys (monitored_accounts w.1)).
      { apply list.NoDup_app in Hnodup as (_ & Hdisj & _).
        intros Hin. apply (Hdisj login_id Hin). left. }
      rewrite decide_False in Horder by exact Hnotin.
      rewrite Horder.
      * rewrite <- (assoc_L (++)). reflexivity.
      * rewrite <- (assoc_L (++)). exact Hnodup.
Qed.

(** * The properties at work on the small fleet *)

Lemma demo_details_nonempty : demo_details ≠ ∅.
Proof.
  intros Hempty. apply (f_equal (λ m : dict, m !! "balance")) in Hempty.
  vm_compute in Hempty. discriminate Hempty.
Defined.

Lemma demo_registry_ok : registry_ok demo_world.1.
Proof.
  split.
  - apply (bool_decide_unpack _). vm_compute. exact I.
  - repeat constructor.
Defined.

Lemma calculate_margin_level_law_witness :
  calculate_margin_level (to_float (float 520)) (S754_zero true) = fzero ∧
  calculate_margin_level (to_float (float 520)) (to_float (float 100))
    = fmul (fdiv (to_float (float 520)) (to_float (float 100))) (to_float (float 100)) ∧
  calculate_margin_level (to_float (float 520)) S754_nan = S754_nan.
Proof.
  refine (conj _ (conj _ _)).
  - apply (proj1 (calculate_margin_level_law (to_float (float 520)) (S754_zero true))).
    exists true. reflexivity.
  - apply (proj1 (proj2 (calculate_margin_level_law (to_float (float 520))
                           (to_float (float 100))))).
    intros s Heq. vm_compute in Heq. discriminate Heq.
  - apply (proj2 (proj2 (calculate_margin_level_law (to_float (float 520)) S754_nan))).
    reflexivity.
Defined.

Lemma details_fetch_cases_witness :
  AccountMonitor.status
    (AccountMonitor.update demo_manager (AccountMonitor.__init__ 1002, demo_env)).2.1
    = "active" ∧
  AccountMonitor.status
    (AccountMonitor.update demo_manager (AccountMonitor.__init__ 1001, demo_env)).2.1
    = "unavailable" ∧
  AccountMonitor.status
    (AccountMonitor.update demo_manager (AccountMonitor.__init__ 1003, demo_env)).2.1
    = "error".
Proof.
  split; [| split].
  - apply (proj1 (details_fetch_cases demo_manager (AccountMonitor.__init__ 1002) demo_env)
             demo_details eq_refl demo_details_nonempty).
  - apply (proj1 (proj2 (details_fetch_cases demo_manager
             (AccountMonitor.__init__ 1001) demo_env)) (or_introl eq_refl)).
  - apply (proj2 (proj2 (details_fetch_cases demo_manager
             (AccountMonitor.__init__ 1003) demo_env)) eq_refl).
Defined.

Lemma registry_idempotence_witness :
  (add_account 1001 demo_world).2 = demo_world ∧
  (remove_account 1003 demo_world).2 = demo_world.
Proof.
  split.
  - apply (proj1 (proj2 (registry_idempotence 1001 demo_world))). reflexivity.
  - apply (proj1 (proj2 (proj2 (registry_idempotence 1003 demo_world)))). reflexivity.
Defined.

Lemma frames_only_for_succeeded_details_witness :
  (_update_all_accounts demo_world).1 = Returned tt ∧
  ∃ frames,
    delivered_during demo_world (tick demo_world)
      = imap (λ i _, (i, frames)) (_callbacks demo_world.1) ∧
    frame_login_id <$> frames =
      (λ i, VNum (float i)) <$>
        succeeded_details (calls_during demo_world (tick demo_world)).
Proof.
  apply (frames_only_for_succeeded_details demo_world demo_manager). reflexivity.
Defined.

Lemma closed_trades_cadence_witness :
  Z.of_nat (fetch_count 1001 (calls_during demo_world (run_ticks 11 demo_world)))
    = (Z.of_nat 11 + 4) `div` 5.
Proof.
  apply (proj1 (closed_trades_cadence demo_world demo_manager
                  eq_refl demo_registry_ok 11 1001 eq_refl
                  ltac:(apply (bool_decide_unpack _); vm_compute; exact I))).
Defined.

Lemma monitored_count_invariant_witness :
  count_ok (run_ops [Add 7; Remove 1001; Add 7; Remove 5] demo_world).
Proof.
  apply (proj2 (monitored_count_invariant [Add 7; Remove 1001; Add 7; Remove 5])
           demo_world).
  reflexivity.
Defined.

Lemma exposure_volume_is_gross_witness :
  ∃ exposure,
    (get_total_exposure_by_symbol (tick demo_world)).1 = Returned exposure ∧
    (pydict.get (VStr "EURUSD") exposure = None ↔
       with_symbol (VStr "EURUSD") (fleet_positions (tick demo_world)) = []) ∧
    ∀ entry, pydict.get (VStr "EURUSD") exposure = Some entry →
      Exposure.volume entry
        = gross_volume (VStr "EURUSD") (monitored_accounts (tick demo_world).1).
Proof.
  apply (exposure_volume_is_gross (tick demo_world) (VStr "EURUSD")).
  apply (bool_decide_unpack _). vm_compute. exact I.
Defined.

(** The additions round as Python's do: one account holds 0.1 and 0.2 lots
    of EURUSD, and the exposure reports 0.30000000000000004, which is not
    the float 0.3. *)
Lemma decimal_exposure_rounds :
  ∃ exposure entry,
    (get_total_exposure_by_symbol decimal_world).1 = Returned exposure ∧
    pydict.get (VStr "EURUSD") exposure = Some entry ∧
    Exposure.volume entry = S754_finite false 5404319552844596 (-54) ∧
    Exposure.volume entry ≠ to_float (Q2Qc (3 # 10)).
Proof.
  eexists _, _. split; [vm_compute; reflexivity |].
  split; [vm_compute; reflexivity |].
  split; [vm_compute; reflexivity |].
  vm_compute. discriminate.
Qed.

(** ** The further properties at work *)

Lemma positions_fetch_cases_witness :
  (PositionMonitor.update history_manager (PositionMonitor.__init__ 1002, demo_env)).1
    = Returned [demo_position "EURUSD" 1 "Buy"] ∧
  PositionMonitor.positions
    (PositionMonitor.update history_manager
       (PositionMonitor.set_positions [unnamed_position] (PositionMonitor.__init__ 1001),
        demo_env)).2.1 = [] ∧
  (PositionMonitor.update history_manager
     (PositionMonitor.set_positions [unnamed_position] (PositionMonitor.__init__ 1003),
      demo_env)).2.1
    = PositionMonitor.set_positions [unnamed_position] (PositionMonitor.__init__ 1003).
Proof.
  split; [| split].
  - apply (proj1 (positions_fetch_cases history_manager
                    (PositionMonitor.__init__ 1002) demo_env)
             [demo_position "EURUSD" 1 "Buy"] eq_refl).
    discriminate.
  - apply (proj1 (proj2 (positions_fetch_cases history_manager
                    (PositionMonitor.set_positions [unnamed_position]
                       (PositionMonitor.__init__ 1001)) demo_env)) eq_refl).
  - apply (proj2 (proj2 (positions_fetch_cases history_manager
                    (PositionMonitor.set_positions [unnamed_position]
                       (PositionMonitor.__init__ 1003)) demo_env)) eq_refl).
Defined.

Lemma trades_fetch_cases_witness :
  TradeMonitor.trades
    (TradeMonitor.update history_manager (demo_trade_monitor 1004, demo_env)).2.1
    = [demo_trade] ∧
  TradeMonitor.trades
    (TradeMonitor.update history_manager (demo_trade_monitor 1001, demo_env)).2.1
    = [] ∧
  (TradeMonitor.update history_manager (demo_trade_monitor 1002, demo_env)).2.1
    = demo_trade_monitor 1002.
Proof.
  split; [| split].
  - apply (proj1 (proj2 (proj2 (trades_fetch_cases history_manager
                    (demo_trade_monitor 1004) demo_env)))
             [demo_trade] eq_refl).
    discriminate.
  - apply (proj1 (proj2 (proj2 (proj2 (trades_fetch_cases history_manager
                    (demo_trade_monitor 1001) demo_env)))) eq_refl).
  - apply (proj2 (proj2 (proj2 (proj2 (trades_fetch_cases history_manager
                    (demo_trade_monitor 1002) demo_env)))) eq_refl).
Defined.

Lemma ticks_request_sequence_witness :
  (calls_during demo_world (run_ticks 6 demo_world)).*1 =
    run_requests (total_updates (stats demo_world.1)) 6 (monitored_accounts demo_world.1).
Proof.
  apply (ticks_request_sequence 6 demo_world demo_manager). reflexivity.
Defined.

Lemma ticks_bookkeeping_witness :
  run_ticks 3 (__init__ 5, demo_env) = (__init__ 5, demo_env) ∧
  total_updates (stats (run_ticks 3 demo_world).1)
    = total_updates (stats demo_world.1) + Z.of_nat 3.
Proof.
  split.
  - apply (proj1 (ticks_bookkeeping 3 (__init__ 5, demo_env))). reflexivity.
  - apply (proj2 (ticks_bookkeeping 3 demo_world) demo_manager). reflexivity.
Defined.

Lemma no_leak_after_remove_witness :
  let w1 := (remove_account 1001 demo_world).2 in
  (∀ c, c ∈ calls_during w1 (run_ticks 2 w1) → rpc_login c.1 ≠ 1001) ∧
  (∀ d f, d ∈ delivered_during w1 (run_ticks 2 w1) → f ∈ d.2 →
     frame_login_id f ≠ VNum (float 1001)).
Proof.
  apply (no_leak_after_remove 2 demo_world demo_manager 1001).
  - reflexivity.
  - exact demo_registry_ok.
Defined.

Lemma history_window_anchored_witness :
  let w1 := (add_account 1005 demo_world).2 in
  GetClosedTrades 1005 (clock demo_world.2 - timedelta_days 30)
    ∈ (calls_during w1 (run_ticks 1 w1)).*1 ∧
  clock demo_world.2 - timedelta_days 30 = clock demo_world.2 - timedelta_days 30.
Proof.
  assert (Hasked : GetClosedTrades 1005 (clock demo_world.2 - timedelta_days 30)
                     ∈ (calls_during (add_account 1005 demo_world).2
                          (run_ticks 1 (add_account 1005 demo_world).2)).*1).
  { apply (bool_decide_unpack _). vm_compute. exact I. }
  split; [exact Hasked |].
  apply (history_window_anchored 1 demo_world demo_manager 1005
           (clock demo_world.2 - timedelta_days 30)).
  - reflexivity.
  - exact demo_registry_ok.
  - reflexivity.
  - exact Hasked.
Defined.

Lemma add_then_remove_witness :
  let w' := (remove_account 1005 (add_account 1005 demo_world).2).2 in
  w'.1 = demo_world.1 ∧ rpc_log w'.2 = rpc_log demo_world.2 ∧
  clock w'.2 = clock demo_world.2 + 1.
Proof.
  apply (add_then_remove 1005 demo_world).
  - reflexivity.
  - reflexivity.
Defined.

Lemma remove_then_add_witness :
  let w' := (add_account 1002 (remove_account 1002 demo_world).2).2 in
  pydict.keys (monitored_accounts w'.1)
    = filter (λ i, i ≠ 1002) (pydict.keys (monitored_accounts demo_world.1)) ++ [1002] ∧
  account_monitor_of 1002 w' = Some (AccountMonitor.__init__ 1002) ∧
  position_monitor_of 1002 w' = Some (PositionMonitor.__init__ 1002) ∧
  (TradeMonitor.trades <$> trade_monitor_of 1002 w') = Some [].
Proof.
  apply (remove_then_add 1002 demo_world).
  - exact (proj1 demo_registry_ok).
  - reflexivity.
Defined.

Lemma exposure_returns_iff_numeric_witness :
  ∃ exposure, (get_total_exposure_by_symbol (tick demo_world)).1 = Returned exposure.
Proof.
  apply (proj2 (proj1 (exposure_returns_iff_numeric (tick demo_world)))).
  apply (bool_decide_unpack _). vm_compute. exact I.
Defined.

Lemma exposure_counts_witness :
  ∃ exposure,
    (get_total_exposure_by_symbol (tick demo_world)).1 = Returned exposure ∧
    ∀ entry, pydict.get (VStr "EURUSD") exposure = Some entry →
      Exposure.accounts entry
        = Z.of_nat (length (holders (VStr "EURUSD")
                              (monitored_accounts (tick demo_world).1))) ∧
      Exposure.positions entry
        = sum_Z (matches_count (VStr "EURUSD")
                   <$> holders (VStr "EURUSD") (monitored_accounts (tick demo_world).1)) ∧
      (VStr "EURUSD" ≠ VNone → VStr "EURUSD" ≠ VStr "" →
       Exposure.positions entry
         = Z.of_nat (length (with_symbol (VStr "EURUSD")
                               (fleet_positions (tick demo_world))))).
Proof.
  apply (exposure_counts (tick demo_world) (VStr "EURUSD")).
  apply (bool_decide_unpack _). vm_compute. exact I.
Defined.

Lemma exposure_of_unnamed_positions_witness :
  ∃ exposure,
    (get_total_exposure_by_symbol (tick demo_world)).1 = Returned exposure ∧
    ∀ entry, pydict.get (VStr "") exposure = Some entry →
      Exposure.volume entry =
        fsum ((λ kv : Z * monitors,
                 fsum (volume_of <$> filter unnamed
                                       (PositionMonitor.positions (positions kv.2))))
                <$> filter (λ kv : Z * monitors,
                              filter unnamed (PositionMonitor.positions (positions kv.2))
                                ≠ []) (monitored_accounts (tick demo_world).1)) ∧
      Exposure.positions entry =
        Z.of_nat (length
          (filter (λ pos : dict, pos !! "symbol" = Some (VStr ""))
             (fleet_positions (tick demo_world)))).
Proof.
  apply (exposure_of_unnamed_positions (tick demo_world)).
  apply (bool_decide_unpack _). vm_compute. exact I.
Defined.

Lemma health_status_agrees_with_alerts_witness :
  get_account_health_status RMSConfig.defaults demo_details =
    Returned (match check_margin_alert RMSConfig.defaults (float 0) with
              | Some level => level
              | None =>
                  if check_loss_alert RMSConfig.defaults (float 0)
                  then "warning" else "healthy"
              end).
Proof.
  apply (health_status_agrees_with_alerts RMSConfig.defaults demo_details
           (float 0) (float 0)).
  - vm_compute. reflexivity.
  - vm_compute. reflexivity.
Defined.

Lemma health_status_raises_iff_witness :
  get_account_health_status RMSConfig.defaults garbled_account = Raised.
Proof.
  apply (proj2 (health_status_raises_iff RMSConfig.defaults garbled_account)).
  left. vm_compute. reflexivity.
Defined.

Lemma zero_margin_is_critical_witness :
  ∃ level,
    exact_value (calculate_margin_level (to_float (float 520)) (S754_zero true))
      = Some level ∧
    check_margin_alert RMSConfig.defaults level = Some "critical".
Proof.
  apply (zero_margin_is_critical RMSConfig.defaults (to_float (float 520))
           (S754_zero true)).
  - vm_compute. discriminate.
  - reflexivity.
Defined.

Lemma group_positions_by_symbol_partitions_witness :
  ∃ group,
    pydict.get (VStr "UNKNOWN")
      (group_positions_by_symbol
         [demo_position "EURUSD" 1 "Buy"; unnamed_position]) = Some group ∧
    unnamed_position ∈ group.
Proof.
  apply (proj2 (proj2 (proj2 (group_positions_by_symbol_partitions
           [demo_position "EURUSD" 1 "Buy"; unnamed_position])))).
  - apply (bool_decide_unpack _). vm_compute. exact I.
  - vm_compute. reflexivity.
Defined.

Lemma all_accounts_snapshot_blocks_witness :
  get_all_accounts_snapshot ((__init__ 5, demo_env), false)
    = (Completed (Returned []), ((__init__ 5, demo_env), false)) ∧
  get_all_accounts_snapshot (demo_world, false) = (Blocked, (demo_world, true)).
Proof.
  split.
  - apply (proj1 (all_accounts_snapshot_blocks (__init__ 5, demo_env))). reflexivity.
  - apply (proj1 (proj2 (all_accounts_snapshot_blocks demo_world))).
    vm_compute. discriminate.
Defined.

Lemma frame_matches_store_witness :
  fr_trade_count demo_frame = 0 ∧
  trades (refresh history_manager (demo_monitors 1002, demo_ctx)).2.1
    = demo_trade_monitor 1002.
Proof.
  apply (proj1 (proj2 (proj2 (proj2
           (frame_matches_store history_manager (demo_monitors 1002) demo_ctx
              demo_frame ltac:(vm_compute; reflexivity)))))).
  - reflexivity.
  - vm_compute. reflexivity.
Defined.

Lemma start_retry_skips_connection_witness :
  let first := start (Returned offline_manager) (__init__ 5, demo_env) in
  let second := start Raised first.2 in
  first.1 = Returned false ∧
  second.1 = Returned true ∧
  running second.2.1 = true ∧
  manager second.2.1 = Some offline_manager.
Proof.
  apply (start_retry_skips_connection offline_manager Raised (__init__ 5, demo_env)).
  - reflexivity.
  - reflexivity.
  - reflexivity.
Defined.

Lemma add_accounts_spec_witness :
  monitored_count (stats (add_accounts [7; 1001; 7] demo_world).2.1)
    = Z.of_nat (length (remove_dups
        (pydict.keys (monitored_accounts demo_world.1) ++ [7; 1001; 7]))).
Proof.
  apply (proj1 (proj2 (proj2 (proj2 (proj2
           (add_accounts_spec [7; 1001; 7] demo_world
              (proj1 demo_registry_ok) eq_refl)))))).
Defined.
